(** * Compliance checker (script.py): a shallow embedding and its properties

    The script queries a GitLab-compatible REST API and computes a
    compliance status for a project.  The embedding follows the script
    function by function:

    - Python strings are Rocq strings; the case and whitespace functions are
      the ASCII ones (file names, patterns and inputs outside ASCII are out
      of the model's reach);
    - the remote API is a deterministic state machine [handle] over an
      arbitrary state type, so the same request may be answered differently
      at different times;
    - every function that talks to the API lives in a small state and
      exception monad [M]: the state holds the server, the log of the
      requests issued so far and the warnings shown to the user; the
      exceptions are the Python ones the script can raise on ill-shaped JSON;
    - JSON bodies are values of the type [json]; Python dicts with string
      keys built by the script are finite maps. *)

From Stdlib Require Import PrimFloat.
From Stdlib Require Uint63.
From stdpp Require Import gmap strings list fin_maps pretty.
From Equations Require Import Equations.
From Stdlib Require Import ZArith Ascii.

(** ** Python string operations (ASCII) *)

Module PyStr.

Definition code (c : ascii) : N := N_of_ascii c.

Definition in_range (lo hi : N) (c : ascii) : bool :=
  ((lo <=? code c) && (code c <=? hi))%N.

Definition is_upper (c : ascii) : bool := in_range 65 90 c.
Definition is_lower (c : ascii) : bool := in_range 97 122 c.
Definition is_digit (c : ascii) : bool := in_range 48 57 c.
Definition is_alnum (c : ascii) : bool := is_upper c || is_lower c || is_digit c.

(** [str.isspace] on the ASCII range: TAB, LF, VT, FF, CR, FS, GS, RS, US
    and the space. *)
Definition is_space (c : ascii) : bool := in_range 9 13 c || in_range 28 32 c.

Definition lower_char (c : ascii) : ascii :=
  if is_upper c then ascii_of_N (code c + 32) else c.

Definition upper_char (c : ascii) : ascii :=
  if is_lower c then ascii_of_N (code c - 32) else c.

Fixpoint map_chars (f : ascii -> ascii) (s : string) : string :=
  match s with
  | EmptyString => EmptyString
  | String c s' => String (f c) (map_chars f s')
  end.

(** [s.lower()] and [s.upper()]. *)
Definition lower : string -> string := map_chars lower_char.
Definition upper : string -> string := map_chars upper_char.

(** [s.endswith(suffix)]: some tail of [s] is [suffix]. *)
Fixpoint endswith (s suffix : string) : bool :=
  String.eqb s suffix ||
  match s with
  | EmptyString => false
  | String _ s' => endswith s' suffix
  end.

(** [sub in s]. *)
Fixpoint contains (sub s : string) : bool :=
  String.prefix sub s ||
  match s with
  | EmptyString => false
  | String _ s' => contains sub s'
  end.

(** [s.replace(old, new)] for a non-empty [old] (the only use in the
    script): occurrences are found from left to right and do not overlap.
    [skip] counts the characters of an occurrence still to be dropped. *)
Fixpoint replace_from (old new : string) (skip : nat) (s : string) : string :=
  match s with
  | EmptyString => EmptyString
  | String c s' =>
      match skip with
      | S k => replace_from old new k s'
      | O =>
          if String.prefix old s
          then new +:+ replace_from old new (String.length old - 1) s'
          else String c (replace_from old new 0 s')
      end
  end.

Definition replace (old new s : string) : string := replace_from old new 0 s.

(** [s.split(sep)] for a non-empty [sep]: the current segment and the list of
    the segments after it. *)
Fixpoint split_from (sep : string) (skip : nat) (s : string) : string * list string :=
  match s with
  | EmptyString => (EmptyString, [])
  | String c s' =>
      match skip with
      | S k => split_from sep k s'
      | O =>
          if String.prefix sep s
          then (EmptyString,
                let '(seg, rest) := split_from sep (String.length sep - 1) s' in
                seg :: rest)
          else let '(seg, rest) := split_from sep 0 s' in (String c seg, rest)
      end
  end.

Definition split (sep s : string) : list string :=
  let '(seg, rest) := split_from sep 0 s in seg :: rest.

(** [s.split(sep)[0]]; the list is never empty. *)
Definition first_segment (sep s : string) : string :=
  hd EmptyString (split sep s).

Fixpoint lstrip (s : string) : string :=
  match s with
  | EmptyString => EmptyString
  | String c s' => if is_space c then lstrip s' else s
  end.

Fixpoint rstrip (s : string) : string :=
  match s with
  | EmptyString => EmptyString
  | String c s' =>
      match rstrip s' with
      | EmptyString => if is_space c then EmptyString else String c EmptyString
      | r => String c r
      end
  end.

(** [s.strip()]. *)
Definition strip (s : string) : string := rstrip (lstrip s).

Fixpoint all_chars (p : ascii -> bool) (s : string) : bool :=
  match s with
  | EmptyString => true
  | String c s' => p c && all_chars p s'
  end.

(** [s.isdigit()]: at least one character, and all of them digits. *)
Definition isdigit (s : string) : bool :=
  match s with
  | EmptyString => false
  | _ => all_chars is_digit s
  end.

Definition hex_digit (n : N) : ascii :=
  if (n <? 10)%N then ascii_of_N (48 + n) else ascii_of_N (55 + n).

(** Characters [requests.utils.quote] never escapes. *)
Definition unreserved (c : ascii) : bool :=
  is_alnum c || Ascii.eqb c "_" || Ascii.eqb c "." || Ascii.eqb c "-" || Ascii.eqb c "~".

(** [requests.utils.quote(s, safe='')]: the string is read as its bytes. *)
Fixpoint quote (s : string) : string :=
  match s with
  | EmptyString => EmptyString
  | String c s' =>
      if unreserved c then String c (quote s')
      else String "%" (String (hex_digit (code c / 16))
                         (String (hex_digit (code c mod 16)) (quote s')))
  end.

End PyStr.

(** ** The fragment of Python regular expressions the script uses

    Literal characters, [\c] for a character that is not a letter or a
    digit, [.], a postfix star on a single character or on [.], and [$]. *)

Module Re.

Inductive atom : Type :=
| Lit (c : ascii)
| AnyChar.

Inductive item : Type :=
| One (a : atom)
| Star (a : atom)
| Eos.

Definition regex : Type := list item.

Inductive token : Type :=
| TAtom (a : atom)
| TStar
| TDollar
| TBad.

Fixpoint mem_char (c : ascii) (s : string) : bool :=
  match s with
  | EmptyString => false
  | String d s' => Ascii.eqb c d || mem_char c s'
  end.

Definition is_meta (c : ascii) : bool := mem_char c "^+?{}[]()|".

Fixpoint tokens (s : string) : list token :=
  match s with
  | EmptyString => []
  | String c s' =>
      if Ascii.eqb c "\" then
        match s' with
        | EmptyString => [TBad]
        | String d s'' =>
            (if PyStr.is_alnum d then TBad else TAtom (Lit d)) :: tokens s''
        end
      else if Ascii.eqb c "." then TAtom AnyChar :: tokens s'
      else if Ascii.eqb c "*" then TStar :: tokens s'
      else if Ascii.eqb c "$" then TDollar :: tokens s'
      else if is_meta c then TBad :: tokens s'
      else TAtom (Lit c) :: tokens s'
  end.

Fixpoint group (ts : list token) : option regex :=
  match ts with
  | [] => Some []
  | TAtom a :: ts' =>
      match ts' with
      | TStar :: ts'' => cons (Star a) <$> group ts''
      | _ => cons (One a) <$> group ts'
      end
  | TDollar :: ts' => cons Eos <$> group ts'
  | TStar :: _ => None
  | TBad :: _ => None
  end.

(** [re.compile(pattern)], [None] outside the fragment. *)
Definition compile (pattern : string) : option regex := group (tokens pattern).

(** With [re.IGNORECASE] a literal matches both cases of its letter; [.]
    matches everything but a newline.  This is Python's answer on ASCII
    characters; outside ASCII Python also lets [i] match U+0130 and U+0131,
    [s] match U+017F and [k] match U+212A, so the statements that tell which
    names match are about ASCII names. *)
Definition accepts (a : atom) (c : ascii) : bool :=
  match a with
  | Lit p => Ascii.eqb (PyStr.lower_char c) (PyStr.lower_char p)
  | AnyChar => negb (Ascii.eqb c "010")
  end.

(** [$] holds at the end of the string and just before a final newline. *)
Definition at_end (s : string) : bool :=
  match s with
  | EmptyString => true
  | String c EmptyString => Ascii.eqb c "010"
  | _ => false
  end.

(** [star a k s]: [k] holds after some number of characters accepted by [a]. *)
Fixpoint star (a : atom) (k : string -> bool) (s : string) : bool :=
  k s ||
  match s with
  | EmptyString => false
  | String c s' => accepts a c && star a k s'
  end.

(** Some prefix of [s] is matched by [re]. *)
Fixpoint match_here (re : regex) : string -> bool :=
  match re with
  | [] => fun _ => true
  | One a :: re' =>
      fun s =>
        match s with
        | EmptyString => false
        | String c s' => accepts a c && match_here re' s'
        end
  | Star a :: re' => star a (match_here re')
  | Eos :: re' => fun s => at_end s && match_here re' s
  end.

(** The truth value of [re.match(pattern, s, re.IGNORECASE)]: the match is
    anchored at the start of [s].  A pattern outside the fragment is not
    modelled; [false] is then a convention, not Python's answer. *)
Definition match_ignorecase (pattern s : string) : bool :=
  match compile pattern with
  | Some re => match_here re s
  | None => false
  end.

End Re.

(** ** Constants of the script *)

Definition GITLAB_URL : string := "https://code.swecha.org".
Definition API_URL : string := GITLAB_URL +:+ "/api/v4".

Definition REQUIRED_FILES : list string :=
  ["README.md"; "CONTRIBUTING.md"; "CHANGELOG.md"; "LICENSE"].

Definition FLEXIBLE_EXTENSION_FILES : list string := ["CHANGELOG"].

Definition ISSUE_TEMPLATE_PATTERNS : list string :=
  ["issue.*template.*\.md$";
   "issue.*templates.*\.md$";
   "issuetemplate.*\.md$";
   "issuetemplates.*\.md$"].

Definition MR_TEMPLATE_PATTERNS : list string :=
  ["merge.*request.*template.*\.md$";
   "merge.*request.*templates.*\.md$";
   "mr.*template.*\.md$";
   "mr.*templates.*\.md$";
   "mergerequesttemplate.*\.md$";
   "mergerequesttemplates.*\.md$"].

(** ** Template file names *)

Definition match_template_patterns (filename : string) (patterns : list string) : bool :=
  if negb (PyStr.endswith (PyStr.lower filename) ".md") then false
  else
    let filename_lower := PyStr.lower filename in
    existsb (fun pattern => Re.match_ignorecase pattern filename_lower) patterns.

(** ** JSON values and the Python operations on them *)

#[local] Set Warnings "-register-all,-clear-no-such-hyp".

Inductive json : Type :=
| JNull
| JBool (b : bool)
| JNum (n : Z)
| JStr (s : string)
| JArr (items : list json)
| JObj (fields : list (string * json)).

Inductive exn : Type :=
| KeyError
| IndexError
| TypeError
| AttributeError.

Inductive outcome (A : Type) : Type :=
| Ret (a : A)
| Raise (e : exn).
Arguments Ret {A} a.
Arguments Raise {A} e.

Module Py.

(** [bool(x)]. *)
Definition truthy (x : json) : bool :=
  match x with
  | JNull => false
  | JBool b => b
  | JNum n => negb (n =? 0)%Z
  | JStr s => negb (String.eqb s "")
  | JArr items => match items with [] => false | _ => true end
  | JObj fields => match fields with [] => false | _ => true end
  end.

(** [len(x)]. *)
Definition len (x : json) : outcome Z :=
  match x with
  | JStr s => Ret (Z.of_nat (String.length s))
  | JArr items => Ret (Z.of_nat (length items))
  | JObj fields => Ret (Z.of_nat (length fields))
  | _ => Raise TypeError
  end.

(** The keys of an object are pairwise distinct, as in the dict that
    [res.json()] builds. *)
Fixpoint assoc (key : string) (fields : list (string * json)) : option json :=
  match fields with
  | [] => None
  | (k, v) :: fields' => if String.eqb k key then Some v else assoc key fields'
  end.

(** [x.get(key)]: [None] is [JNull]. *)
Definition get (x : json) (key : string) : outcome json :=
  match x with
  | JObj fields => Ret (default JNull (assoc key fields))
  | _ => Raise AttributeError
  end.

(** [x[key]] for a string [key]. *)
Definition item (x : json) (key : string) : outcome json :=
  match x with
  | JObj fields =>
      match assoc key fields with
      | Some v => Ret v
      | None => Raise KeyError
      end
  | _ => Raise TypeError
  end.

Fixpoint chars (s : string) : list json :=
  match s with
  | EmptyString => []
  | String c s' => JStr (String c EmptyString) :: chars s'
  end.

(** [x[0]]. *)
Definition first (x : json) : outcome json :=
  match x with
  | JArr items => match items with v :: _ => Ret v | [] => Raise IndexError end
  | JStr s => match chars s with v :: _ => Ret v | [] => Raise IndexError end
  | JObj _ => Raise KeyError
  | _ => Raise TypeError
  end.

(** The values [for v in x] goes through. *)
Definition iter (x : json) : outcome (list json) :=
  match x with
  | JArr items => Ret items
  | JObj fields => Ret ((fun kv => JStr (fst kv)) <$> fields)
  | JStr s => Ret (chars s)
  | _ => Raise TypeError
  end.

(** [x == s] for a string literal [s]. *)
Definition eq_str (x : json) (s : string) : bool :=
  match x with
  | JStr t => String.eqb t s
  | _ => false
  end.

End Py.

(** ** The HTTP layer *)

Record request : Type := mk_request {
  url : string;
  headers : gmap string string;
  params : gmap string json
}.

Record response : Type := mk_response {
  status_code : Z;
  body : json
}.

(** ** The monad of the script *)

Record world (S : Type) : Type := mk_world {
  server : S;
  requests : list request;
  warnings : list string
}.
Arguments mk_world {S} _ _ _.
Arguments server {S} _.
Arguments requests {S} _.
Arguments warnings {S} _.

Definition M (S A : Type) : Type := world S -> outcome A * world S.

Definition ret {S A} (a : A) : M S A := fun w => (Ret a, w).

Definition bind {S A B} (m : M S A) (k : A -> M S B) : M S B := fun w =>
  match m w with
  | (Ret a, w') => k a w'
  | (Raise e, w') => (Raise e, w')
  end.

Notation "'let*' x ':=' m 'in' k" := (bind m (fun x => k))
  (at level 10, x name, m at level 100, k at level 200).

Definition lift {S A} (o : outcome A) : M S A := fun w => (o, w).

(** [st.warning(msg)]. *)
Definition st_warning {S} (msg : string) : M S unit := fun w =>
  (Ret tt, mk_world (server w) (requests w) (warnings w ++ [msg])).

(** [for x in l: if check(x): return True] followed by [return False]. *)
Fixpoint first_hit {S A} (check : A -> M S bool) (l : list A) : M S bool :=
  match l with
  | [] => ret false
  | x :: l' =>
      let* b := check x in
      if b then ret true else first_hit check l'
  end.

(** ** The script *)

Section Script.

(** The remote API and the token of [st.secrets]. *)
Context {S : Type}.
Variable handle : S -> request -> S * response.
Variable API_TOKEN : string.

#[local] Abbreviation M := (M S).
#[local] Abbreviation world := (world S).

(** [requests.get(url, headers=..., params=...)]. *)
Definition requests_get (u : string) (h : gmap string string)
    (p : gmap string json) : M response := fun w =>
  let req := mk_request u h p in
  let '(s', res) := handle (server w) req in
  (Ret res, mk_world s' (requests w ++ [req]) (warnings w)).

Definition get_headers : gmap string string := {[ "PRIVATE-TOKEN" := API_TOKEN ]}.

Definition file_url (project_id : Z) (file_path : string) : string :=
  API_URL +:+ "/projects/" +:+ pretty project_id +:+ "/repository/files/"
  +:+ PyStr.quote file_path.

(** One lookup of a file on a branch; [file_exists] issues the same lookup
    in the body of its loop. *)
Definition file_exists_with_branch (project_id : Z) (file_path branch : string) : M bool :=
  let* res := requests_get (file_url project_id file_path) get_headers
                {[ "ref" := JStr branch ]} in
  ret (status_code res =? 200)%Z.

Definition file_exists (project_id : Z) (file_path : string) : M bool :=
  first_hit (file_exists_with_branch project_id file_path) ["master"; "main"].

Definition file_exists_flexible (project_id : Z) (file_path : string) : M bool :=
  let* b := file_exists project_id file_path in
  if b then ret true
  else
    let base_name := PyStr.replace ".md" "" file_path in
    if existsb (String.eqb base_name) FLEXIBLE_EXTENSION_FILES then
      let* b := file_exists project_id base_name in
      if b then ret true
      else
        let variations :=
          [ PyStr.upper base_name;
            PyStr.lower base_name;
            base_name +:+ ".txt";
            PyStr.upper base_name +:+ ".txt";
            PyStr.lower base_name +:+ ".txt";
            base_name +:+ ".rst";
            PyStr.upper base_name +:+ ".rst";
            PyStr.lower base_name +:+ ".rst" ] in
        first_hit (file_exists project_id) variations
    else ret false.

(** The names of the tree entries that are files:
    [[f["name"] for f in res.json() if f["type"] == "blob"]]. *)
Fixpoint blob_names (entries : list json) : outcome (list json) :=
  match entries with
  | [] => Ret []
  | f :: entries' =>
      match Py.item f "type" with
      | Raise e => Raise e
      | Ret ty =>
          if Py.eq_str ty "blob" then
            match Py.item f "name" with
            | Raise e => Raise e
            | Ret name =>
                match blob_names entries' with
                | Raise e => Raise e
                | Ret names => Ret (name :: names)
                end
            end
          else blob_names entries'
      end
  end.

(** [match_template_patterns] called on a JSON value: [filename.lower()]
    needs a string. *)
Definition match_template_name (patterns : list string) (filename : json) : M bool :=
  match filename with
  | JStr name => ret (match_template_patterns name patterns)
  | _ => lift (Raise AttributeError)
  end.

Definition tree_url (project_id : Z) : string :=
  API_URL +:+ "/projects/" +:+ pretty project_id +:+ "/repository/tree".

Definition tree_params : gmap string json :=
  <[ "path" := JStr ".gitlab" ]>
    (<[ "recursive" := JBool true ]> (<[ "per_page" := JNum 100 ]> ∅)).

Definition directory_contains_templates (project_id : Z)
    (template_patterns : list string) : M bool :=
  let* res := requests_get (tree_url project_id) get_headers tree_params in
  if negb (status_code res =? 200)%Z then ret false
  else
    let* entries := lift (Py.iter (body res)) in
    let* files := lift (blob_names entries) in
    first_hit (match_template_name template_patterns) files.

(** *** Pagination *)

Definition projects_url : string := API_URL +:+ "/projects".

Inductive loop_state : Type :=
| Continue (page : Z) (all_projects : list json)
| Break (all_projects : list json).

(** One turn of the [while True] loop of
    [get_all_projects_with_pagination], from the top of the body to the
    [break] or to the end of the body. *)
Definition pagination_step (params : gmap string json) (page : Z)
    (all_projects : list json) : M loop_state :=
  let per_page := 100%Z in
  let current_params :=
    <[ "per_page" := JNum per_page ]> (<[ "page" := JNum page ]> params) in
  let* res := requests_get projects_url get_headers current_params in
  if negb (status_code res =? 200)%Z then ret (Break all_projects)
  else
    let projects := body res in
    if negb (Py.truthy projects) then ret (Break all_projects)
    else
      let* items := lift (Py.iter projects) in
      let all_projects := all_projects ++ items in
      let* n := lift (Py.len projects) in
      if (n <? per_page)%Z then ret (Break all_projects)
      else
        let page := (page + 1)%Z in
        if (page >? 1000)%Z then
          let* _ := st_warning
            "⚠️ Reached pagination limit. Some projects might not be displayed." in
          ret (Break all_projects)
        else ret (Continue page all_projects).

Definition inspect {A} (a : A) : {b : A | a = b} := exist _ a eq_refl.

Equations? pagination_loop (params : gmap string json) (page : Z)
    (all_projects : list json) (w : world) : outcome (list json) * world
    by wf (Z.to_nat (1001 - page)) lt :=
  pagination_loop params page all_projects w
    with inspect (pagination_step params page all_projects w) := {
    | exist _ (Ret (Continue page' all'), w') Hstep :=
        pagination_loop params page' all' w';
    | exist _ (Ret (Break all'), w') _ := (Ret all', w');
    | exist _ (Raise e, w') _ := (Raise e, w') }.
Proof.
  revert Hstep.
  unfold pagination_step, bind, requests_get, lift, ret, st_warning.
  destruct (handle _ _) as [s' res].
  destruct (negb (status_code res =? 200)%Z); [discriminate |].
  destruct (negb (Py.truthy (body res))); [discriminate |].
  destruct (Py.iter (body res)); [| discriminate].
  destruct (Py.len (body res)) as [n |]; [| discriminate].
  destruct (n <? 100)%Z; [discriminate |].
  destruct (page + 1 >? 1000)%Z eqn:Hcap; [discriminate |].
  intros [= <- _ _]. lia.
Qed.

Definition get_all_projects_with_pagination (params : gmap string json)
    : M (list json) :=
  pagination_loop params 1 [].

Definition membership_params : gmap string json :=
  <[ "membership" := JBool true ]> (<[ "order_by" := JStr "last_activity_at" ]> ∅).

Definition get_contributed_projects (username : string) : M (list json) :=
  let* user_resp :=
    requests_get (API_URL +:+ "/users?username=" +:+ username) get_headers ∅ in
  if negb (status_code user_resp =? 200)%Z || negb (Py.truthy (body user_resp))
  then ret []
  else
    let* user := lift (Py.first (body user_resp)) in
    let* user_id := lift (Py.item user "id") in
    let params := membership_params in
    get_all_projects_with_pagination params.

(** Python's [None] is [JNull]. *)
Definition get_project_by_id_or_url (project_input : string) : M json :=
  if PyStr.isdigit project_input then
    let* res :=
      requests_get (API_URL +:+ "/projects/" +:+ project_input) get_headers ∅ in
    ret (if (status_code res =? 200)%Z then body res else JNull)
  else if PyStr.contains GITLAB_URL project_input then
    let path :=
      PyStr.first_segment "/-/"
        (PyStr.replace (GITLAB_URL +:+ "/") "" project_input) in
    let encoded := PyStr.quote path in
    let* res :=
      requests_get (API_URL +:+ "/projects/" +:+ encoded) get_headers ∅ in
    if (status_code res =? 200)%Z then ret (body res) else ret JNull
  else ret JNull.

(** The three shapes [determine_input_type_and_process] returns. *)
Inductive classified : Type :=
| Project (project_data : json)
| Projects (project_list : list json)
| Error (message : string).

Definition determine_input_type_and_process (input_value : string) : M classified :=
  let input_value := PyStr.strip input_value in
  if PyStr.contains GITLAB_URL input_value then
    let* project := get_project_by_id_or_url input_value in
    if Py.truthy project then ret (Project project)
    else ret (Error "Could not fetch project from the provided URL")
  else if PyStr.isdigit input_value then
    let* project := get_project_by_id_or_url input_value in
    if Py.truthy project then ret (Project project)
    else ret (Error ("No project found with ID: " +:+ input_value))
  else
    let* projects := get_contributed_projects input_value in
    match projects with
    | _ :: _ => ret (Projects projects)
    | [] => ret (Error ("No projects found for username: " +:+ input_value))
    end.

(** The loop over [REQUIRED_FILES] in [get_compliance_status]. *)
Fixpoint check_files (project_id : Z) (files : list string)
    (status : gmap string bool) : M (gmap string bool) :=
  match files with
  | [] => ret status
  | file :: files' =>
      let* present :=
        if existsb (String.eqb (PyStr.replace ".md" "" file)) FLEXIBLE_EXTENSION_FILES
        then file_exists_flexible project_id file
        else file_exists project_id file in
      check_files project_id files' (<[ file := present ]> status)
  end.

Definition get_compliance_status (project_id : Z) : M (gmap string bool) :=
  let status : gmap string bool := ∅ in
  let* status := check_files project_id REQUIRED_FILES status in
  let* issue := directory_contains_templates project_id ISSUE_TEMPLATE_PATTERNS in
  let status := <[ ".gitlab/issue_templates" := issue ]> status in
  let* mr := directory_contains_templates project_id MR_TEMPLATE_PATTERNS in
  let status := <[ ".gitlab/merge_request_templates" := mr ]> status in
  let* res :=
    requests_get (API_URL +:+ "/projects/" +:+ pretty project_id) get_headers ∅ in
  if negb (status_code res =? 200)%Z then ret ∅
  else
    let project := body res in
    let* description := lift (Py.get project "description") in
    let status := <[ "description_present" := Py.truthy description ]> status in
    let* tag_list := lift (Py.get project "tag_list") in
    let* tags_present :=
      if Py.truthy tag_list then
        let* n := lift (Py.len tag_list) in ret (0 <? n)%Z
      else ret false in
    let status := <[ "tags_present" := tags_present ]> status in
    ret status.

End Script.


(** ** The profile check and the display helpers of the script *)

Section Display.

Context {S : Type}.
Variable handle : S -> request -> S * response.
Variable API_TOKEN : string.

(** Python's [repr] of a list or of a dict, which is what an f-string shows
    for such a value. *)
Variable repr_container : json -> string.

(** What an f-string shows for a JSON value. *)
Definition format_value (x : json) : string :=
  match x with
  | JStr s => s
  | JNum n => pretty n
  | JNull => "None"
  | JBool true => "True"
  | JBool false => "False"
  | _ => repr_container x
  end.

(** The file lookups of [file_exists_with_branch] and [file_exists] for a
    project id given by the text an f-string shows for it. *)
Definition file_url_of (project file_path : string) : string :=
  API_URL +:+ "/projects/" +:+ project +:+ "/repository/files/"
  +:+ PyStr.quote file_path.

Definition file_exists_with_branch_of (project file_path branch : string)
    : M S bool :=
  let* res := requests_get handle (file_url_of project file_path)
                (get_headers API_TOKEN) {[ "ref" := JStr branch ]} in
  ret (status_code res =? 200)%Z.

Definition file_exists_of (project file_path : string) : M S bool :=
  first_hit (file_exists_with_branch_of project file_path) ["master"; "main"].

Definition profile_url (username : string) : string :=
  API_URL +:+ "/projects/" +:+ username +:+ "%2F" +:+ username.

Definition readme_link (username branch : string) : string :=
  GITLAB_URL +:+ "/" +:+ username +:+ "/" +:+ username +:+ "/-/blob/"
  +:+ branch +:+ "/README.md".

(** [readme_url] is [None] or a string. *)
Definition has_profile_readme (username : string) : M S (bool * option string) :=
  let* res := requests_get handle (profile_url username) (get_headers API_TOKEN) ∅ in
  if negb (status_code res =? 200)%Z then ret (false, None)
  else
    let* project_id := lift (Py.get (body res) "id") in
    let project := format_value project_id in
    let* readme_exists := file_exists_of project "README.md" in
    if readme_exists then
      let* on_main := file_exists_with_branch_of project "README.md" "main" in
      if on_main then ret (readme_exists, Some (readme_link username "main"))
      else
        let* on_master :=
          file_exists_with_branch_of project "README.md" "master" in
        if on_master then ret (readme_exists, Some (readme_link username "master"))
        else ret (readme_exists, None)
    else ret (readme_exists, None).

(** [project_data.get('web_url', default)]: the default is computed first. *)
Definition get_project_url (project_data : json) : outcome json :=
  match project_data with
  | JObj fields =>
      let path := default (JStr "") (Py.assoc "path_with_namespace" fields) in
      Ret (default (JStr (GITLAB_URL +:+ "/" +:+ format_value path))
             (Py.assoc "web_url" fields))
  | _ => Raise AttributeError
  end.

End Display.

(** [score = sum(1 for present in status.values() if present)] and
    [total = len(status)]. *)
Definition score (status : gmap string bool) : Z :=
  Z.of_nat (length (filter (fun kv : string * bool => kv.2 = true)
                      (map_to_list status))).

Definition total (status : gmap string bool) : Z := Z.of_nat (size status).

(** The three groups of the detailed display. *)
Definition is_file_item (k : string) : bool :=
  existsb (String.eqb k) REQUIRED_FILES || String.eqb k "CHANGELOG.md".

Definition file_items (status : gmap string bool) : gmap string bool :=
  filter (fun kv : string * bool => is_file_item kv.1 = true) status.

Definition template_items (status : gmap string bool) : gmap string bool :=
  filter (fun kv : string * bool => PyStr.contains ".gitlab/" kv.1 = true) status.

Definition metadata_items (status : gmap string bool) : gmap string bool :=
  filter (fun kv : string * bool => PyStr.contains "present" kv.1 = true) status.

(** The messages and the colours of the score.  Python compares the
    integer [score] with the float [total * 0.8] exactly; the conversion
    [to_float] is exact on the sizes a status can have (below 2^53). *)
#[local] Set Warnings "-inexact-float".

Inductive message : Type :=
| Excellent
| Good
| NeedsImprovement
| PoorCompliance.

Inductive colour : Type :=
| Green
| Yellow
| Red.

Definition to_float (n : Z) : float := PrimFloat.of_uint63 (Uint63.of_Z n).

(** [score >= total * ratio]. *)
Definition reaches (score total : Z) (ratio : float) : bool :=
  PrimFloat.leb (PrimFloat.mul (to_float total) ratio) (to_float score).

Definition score_message (score total : Z) : message :=
  if (score =? total)%Z then Excellent
  else if reaches score total 0.8%float then Good
  else if reaches score total 0.6%float then NeedsImprovement
  else PoorCompliance.

Definition score_colour (score total : Z) : colour :=
  if (score =? total)%Z then Green
  else if reaches score total 0.7%float then Yellow
  else Red.

(** ** Table-driven servers

    A server that never changes: a request is answered by the first route
    with its URL whose parameters the request carries, and by 404
    otherwise. *)

Module Static.

Record route : Type := mk_route {
  route_url : string;
  route_params : list (string * json);
  route_response : response
}.

Definition param_eqb (a b : json) : bool :=
  match a, b with
  | JStr x, JStr y => String.eqb x y
  | JNum x, JNum y => (x =? y)%Z
  | JBool x, JBool y => Bool.eqb x y
  | _, _ => false
  end.

Definition carries (q : request) (kv : string * json) : bool :=
  match params q !! fst kv with
  | Some v => param_eqb (snd kv) v
  | None => false
  end.

Definition route_matches (q : request) (r : route) : bool :=
  String.eqb (url q) (route_url r) && forallb (carries q) (route_params r).

Definition not_found : response := mk_response 404 JNull.

Definition serve (table : list route) (q : request) : response :=
  match find (route_matches q) table with
  | Some r => route_response r
  | None => not_found
  end.

Definition handle (table : list route) (s : unit) (q : request) : unit * response :=
  (s, serve table q).

Definition start : world unit := mk_world tt [] [].

(** A file of a project on a branch. *)
Definition file_route (project_id : Z) (file_path branch : string) : route :=
  mk_route (file_url project_id file_path) [("ref", JStr branch)]
    (mk_response 200 (JObj [("file_path", JStr file_path); ("ref", JStr branch)])).

Definition blob (name : string) : json :=
  JObj [("name", JStr name); ("type", JStr "blob")].

(** The recursive listing of [.gitlab]. *)
Definition tree_route (project_id : Z) (names : list string) : route :=
  mk_route (tree_url project_id) [("path", JStr ".gitlab")]
    (mk_response 200 (JArr (blob <$> names))).

Definition metadata_route (project_id : Z) (fields : list (string * json)) : route :=
  mk_route (API_URL +:+ "/projects/" +:+ pretty project_id) []
    (mk_response 200 (JObj fields)).

Definition project (id : Z) (name : string) : json :=
  JObj [("id", JNum id); ("name_with_namespace", JStr name)].

(** Page [page] of a project listing, 100 items a page. *)
Definition page_route (items : list json) (page : nat) : route :=
  mk_route projects_url [("page", JNum (Z.of_nat (Datatypes.S page)))]
    (mk_response 200 (JArr (take 100 (drop (100 * page) items)))).

End Static.

(** The directory listing of the template example. *)
Definition template_listing : list string :=
  ["0001-bug-issue-template.md"; "random.md"; "merge_request_template.MD"].

(** A project with its four required files on [main] only, the example
    listing under [.gitlab] and a description but no tags. *)
Definition main_only_site : list Static.route :=
  [ Static.file_route 7 "README.md" "main";
    Static.file_route 7 "CONTRIBUTING.md" "main";
    Static.file_route 7 "CHANGELOG.md" "main";
    Static.file_route 7 "LICENSE" "main";
    Static.tree_route 7 template_listing;
    Static.metadata_route 7 [("id", JNum 7); ("description", JStr "A demo")] ].

(** A project whose only change log is [changelog.txt], on [master]. *)
Definition changelog_txt_site : list Static.route :=
  [ Static.file_route 8 "changelog.txt" "master" ].

(** All four files and both kinds of template, but no metadata record. *)
Definition no_metadata_site : list Static.route :=
  [ Static.file_route 9 "README.md" "master";
    Static.file_route 9 "CONTRIBUTING.md" "master";
    Static.file_route 9 "CHANGELOG.md" "master";
    Static.file_route 9 "LICENSE" "master";
    Static.tree_route 9 ["issue_template.md"; "merge_request_template.md"] ].

(** ** Vocabulary of the statements *)

(** The lookup [file_exists] issues for a file on a branch. *)
Definition branch_probe (API_TOKEN : string) (project_id : Z)
    (file_path branch : string) : request :=
  mk_request (file_url project_id file_path) (get_headers API_TOKEN)
    {[ "ref" := JStr branch ]}.

(** The request was a file lookup on [branch]. *)
Definition probes_branch (branch : string) (q : request) : bool :=
  match params q !! "ref" with
  | Some (JStr b) => String.eqb b branch
  | _ => false
  end.

(** The listing request of [directory_contains_templates]. *)
Definition tree_request (API_TOKEN : string) (project_id : Z) : request :=
  mk_request (tree_url project_id) (get_headers API_TOKEN) tree_params.

(** The character map of a regular expression's literals. *)
Definition atom_map (f : ascii -> ascii) (a : Re.atom) : Re.atom :=
  match a with
  | Re.Lit c => Re.Lit (f c)
  | Re.AnyChar => Re.AnyChar
  end.

Definition token_map (f : ascii -> ascii) (t : Re.token) : Re.token :=
  match t with
  | Re.TAtom a => Re.TAtom (atom_map f a)
  | _ => t
  end.

Definition item_map (f : ascii -> ascii) (i : Re.item) : Re.item :=
  match i with
  | Re.One a => Re.One (atom_map f a)
  | Re.Star a => Re.Star (atom_map f a)
  | Re.Eos => Re.Eos
  end.

(** The request for a project's own record in [get_compliance_status]. *)
Definition metadata_request (API_TOKEN : string) (project_id : Z) : request :=
  mk_request (API_URL +:+ "/projects/" +:+ pretty project_id)
    (get_headers API_TOKEN) ∅.

(** Every tree listing the server can send is a list of entries with a type,
    whose files have a string for a name. *)
Definition tree_listing_ok {S : Type} (handle : S -> request -> S * response)
    (API_TOKEN : string) (project_id : Z) : Prop :=
  forall s,
    let res := snd (handle s (tree_request API_TOKEN project_id)) in
    status_code res = 200%Z ->
    exists entries names,
      Py.iter (body res) = Ret entries /\ blob_names entries = Ret (JStr <$> names).

(** The keys of a compliance status. *)
Definition status_keys : list string :=
  REQUIRED_FILES ++
  [".gitlab/issue_templates"; ".gitlab/merge_request_templates";
   "description_present"; "tags_present"].

(** The field is missing from the record, or [null]. *)
Definition absent_or_null (key : string) (fields : list (string * json)) : bool :=
  match Py.assoc key fields with
  | None | Some JNull => true
  | Some _ => false
  end.

(** [tag_list], when the record has one, is an array (the API's schema). *)
Definition tag_list_typed (fields : list (string * json)) : bool :=
  match Py.assoc "tag_list" fields with
  | None | Some JNull | Some (JArr _) => true
  | Some _ => false
  end.

(** [len] can be taken of the tag list whenever it is called, that is on a
    truthy tag list: the tag list is not a number other than zero, nor
    [true]. *)
Definition tag_list_sized (fields : list (string * json)) : bool :=
  match Py.assoc "tag_list" fields with
  | Some (JNum n) => (n =? 0)%Z
  | Some (JBool b) => negb b
  | _ => true
  end.

(** The file is there whenever it is asked for, on one of the branches. *)
Definition file_present {S : Type} (handle : S -> request -> S * response)
    (API_TOKEN : string) (project_id : Z) (file_path : string) : Prop :=
  (forall s, status_code
               (snd (handle s (branch_probe API_TOKEN project_id file_path "master")))
             = 200%Z) \/
  (forall s, status_code
               (snd (handle s (branch_probe API_TOKEN project_id file_path "main")))
             = 200%Z).

(** What [get_compliance_status] does once the file and template checks
    have returned: [m] is the status they built. *)
Definition metadata_phase {S : Type} (handle : S -> request -> S * response)
    (API_TOKEN : string) (project_id : Z) (m : gmap string bool) (w : world S)
    : outcome (gmap string bool) :=
  let res := snd (handle (server w) (metadata_request API_TOKEN project_id)) in
  if negb (status_code res =? 200)%Z then Ret ∅
  else
    match Py.get (body res) "description" with
    | Raise e => Raise e
    | Ret description =>
        match Py.get (body res) "tag_list" with
        | Raise e => Raise e
        | Ret tag_list =>
            if Py.truthy tag_list then
              match Py.len tag_list with
              | Raise e => Raise e
              | Ret n =>
                  Ret (<["tags_present" := (0 <? n)%Z]>
                         (<["description_present" := Py.truthy description]> m))
              end
            else
              Ret (<["tags_present" := false]>
                     (<["description_present" := Py.truthy description]> m))
        end
    end.

(** The request of [get_all_projects_with_pagination] for page [page]. *)
Definition page_request (API_TOKEN : string) (params : gmap string json)
    (page : Z) : request :=
  mk_request projects_url (get_headers API_TOKEN)
    (<[ "per_page" := JNum 100 ]> (<[ "page" := JNum page ]> params)).

(** The world after the server has answered the request [q] of world [w]. *)
Definition answered {S : Type} (handle : S -> request -> S * response)
    (w : world S) (q : request) : world S :=
  mk_world (fst (handle (server w) q)) (requests w ++ [q]) (warnings w).

(** The world after the warning [msg] has been shown. *)
Definition warned {S : Type} (w : world S) (msg : string) : world S :=
  mk_world (server w) (requests w) (warnings w ++ [msg]).

(** The 250 projects of the pagination example, and a server that lists
    them 100 a page. *)
Definition listed_projects : list json := JNum <$> seqZ 1 250.

Definition listing_site : list Static.route :=
  [ Static.page_route listed_projects 0;
    Static.page_route listed_projects 1;
    Static.page_route listed_projects 2 ].

(** A server that knows the project [group/proj]. *)
Definition namespaced_site : list Static.route :=
  [ Static.mk_route (API_URL +:+ "/projects/group%2Fproj") []
      (mk_response 200 (Static.project 42 "Group / Proj")) ].

(** Two users: [alice], a member of project 10 only, and [bob], a member
    of project 20 only.  The token of the requests is bob's, so the listing
    of [/projects] with [membership] lists bob's project; the projects of
    alice are listed under [/users/1/projects]. *)
Definition membership_site : list Static.route :=
  [ Static.mk_route (API_URL +:+ "/users?username=alice") []
      (mk_response 200 (JArr [JObj [("id", JNum 1); ("username", JStr "alice")]]));
    Static.mk_route (API_URL +:+ "/users?username=bob") []
      (mk_response 200 (JArr [JObj [("id", JNum 2); ("username", JStr "bob")]]));
    Static.mk_route (API_URL +:+ "/users/1/projects") []
      (mk_response 200 (JArr [Static.project 10 "alice / site"]));
    Static.mk_route (API_URL +:+ "/users/2/projects") []
      (mk_response 200 (JArr [Static.project 20 "bob / notes"]));
    Static.mk_route projects_url [("membership", JBool true); ("page", JNum 1)]
      (mk_response 200 (JArr [Static.project 20 "bob / notes"])) ].

(** No answer of the server holds more than 100 items. *)
Definition pages_bounded {S : Type} (handle : S -> request -> S * response) : Prop :=
  forall s q items,
    Py.iter (body (snd (handle s q))) = Ret items ->
    (Z.of_nat (length items) <= 100)%Z.

(** A server that answers every request with a full page of 100 items. *)
Definition full_pages (s : unit) (q : request) : unit * response :=
  (s, mk_response 200 (JArr (replicate 100 (JNum 0)))).

(** A server whose first page of projects holds 100001 items, and that has
    no second page. *)
Definition many_items : list json := replicate (Z.to_nat 100001) (JNum 0).

Definition oversized_page : list Static.route :=
  [ Static.mk_route projects_url [("page", JNum 1)]
      (mk_response 200 (JArr many_items)) ].

(** The lookup of a project by its URL-encoded path. *)
Definition path_lookup (API_TOKEN : string) (path : string) : request :=
  mk_request (API_URL +:+ "/projects/" +:+ PyStr.quote path)
    (get_headers API_TOKEN) ∅.

(** What the classifier needs of a project path: no white space at its end,
    no occurrence of the base URL, and no final segment that is a lone dash
    (the platform does not let a path segment begin with a dash). *)
Definition project_path (p : string) : Prop :=
  PyStr.rstrip p = p /\
  PyStr.contains GITLAB_URL p = false /\
  PyStr.endswith p "/-" = false.

(** The paths [file_exists_flexible] tries for [CHANGELOG.md], in order. *)
Definition changelog_candidates : list string :=
  ["CHANGELOG.md"; "CHANGELOG";
   "CHANGELOG"; "changelog";
   "CHANGELOG.txt"; "CHANGELOG.txt"; "changelog.txt";
   "CHANGELOG.rst"; "CHANGELOG.rst"; "changelog.rst"].

(** The lookup of a project by its numeric id. *)
Definition id_lookup (API_TOKEN : string) (digits : string) : request :=
  mk_request (API_URL +:+ "/projects/" +:+ digits) (get_headers API_TOKEN) ∅.

(** The search of a user by username. *)
Definition user_request (API_TOKEN : string) (username : string) : request :=
  mk_request (API_URL +:+ "/users?username=" +:+ username)
    (get_headers API_TOKEN) ∅.

(** A server with a project 12345 and a user whose name is [12345]. *)
Definition numeric_site : list Static.route :=
  [ Static.mk_route (API_URL +:+ "/projects/12345") []
      (mk_response 200 (Static.project 12345 "Group / Numbered"));
    Static.mk_route (API_URL +:+ "/users?username=12345") []
      (mk_response 200 (JArr [JObj [("id", JNum 9); ("username", JStr "12345")]])) ].

(** A server whose listing of all projects answers the lookup of the empty
    path. *)
Definition bare_url_site : list Static.route :=
  [ Static.mk_route (API_URL +:+ "/projects/") []
      (mk_response 200 (JArr [Static.project 1 "a / b"; Static.project 2 "c / d"])) ].

(** The warning of the aggregator at its cap. *)
Definition pagination_warning : string :=
  "⚠️ Reached pagination limit. Some projects might not be displayed.".

(** The items of a page the aggregator keeps: those of a 200 answer whose
    body is an array. *)
Definition page_items (res : response) : list json :=
  if (status_code res =? 200)%Z then
    match body res with
    | JArr items => items
    | _ => []
    end
  else [].

(** A server whose answers depend on the request only. *)
Definition stable {S : Type} (handle : S -> request -> S * response)
    (respond : request -> response) : Prop :=
  forall s q, snd (handle s q) = respond q.

(** An entry of a tree listing: a file has the type [blob], a directory the
    type [tree]. *)
Definition tree_entry (name type : string) : json :=
  JObj [("id", JStr "0a1b2c"); ("name", JStr name); ("type", JStr type);
        ("path", JStr (".gitlab/" +:+ name)); ("mode", JStr "100644")].

(** The usual layout: a directory [issue_templates] with a file [bug.md]. *)
Definition usual_layout_site : list Static.route :=
  [ Static.mk_route (tree_url 5) [("path", JStr ".gitlab")]
      (mk_response 200
         (JArr [tree_entry "issue_templates" "tree"; tree_entry "bug.md" "blob"])) ].

(** The most file lookups the check of a list of required files can take:
    20 for a flexible file and 2 for another. *)
Definition lookup_budget (files : list string) : nat :=
  sum_list ((fun file =>
               if existsb (String.eqb (PyStr.replace ".md" "" file))
                    FLEXIBLE_EXTENSION_FILES
               then 20 else 2) <$> files).

(** A project whose record says its tag list is the number 5, and one
    whose record is a list. *)
Definition numeric_tags_site : list Static.route :=
  [ Static.tree_route 12 template_listing;
    Static.metadata_route 12 [("description", JStr " "); ("tag_list", JNum 5)] ].

Definition list_record_site : list Static.route :=
  [ Static.tree_route 13 template_listing;
    Static.mk_route (API_URL +:+ "/projects/13") []
      (mk_response 200 (JArr [Static.project 13 "a / b"])) ].

(** A project with a blank description and one tag. *)
Definition blank_description_site : list Static.route :=
  [ Static.tree_route 14 template_listing;
    Static.metadata_route 14
      [("description", JStr " "); ("tag_list", JArr [JStr "docs"])] ].

(** The first request of [has_profile_readme], and its file lookups. *)
Definition profile_request (API_TOKEN : string) (username : string) : request :=
  mk_request (profile_url username) (get_headers API_TOKEN) ∅.

Definition readme_probe (API_TOKEN : string) (project branch : string) : request :=
  mk_request (file_url_of project "README.md") (get_headers API_TOKEN)
    {[ "ref" := JStr branch ]}.

(** A user [alice] whose profile project 77 has its README on both
    branches. *)
Definition profile_site : list Static.route :=
  [ Static.mk_route (profile_url "alice") []
      (mk_response 200 (JObj [("id", JNum 77); ("path", JStr "alice")]));
    Static.file_route 77 "README.md" "master";
    Static.file_route 77 "README.md" "main" ].

(** Python shows a container in brackets or braces; the examples need no
    more of it. *)
Definition repr_brackets (x : json) : string :=
  match x with
  | JArr _ => "[...]"
  | _ => "{...}"
  end.

(** Strings without a newline, strings that [lower] leaves as they are, the
    regular expression of a literal word, and patterns that match no more
    than another pattern does. *)
Definition no_newline (s : string) : bool :=
  PyStr.all_chars (fun c => negb (Ascii.eqb c "010")) s.

Definition lowered (s : string) : bool :=
  PyStr.all_chars (fun c => Ascii.eqb (PyStr.lower_char c) c) s.

Fixpoint word (s : string) : Re.regex :=
  match s with
  | EmptyString => []
  | String c s' => Re.One (Re.Lit c) :: word s'
  end.

Definition subsumed (re re' : Re.regex) : Prop :=
  forall s, Re.match_here re s = true -> Re.match_here re' s = true.

(** A project whose listing of [.gitlab] is answered by an error object,
    and one whose listing has a template followed by an entry without a
    type. *)
Definition message_listing_site : list Static.route :=
  [ Static.mk_route (tree_url 15) [("path", JStr ".gitlab")]
      (mk_response 200 (JObj [("message", JStr "404 Tree Not Found")])) ].

Definition broken_entry_site : list Static.route :=
  [ Static.mk_route (tree_url 16) [("path", JStr ".gitlab")]
      (mk_response 200
         (JArr [Static.blob "issue_template.md"; JObj [("name", JStr "x.md")]])) ].

(** A server that answers the project listing with an error object. *)
Definition error_page_site : list Static.route :=
  [ Static.mk_route projects_url []
      (mk_response 200 (JObj [("message", JStr "401 Unauthorized")])) ].

(** A project whose record has no description and the number 5 for a tag
    list. *)
Definition untyped_tags_site : list Static.route :=
  [ Static.tree_route 17 template_listing;
    Static.metadata_route 17 [("id", JNum 17); ("tag_list", JNum 5)] ].

(** The characters of the string are ASCII characters. *)
Definition is_ascii (s : string) : bool :=
  PyStr.all_chars (fun c => (PyStr.code c <? 128)%N) s.

(** The field is a list with an item in it. *)
Definition nonempty_array (x : option json) : bool :=
  match x with
  | Some (JArr (_ :: _)) => true
  | _ => false
  end.

Definition is_object (x : json) : bool :=
  match x with
  | JObj _ => true
  | _ => false
  end.

(** ** Properties of the string functions *)

Section CaseMaps.

Import PyStr.

Ltac by_char c := destruct c as [[] [] [] [] [] [] [] []]; vm_compute; auto.

Lemma lower_char_idem c : lower_char (lower_char c) = lower_char c.
Proof. by_char c. Qed.

Lemma lower_upper_char c : lower_char (upper_char c) = lower_char c.
Proof. by_char c. Qed.

Lemma lower_char_letters c :
  lower_char c = c \/ (is_alnum c = true /\ is_alnum (lower_char c) = true).
Proof. by_char c. Qed.

Lemma upper_char_letters c :
  upper_char c = c \/ (is_alnum c = true /\ is_alnum (upper_char c) = true).
Proof. by_char c. Qed.

Lemma lower_idem s : lower (lower s) = lower s.
Proof.
  induction s as [| c s IH]; [reflexivity |].
  cbn. rewrite lower_char_idem. f_equal. exact IH.
Qed.

Lemma lower_upper s : lower (upper s) = lower s.
Proof.
  induction s as [| c s IH]; [reflexivity |].
  cbn. rewrite lower_upper_char. f_equal. exact IH.
Qed.

(** A map that changes the case of letters and nothing else. *)
Variable f : ascii -> ascii.
Hypothesis f_case : forall c, lower_char (f c) = lower_char c.
Hypothesis f_letters :
  forall c, f c = c \/ (is_alnum c = true /\ is_alnum (f c) = true).

Lemma case_map_alnum c : is_alnum (f c) = is_alnum c.
Proof.
  destruct (f_letters c) as [-> | [-> ->]]; reflexivity.
Qed.

Lemma case_map_eqb c x : is_alnum x = false -> Ascii.eqb (f c) x = Ascii.eqb c x.
Proof.
  intros Hx. destruct (f_letters c) as [-> | [Hc Hfc]]; [reflexivity |].
  destruct (Ascii.eqb_spec (f c) x) as [<- | _]; [congruence |].
  destruct (Ascii.eqb_spec c x) as [<- | _]; [congruence | reflexivity].
Qed.

Lemma case_map_meta c : Re.is_meta (f c) = Re.is_meta c.
Proof.
  unfold Re.is_meta. cbn. rewrite !case_map_eqb by reflexivity. reflexivity.
Qed.

Lemma tokens_cons2 c d s :
  Re.tokens (String c (String d s)) =
  if Ascii.eqb c "\" then
    (if is_alnum d then Re.TBad else Re.TAtom (Re.Lit d)) :: Re.tokens s
  else if Ascii.eqb c "." then Re.TAtom Re.AnyChar :: Re.tokens (String d s)
  else if Ascii.eqb c "*" then Re.TStar :: Re.tokens (String d s)
  else if Ascii.eqb c "$" then Re.TDollar :: Re.tokens (String d s)
  else if Re.is_meta c then Re.TBad :: Re.tokens (String d s)
  else Re.TAtom (Re.Lit c) :: Re.tokens (String d s).
Proof. reflexivity. Qed.

Lemma tokens_case_map s :
  Re.tokens (map_chars f s) = token_map f <$> Re.tokens s.
Proof.
  enough (H : Re.tokens (map_chars f s) = token_map f <$> Re.tokens s /\
              forall c, Re.tokens (map_chars f (String c s)) =
                        token_map f <$> Re.tokens (String c s))
    by apply H.
  induction s as [| d s [IH1 IH2]].
  - split; [reflexivity |]. intros c. cbn [map_chars Re.tokens].
    rewrite !case_map_eqb, case_map_meta by reflexivity.
    repeat (destruct (Ascii.eqb c _); [reflexivity |]).
    destruct (Re.is_meta c); reflexivity.
  - split; [apply IH2 |]. intros c.
    cbn [map_chars]. rewrite !tokens_cons2.
    rewrite !case_map_eqb, case_map_meta, case_map_alnum by reflexivity.
    destruct (Ascii.eqb c "\").
    { rewrite IH1. destruct (is_alnum d); reflexivity. }
    change (String (f d) (map_chars f s)) with (map_chars f (String d s)).
    rewrite IH2.
    repeat (destruct (Ascii.eqb c _); [reflexivity |]).
    destruct (Re.is_meta c); reflexivity.
Qed.

Lemma group_case_map ts :
  Re.group (token_map f <$> ts) = fmap (M := option) (fmap (item_map f)) (Re.group ts).
Proof.
  enough (H : Re.group (token_map f <$> ts) =
              fmap (M := option) (fmap (item_map f)) (Re.group ts) /\
              forall t, Re.group (token_map f <$> (t :: ts)) =
                        fmap (M := option) (fmap (item_map f)) (Re.group (t :: ts)))
    by apply H.
  induction ts as [| u ts [IH1 IH2]].
  - split; [reflexivity |]. intros [a | | |]; reflexivity.
  - split; [apply IH2 |]. intros [a | | |]; try reflexivity.
    + destruct u as [b | | |].
      * change (Re.group (token_map f <$> Re.TAtom a :: Re.TAtom b :: ts))
          with (cons (Re.One (atom_map f a)) <$>
                Re.group (token_map f <$> Re.TAtom b :: ts)).
        rewrite IH2.
        change (Re.group (Re.TAtom a :: Re.TAtom b :: ts))
          with (cons (Re.One a) <$> Re.group (Re.TAtom b :: ts)).
        destruct (Re.group (Re.TAtom b :: ts)); reflexivity.
      * change (Re.group (token_map f <$> Re.TAtom a :: Re.TStar :: ts))
          with (cons (Re.Star (atom_map f a)) <$> Re.group (token_map f <$> ts)).
        rewrite IH1.
        change (Re.group (Re.TAtom a :: Re.TStar :: ts))
          with (cons (Re.Star a) <$> Re.group ts).
        destruct (Re.group ts); reflexivity.
      * change (Re.group (token_map f <$> Re.TAtom a :: Re.TDollar :: ts))
          with (cons (Re.One (atom_map f a)) <$>
                Re.group (token_map f <$> Re.TDollar :: ts)).
        rewrite IH2.
        change (Re.group (Re.TAtom a :: Re.TDollar :: ts))
          with (cons (Re.One a) <$> Re.group (Re.TDollar :: ts)).
        destruct (Re.group (Re.TDollar :: ts)); reflexivity.
      * reflexivity.
    + change (Re.group (token_map f <$> Re.TDollar :: u :: ts))
        with (cons Re.Eos <$> Re.group (token_map f <$> u :: ts)).
      rewrite IH2.
      change (Re.group (Re.TDollar :: u :: ts))
        with (cons Re.Eos <$> Re.group (u :: ts)).
      destruct (Re.group (u :: ts)); reflexivity.
Qed.

Lemma accepts_case_map a c : Re.accepts (atom_map f a) c = Re.accepts a c.
Proof.
  destruct a as [p |]; [| reflexivity]. cbn. rewrite f_case. reflexivity.
Qed.

Lemma star_ext a b k k' s :
  (forall c, Re.accepts a c = Re.accepts b c) ->
  (forall t, k t = k' t) ->
  Re.star a k s = Re.star b k' s.
Proof.
  intros Hab Hk. induction s as [| c s IH]; cbn.
  - rewrite Hk. reflexivity.
  - rewrite Hk, Hab, IH. reflexivity.
Qed.

Lemma match_here_case_map re s :
  Re.match_here (item_map f <$> re) s = Re.match_here re s.
Proof.
  revert s. induction re as [| i re IH]; intros s; [reflexivity |].
  destruct i as [a | a |]; cbn.
  - destruct s as [| c s]; [reflexivity |].
    rewrite accepts_case_map, IH. reflexivity.
  - apply star_ext; [apply accepts_case_map | apply IH].
  - rewrite IH. reflexivity.
Qed.

Lemma match_ignorecase_case_map pattern s :
  Re.match_ignorecase (map_chars f pattern) s = Re.match_ignorecase pattern s.
Proof.
  unfold Re.match_ignorecase, Re.compile.
  rewrite tokens_case_map, group_case_map.
  destruct (Re.group (Re.tokens pattern)) as [re |]; [| reflexivity].
  apply match_here_case_map.
Qed.

End CaseMaps.

(** ** Properties of the URL functions *)

Section UrlFacts.

Import PyStr.

Lemma string_app_cons c a b : String c a +:+ b = String c (a +:+ b).
Proof. reflexivity. Qed.

Lemma rstrip_cons c s :
  rstrip (String c s) =
  match rstrip s with
  | EmptyString => if is_space c then EmptyString else String c EmptyString
  | r => String c r
  end.
Proof. reflexivity. Qed.

Lemma rstrip_cons_nonspace c s :
  is_space c = false -> rstrip (String c s) = String c (rstrip s).
Proof.
  intros Hc. rewrite rstrip_cons, Hc. destruct (rstrip s); reflexivity.
Qed.

Lemma rstrip_app a b :
  rstrip b <> EmptyString -> rstrip (a +:+ b) = a +:+ rstrip b.
Proof.
  intros Hb. induction a as [| d a IH]; [reflexivity |].
  change (String d a +:+ b) with (String d (a +:+ b)).
  rewrite rstrip_cons, IH.
  change (String d a +:+ rstrip b) with (String d (a +:+ rstrip b)).
  destruct (a +:+ rstrip b) eqn:Happ; [| reflexivity].
  destruct a; cbn in Happ; [contradiction | discriminate].
Qed.

(** Trimming the URL of a path followed by a marker and a suffix. *)
Lemma strip_marked_url p x :
  strip (GITLAB_URL +:+ "/" +:+ p +:+ "/-/" +:+ x) =
  GITLAB_URL +:+ "/" +:+ p +:+ "/-/" +:+ rstrip x.
Proof.
  unfold strip.
  change (lstrip (GITLAB_URL +:+ "/" +:+ p +:+ "/-/" +:+ x))
    with (GITLAB_URL +:+ String "/" (p +:+ String "/" (String "-" (String "/" x)))).
  assert (Htail : rstrip (String "/" (String "-" (String "/" x))) =
                  String "/" (String "-" (String "/" (rstrip x))))
    by (rewrite !rstrip_cons_nonspace by reflexivity; reflexivity).
  rewrite rstrip_app; rewrite rstrip_cons_nonspace by reflexivity;
    [| discriminate].
  rewrite rstrip_app; rewrite Htail; [reflexivity | discriminate].
Qed.

Lemma strip_url p : rstrip p = p -> strip (GITLAB_URL +:+ "/" +:+ p) = GITLAB_URL +:+ "/" +:+ p.
Proof.
  intros Hp. unfold strip.
  change (lstrip (GITLAB_URL +:+ "/" +:+ p)) with (GITLAB_URL +:+ String "/" p).
  rewrite rstrip_app; rewrite rstrip_cons_nonspace by reflexivity;
    [| discriminate].
  rewrite Hp. reflexivity.
Qed.

Lemma contains_base_url t : contains GITLAB_URL (GITLAB_URL +:+ t) = true.
Proof. destruct t; reflexivity. Qed.

Lemma isdigit_base_url t : isdigit (GITLAB_URL +:+ t) = false.
Proof. reflexivity. Qed.

Lemma replace_base_url t :
  replace (GITLAB_URL +:+ "/") "" (GITLAB_URL +:+ "/" +:+ t) =
  replace (GITLAB_URL +:+ "/") "" t.
Proof. destruct t; reflexivity. Qed.

(** An occurrence of the base URL and a slash cannot start inside a string
    without the base URL that a marker, or nothing, follows. *)
Lemma no_straddling_base_url q t :
  String.prefix GITLAB_URL q = false ->
  t = EmptyString \/ (exists t', t = "/-" +:+ t') ->
  String.prefix (GITLAB_URL +:+ "/") (q +:+ t) = false.
Proof.
  intros Hq Ht. unfold GITLAB_URL in *.
  change ("https://code.swecha.org" +:+ "/") with "https://code.swecha.org/".
  do 23 (destruct q as [| ? q];
         [ clear Hq; destruct Ht as [-> | [t' ->]]; reflexivity
         | rewrite string_app_cons; cbn [String.prefix] in *;
           destruct (ascii_dec _ _); [| reflexivity] ]).
  destruct q; discriminate Hq.
Qed.

Lemma replace_without_base_url p t :
  contains GITLAB_URL p = false ->
  t = EmptyString \/ (exists t', t = "/-" +:+ t') ->
  replace (GITLAB_URL +:+ "/") "" (p +:+ t) =
  p +:+ replace (GITLAB_URL +:+ "/") "" t.
Proof.
  intros Hp Ht. unfold replace.
  induction p as [| c p IH]; [reflexivity |].
  cbn [contains] in Hp. apply orb_false_iff in Hp as [Hhere Hp].
  change (String c p +:+ t) with (String c (p +:+ t)).
  cbn [replace_from].
  pose proof (no_straddling_base_url (String c p) t Hhere Ht) as Hno.
  change (String c p +:+ t) with (String c (p +:+ t)) in Hno.
  rewrite Hno, (IH Hp). reflexivity.
Qed.

Lemma first_segment_cons sep c s :
  first_segment sep (String c s) =
  if String.prefix sep (String c s) then EmptyString
  else String c (first_segment sep s).
Proof.
  unfold first_segment, split. cbn [split_from].
  destruct (String.prefix sep (String c s)); [reflexivity |].
  destruct (split_from sep 0 s). reflexivity.
Qed.

(** The segment before the first marker does not see what follows a marker
    put after the path. *)
Lemma first_segment_marked p x :
  endswith p "/-" = false ->
  first_segment "/-/" (p +:+ "/-/" +:+ x) = first_segment "/-/" p.
Proof.
  induction p as [| c p IH]; intros Hend; [destruct x; reflexivity |].
  cbn [endswith] in Hend. apply orb_false_iff in Hend as [Hne Hend].
  change (String c p +:+ "/-/" +:+ x) with (String c (p +:+ "/-/" +:+ x)).
  rewrite !first_segment_cons, (IH Hend).
  assert (Hsame : String.prefix "/-/" (String c (p +:+ "/-/" +:+ x)) =
                  String.prefix "/-/" (String c p)).
  { cbn [String.prefix]. destruct (ascii_dec "/" c) as [<- |]; [| reflexivity].
    destruct p as [| d p]; [reflexivity |].
    rewrite string_app_cons. cbn [String.prefix].
    destruct (ascii_dec "-" d) as [<- |]; [| reflexivity].
    destruct p as [| e p]; [discriminate Hne |].
    rewrite string_app_cons. cbn [String.prefix].
    destruct (ascii_dec "/" e); [| reflexivity].
    destruct p; reflexivity. }
  rewrite Hsame. reflexivity.
Qed.

(** The path the classifier looks up for the URL of [p], with or without a
    marker and a suffix. *)
Lemma url_path_marked p x :
  project_path p ->
  first_segment "/-/"
    (replace (GITLAB_URL +:+ "/") ""
       (strip (GITLAB_URL +:+ "/" +:+ p +:+ "/-/" +:+ x))) =
  first_segment "/-/" p.
Proof.
  intros (Htrim & Hbase & Hend).
  rewrite strip_marked_url, replace_base_url.
  rewrite replace_without_base_url by (auto || (right; eexists; reflexivity)).
  change (replace (GITLAB_URL +:+ "/") "" ("/-/" +:+ rstrip x))
    with ("/-/" +:+ replace (GITLAB_URL +:+ "/") "" (rstrip x)).
  apply first_segment_marked, Hend.
Qed.

Lemma string_app_nil_r s : s +:+ "" = s.
Proof.
  induction s as [| c s IH]; [reflexivity |].
  rewrite string_app_cons, IH. reflexivity.
Qed.

Lemma url_path_plain p :
  project_path p ->
  first_segment "/-/"
    (replace (GITLAB_URL +:+ "/") "" (strip (GITLAB_URL +:+ "/" +:+ p))) =
  first_segment "/-/" p.
Proof.
  intros (Htrim & Hbase & Hend).
  rewrite strip_url by exact Htrim. rewrite replace_base_url.
  rewrite <- (string_app_nil_r p) at 1.
  rewrite replace_without_base_url by auto.
  change (replace (GITLAB_URL +:+ "/") "" "") with "".
  rewrite string_app_nil_r. reflexivity.
Qed.

End UrlFacts.

(** ** Properties *)

Section Properties.

Context {S : Type}.
Variable handle : S -> request -> S * response.
Variable API_TOKEN : string.

#[local] Abbreviation run_file_exists := (file_exists handle API_TOKEN).
#[local] Abbreviation probe := (branch_probe API_TOKEN).
#[local] Abbreviation present := (file_present handle API_TOKEN).

(** *** The monad *)

Lemma bind_run {A B} (m : M S A) (k : A -> M S B) (w : world S) :
  bind m k w =
  match m w with
  | (Ret a, w') => k a w'
  | (Raise e, w') => (Raise e, w')
  end.
Proof. reflexivity. Qed.

Lemma file_exists_with_branch_run project_id file_path branch (w : world S) :
  file_exists_with_branch handle API_TOKEN project_id file_path branch w =
  let r := handle (server w) (probe project_id file_path branch) in
  (Ret (status_code (snd r) =? 200)%Z,
   mk_world (fst r) (requests w ++ [probe project_id file_path branch]) (warnings w)).
Proof.
  unfold file_exists_with_branch, bind, requests_get, ret, branch_probe.
  destruct (handle _ _) as [s' res]. reflexivity.
Qed.

(** [file_exists] asks for [master], and for [main] only after a [master]
    lookup that was not a 200. *)
Lemma file_exists_run project_id file_path (w : world S) :
  let r1 := handle (server w) (probe project_id file_path "master") in
  let r2 := handle (fst r1) (probe project_id file_path "main") in
  run_file_exists project_id file_path w =
  if (status_code (snd r1) =? 200)%Z
  then (Ret true,
        mk_world (fst r1) (requests w ++ [probe project_id file_path "master"])
          (warnings w))
  else (Ret (status_code (snd r2) =? 200)%Z,
        mk_world (fst r2)
          (requests w ++ [probe project_id file_path "master";
                          probe project_id file_path "main"])
          (warnings w)).
Proof.
  intros r1 r2. unfold file_exists, first_hit, bind.
  rewrite file_exists_with_branch_run. fold r1. cbv zeta.
  destruct (status_code (snd r1) =? 200)%Z; [reflexivity |].
  rewrite file_exists_with_branch_run. cbn [server requests warnings]. fold r2.
  rewrite <- app_assoc.
  destruct (status_code (snd r2) =? 200)%Z; reflexivity.
Qed.

(** *** The classifier *)

(** An input that starts with the base URL is resolved by one lookup of the
    path before the first marker. *)
Lemma determine_url_run input_value t (w : world S) :
  PyStr.strip input_value = GITLAB_URL +:+ t ->
  let q := path_lookup API_TOKEN
             (PyStr.first_segment "/-/"
                (PyStr.replace (GITLAB_URL +:+ "/") "" (PyStr.strip input_value))) in
  let res := snd (handle (server w) q) in
  determine_input_type_and_process handle API_TOKEN input_value w =
  (Ret (if (status_code res =? 200)%Z && Py.truthy (body res)
        then Project (body res)
        else Error "Could not fetch project from the provided URL"),
   answered handle w q).
Proof.
  intros Hstrip q res. subst q res.
  unfold determine_input_type_and_process, get_project_by_id_or_url.
  rewrite Hstrip, contains_base_url, isdigit_base_url. rewrite <- Hstrip.
  unfold bind, requests_get, ret, path_lookup, answered.
  destruct (handle (server w) _) as [s' res]. cbn [fst snd].
  destruct (status_code res =? 200)%Z; [| reflexivity].
  cbn [andb]. destruct (Py.truthy (body res)); reflexivity.
Qed.

(** *** The template scanner *)

Lemma blob_names_blobs names :
  blob_names (Static.blob <$> names) = Ret (JStr <$> names).
Proof.
  induction names as [| n names IH]; [reflexivity |].
  cbn. cbn in IH. rewrite IH. reflexivity.
Qed.

Lemma first_hit_names patterns names (w : world S) :
  first_hit (match_template_name patterns) (JStr <$> names) w =
  (Ret (existsb (fun n => match_template_patterns n patterns) names), w).
Proof.
  induction names as [| n names IH]; [reflexivity |].
  cbn. unfold bind. cbn.
  destruct (match_template_patterns n patterns); [reflexivity | apply IH].
Qed.

(** On a listing of files only, the scanner answers whether some name of
    the listing matches. *)
Lemma directory_contains_templates_blobs project_id patterns names (w : world S) :
  snd (handle (server w) (tree_request API_TOKEN project_id)) =
    mk_response 200 (JArr (Static.blob <$> names)) ->
  fst (directory_contains_templates handle API_TOKEN project_id patterns w) =
  Ret (existsb (fun n => match_template_patterns n patterns) names).
Proof.
  unfold directory_contains_templates, bind, requests_get, lift, tree_request.
  destruct (handle _ _) as [s' res]. cbn [snd]. intros ->.
  cbn [status_code body Py.iter]. change (negb (200 =? 200)%Z) with false.
  cbv iota. rewrite blob_names_blobs, first_hit_names. reflexivity.
Qed.

(** The patterns of the script are in the modelled fragment. *)
Lemma script_patterns_compile :
  Forall (fun pattern => is_Some (Re.compile pattern))
    (ISSUE_TEMPLATE_PATTERNS ++ MR_TEMPLATE_PATTERNS).
Proof. repeat constructor; vm_compute; eauto. Qed.

Lemma match_template_patterns_lower filename patterns :
  match_template_patterns (PyStr.lower filename) patterns =
  match_template_patterns filename patterns.
Proof.
  unfold match_template_patterns. rewrite lower_idem. reflexivity.
Qed.

(** *** The file resolver *)

Lemma file_exists_ret project_id file_path (w : world S) :
  exists b w', run_file_exists project_id file_path w = (Ret b, w').
Proof.
  rewrite file_exists_run. cbv zeta.
  destruct (status_code _ =? 200)%Z; eauto.
Qed.

Lemma first_hit_file_exists_ret project_id paths (w : world S) :
  exists b w', first_hit (run_file_exists project_id) paths w = (Ret b, w').
Proof.
  revert w. induction paths as [| p paths IH]; intros w; cbn [first_hit].
  - unfold ret. eauto.
  - unfold bind.
    destruct (file_exists_ret project_id p w) as (b & w' & ->).
    destruct b; [unfold ret; eauto | apply IH].
Qed.

Lemma file_exists_flexible_ret project_id file_path (w : world S) :
  exists b w',
    file_exists_flexible handle API_TOKEN project_id file_path w = (Ret b, w').
Proof.
  unfold file_exists_flexible, bind.
  destruct (file_exists_ret project_id file_path w) as (b & w' & ->).
  destruct b; [unfold ret; eauto |].
  destruct (existsb _ _); [| unfold ret; eauto].
  destruct (file_exists_ret project_id (PyStr.replace ".md" "" file_path) w')
    as (b & w'' & ->).
  destruct b; [unfold ret; eauto |].
  apply first_hit_file_exists_ret.
Qed.

Lemma file_exists_present project_id file_path (w : world S) :
  present project_id file_path ->
  fst (run_file_exists project_id file_path w) = Ret true.
Proof.
  intros Hp. rewrite file_exists_run. cbv zeta.
  destruct Hp as [Hp | Hp].
  - rewrite Hp. reflexivity.
  - destruct (status_code _ =? 200)%Z; [reflexivity |].
    cbn [fst]. rewrite Hp. reflexivity.
Qed.

Lemma first_hit_present project_id paths file_path (w : world S) :
  file_path ∈ paths ->
  present project_id file_path ->
  fst (first_hit (run_file_exists project_id) paths w) = Ret true.
Proof.
  intros Hin Hp. revert w.
  induction paths as [| p paths IH]; intros w; [inversion Hin |].
  cbn [first_hit]. unfold bind.
  destruct (file_exists_ret project_id p w) as (b & w' & Hrun). rewrite Hrun.
  destruct b; [reflexivity |].
  apply elem_of_cons in Hin as [-> | Hin]; [| apply IH, Hin].
  pose proof (file_exists_present project_id p w Hp) as Htrue.
  rewrite Hrun in Htrue. discriminate Htrue.
Qed.

Lemma file_exists_flexible_changelog_run project_id (w : world S) :
  file_exists_flexible handle API_TOKEN project_id "CHANGELOG.md" w =
  first_hit (run_file_exists project_id) changelog_candidates w.
Proof.
  unfold file_exists_flexible, changelog_candidates.
  cbn [first_hit]. unfold bind.
  destruct (run_file_exists project_id "CHANGELOG.md" w) as [[[] | e] w1];
    try reflexivity.
Qed.

(** *** The evaluator *)

Lemma check_files_run project_id files status (w : world S) :
  exists m w',
    check_files handle API_TOKEN project_id files status w = (Ret m, w') /\
    dom m = dom status ∪ list_to_set files.
Proof.
  revert status w. induction files as [| file files IH]; intros status w.
  - exists status, w. split; [reflexivity |]. cbn. set_solver.
  - cbn [check_files]. unfold bind.
    destruct (existsb _ FLEXIBLE_EXTENSION_FILES).
    + destruct (file_exists_flexible_ret project_id file w) as (b & w' & ->).
      destruct (IH (<[file:=b]> status) w') as (m & w'' & -> & Hdom).
      exists m, w''. split; [reflexivity |].
      rewrite Hdom, dom_insert_L. cbn. set_solver.
    + destruct (file_exists_ret project_id file w) as (b & w' & ->).
      destruct (IH (<[file:=b]> status) w') as (m & w'' & -> & Hdom).
      exists m, w''. split; [reflexivity |].
      rewrite Hdom, dom_insert_L. cbn. set_solver.
Qed.

Lemma directory_contains_templates_ok project_id patterns (w : world S) :
  tree_listing_ok handle API_TOKEN project_id ->
  exists b w',
    directory_contains_templates handle API_TOKEN project_id patterns w = (Ret b, w').
Proof.
  intros Hok.
  unfold directory_contains_templates, bind, requests_get, lift.
  specialize (Hok (server w)). unfold tree_request in Hok.
  destruct (handle _ _) as [s' res]. cbn [snd] in Hok.
  destruct (status_code res =? 200)%Z eqn:Hst; cbn [negb].
  - apply Z.eqb_eq in Hst. destruct (Hok Hst) as (entries & names & -> & ->).
    rewrite first_hit_names. eauto.
  - unfold ret. eauto.
Qed.

Lemma metadata_phase_run project_id m (w : world S) :
  fst ((let* res := requests_get handle
                      (API_URL +:+ "/projects/" +:+ pretty project_id)
                      (get_headers API_TOKEN) ∅ in
        if negb (status_code res =? 200)%Z then ret ∅
        else
          let project := body res in
          let* description := lift (Py.get project "description") in
          let status := <[ "description_present" := Py.truthy description ]> m in
          let* tag_list := lift (Py.get project "tag_list") in
          let* tags_present :=
            if Py.truthy tag_list then
              let* n := lift (Py.len tag_list) in ret (0 <? n)%Z
            else ret false in
          let status := <[ "tags_present" := tags_present ]> status in
          ret status) w) =
  metadata_phase handle API_TOKEN project_id m w.
Proof.
  unfold metadata_phase, bind, requests_get, metadata_request, lift, ret.
  destruct (handle (server w) _) as [s' res]. cbn [snd fst].
  destruct (negb _); [reflexivity |].
  destruct (Py.get (body res) "description") as [description | e]; [| reflexivity].
  destruct (Py.get (body res) "tag_list") as [tag_list | e]; [| reflexivity].
  destruct (Py.truthy tag_list); [| reflexivity].
  destruct (Py.len tag_list); reflexivity.
Qed.

Lemma checked_keys (m : gmap string bool) (issue mr : bool) :
  dom m = dom (∅ : gmap string bool) ∪ list_to_set REQUIRED_FILES ->
  dom (<[".gitlab/merge_request_templates" := mr]>
         (<[".gitlab/issue_templates" := issue]> m)) =
  list_to_set (REQUIRED_FILES ++
    [".gitlab/issue_templates"; ".gitlab/merge_request_templates"]).
Proof.
  intros Hdom. rewrite !dom_insert_L, Hdom, dom_empty_L, list_to_set_app_L.
  cbn [list_to_set]. set_solver.
Qed.

(** The evaluator either raises in a template scan, or runs its metadata
    phase on a status that holds the four files and the two template keys. *)
Lemma get_compliance_status_run project_id (w : world S) :
  (exists e, fst (get_compliance_status handle API_TOKEN project_id w) = Raise e) \/
  (exists m w',
     dom m = list_to_set (REQUIRED_FILES ++
               [".gitlab/issue_templates"; ".gitlab/merge_request_templates"]) /\
     fst (get_compliance_status handle API_TOKEN project_id w) =
       metadata_phase handle API_TOKEN project_id m w').
Proof.
  unfold get_compliance_status. rewrite bind_run.
  destruct (check_files_run project_id REQUIRED_FILES ∅ w) as (m & w1 & -> & Hdom).
  rewrite bind_run.
  destruct (directory_contains_templates _ _ _ ISSUE_TEMPLATE_PATTERNS w1)
    as [[issue | e] w2]; [| left; eauto].
  rewrite bind_run.
  destruct (directory_contains_templates _ _ _ MR_TEMPLATE_PATTERNS w2)
    as [[mr | e] w3]; [| left; eauto].
  right. eexists _, w3. split; [| apply metadata_phase_run].
  apply checked_keys, Hdom.
Qed.

(** With well-formed tree listings no scan raises. *)
Lemma get_compliance_status_run_ok project_id (w : world S) :
  tree_listing_ok handle API_TOKEN project_id ->
  exists m w',
    dom m = list_to_set (REQUIRED_FILES ++
              [".gitlab/issue_templates"; ".gitlab/merge_request_templates"]) /\
    fst (get_compliance_status handle API_TOKEN project_id w) =
      metadata_phase handle API_TOKEN project_id m w'.
Proof.
  intros Hok. unfold get_compliance_status. rewrite bind_run.
  destruct (check_files_run project_id REQUIRED_FILES ∅ w) as (m & w1 & -> & Hdom).
  rewrite bind_run.
  destruct (directory_contains_templates_ok project_id ISSUE_TEMPLATE_PATTERNS w1 Hok)
    as (issue & w2 & ->).
  rewrite bind_run.
  destruct (directory_contains_templates_ok project_id MR_TEMPLATE_PATTERNS w2 Hok)
    as (mr & w3 & ->).
  eexists _, w3. split; [| apply metadata_phase_run].
  apply checked_keys, Hdom.
Qed.

(** *** The pagination loop *)

Lemma pagination_loop_unroll params page all_projects (w : world S) :
  pagination_loop handle API_TOKEN params page all_projects w =
  match pagination_step handle API_TOKEN params page all_projects w with
  | (Ret (Continue page' all'), w') =>
      pagination_loop handle API_TOKEN params page' all' w'
  | (Ret (Break all'), w') => (Ret all', w')
  | (Raise e, w') => (Raise e, w')
  end.
Proof.
  apply (pagination_loop_elim handle API_TOKEN
           (fun params page all_projects w r =>
              r = match pagination_step handle API_TOKEN params page all_projects w with
                  | (Ret (Continue page' all'), w') =>
                      pagination_loop handle API_TOKEN params page' all' w'
                  | (Ret (Break all'), w') => (Ret all', w')
                  | (Raise e, w') => (Raise e, w')
                  end)).
  - intros ? ? ? ? ? ? ? Hstep _ _. rewrite Hstep. reflexivity.
  - intros ? ? ? ? ? ? Hstep _. rewrite Hstep. reflexivity.
  - intros ? ? ? ? ? ? Hstep _. rewrite Hstep. reflexivity.
Qed.

(** One turn of the loop, read off the answer to its request. *)
Lemma pagination_step_run params page all_projects (w : world S) :
  let q := page_request API_TOKEN params page in
  let res := snd (handle (server w) q) in
  let w1 := answered handle w q in
  pagination_step handle API_TOKEN params page all_projects w =
  if negb (status_code res =? 200)%Z then (Ret (Break all_projects), w1)
  else if negb (Py.truthy (body res)) then (Ret (Break all_projects), w1)
  else
    match Py.iter (body res) with
    | Raise e => (Raise e, w1)
    | Ret items =>
        match Py.len (body res) with
        | Raise e => (Raise e, w1)
        | Ret n =>
            if (n <? 100)%Z then (Ret (Break (all_projects ++ items)), w1)
            else if (page + 1 >? 1000)%Z then
              (Ret (Break (all_projects ++ items)),
               warned w1
                 "⚠️ Reached pagination limit. Some projects might not be displayed.")
            else (Ret (Continue (page + 1) (all_projects ++ items)), w1)
        end
    end.
Proof.
  intros q res w1. subst q res w1.
  unfold pagination_step, bind, requests_get, lift, ret, st_warning,
    answered, warned, page_request.
  destruct (handle (server w) _) as [s' res]. cbn [fst snd].
  destruct (negb (status_code res =? 200)%Z); [reflexivity |].
  destruct (negb (Py.truthy (body res))); [reflexivity |].
  destruct (Py.iter (body res)) as [items | e]; [| reflexivity].
  destruct (Py.len (body res)) as [n | e]; [| reflexivity].
  destruct (n <? 100)%Z; [reflexivity |].
  destruct (page + 1 >? 1000)%Z; reflexivity.
Qed.

Lemma pagination_step_effect params page all_projects (w : world S) o w' :
  pagination_step handle API_TOKEN params page all_projects w = (o, w') ->
  requests w' = requests w ++ [page_request API_TOKEN params page] /\
  match o with
  | Ret (Continue page' all') =>
      (page' = page + 1 /\ page' <= 1000)%Z /\
      exists items,
        Py.iter (body (snd (handle (server w)
                              (page_request API_TOKEN params page)))) = Ret items /\
        all' = all_projects ++ items
  | Ret (Break all') =>
      all' = all_projects \/
      exists items,
        Py.iter (body (snd (handle (server w)
                              (page_request API_TOKEN params page)))) = Ret items /\
        all' = all_projects ++ items
  | Raise _ => True
  end.
Proof.
  rewrite pagination_step_run. cbv zeta.
  destruct (negb (status_code _ =? 200)%Z); [intros [= <- <-]; auto |].
  destruct (negb (Py.truthy _)); [intros [= <- <-]; auto |].
  destruct (Py.iter _) as [items | e]; [| intros [= <- <-]; auto].
  destruct (Py.len _) as [n | e]; [| intros [= <- <-]; auto].
  destruct (n <? 100)%Z; [intros [= <- <-]; eauto |].
  destruct (page + 1 >? 1000)%Z eqn:Hcap; intros [= <- <-]; [eauto |].
  split; [reflexivity |]. split; [lia | eauto].
Qed.

(** From page [page] on, the loop issues at most [1001 - page] requests and,
    when no page is oversized, collects at most 100 items a request. *)
Lemma pagination_loop_bounds params page all_projects (w : world S) :
  (page <= 1000)%Z ->
  let r := pagination_loop handle API_TOKEN params page all_projects w in
  (Z.of_nat (length (requests (snd r))) <=
   Z.of_nat (length (requests w)) + (1001 - page))%Z /\
  (pages_bounded handle ->
   forall l, fst r = Ret l ->
     (Z.of_nat (length l) <=
      Z.of_nat (length all_projects) + 100 * (1001 - page))%Z).
Proof.
  apply (pagination_loop_elim handle API_TOKEN
    (fun params page all_projects w r =>
       (page <= 1000)%Z ->
       (Z.of_nat (length (requests (snd r))) <=
        Z.of_nat (length (requests w)) + (1001 - page))%Z /\
       (pages_bounded handle ->
        forall l, fst r = Ret l ->
          (Z.of_nat (length l) <=
           Z.of_nat (length all_projects) + 100 * (1001 - page))%Z))).
  - clear. intros params page all_projects w page' all' w' Hstep IH _ Hpage.
    destruct (pagination_step_effect _ _ _ _ _ _ Hstep)
      as (Hreq & [-> Hcap] & items & Hiter & ->).
    destruct (IH Hcap) as [IH1 IH2]. split.
    + rewrite Hreq, length_app in IH1. cbn [length] in IH1. lia.
    + intros Hb l Hl. specialize (IH2 Hb l Hl).
      rewrite length_app in IH2. pose proof (Hb _ _ _ Hiter). lia.
  - clear. intros params page all_projects w all' w' Hstep _ Hpage.
    destruct (pagination_step_effect _ _ _ _ _ _ Hstep) as (Hreq & Hall).
    cbn [fst snd]. split.
    + rewrite Hreq, length_app. cbn [length]. lia.
    + intros Hb l [= <-]. destruct Hall as [-> | (items & Hiter & ->)]; [lia |].
      rewrite length_app. pose proof (Hb _ _ _ Hiter). lia.
  - clear. intros params page all_projects w e w' Hstep _ Hpage.
    destruct (pagination_step_effect _ _ _ _ _ _ Hstep) as (Hreq & _).
    cbn [fst snd]. split.
    + rewrite Hreq, length_app. cbn [length]. lia.
    + intros _ l Hl. discriminate Hl.
Qed.

(** Every request of the loop is a page request with the parameters the
    loop was given. *)
Lemma pagination_loop_requests params page all_projects (w : world S) :
  exists qs,
    requests (snd (pagination_loop handle API_TOKEN params page all_projects w)) =
      requests w ++ qs /\
    Forall (fun q => exists n, q = page_request API_TOKEN params n) qs.
Proof.
  apply (pagination_loop_elim handle API_TOKEN
    (fun params page all_projects w r =>
       exists qs,
         requests (snd r) = requests w ++ qs /\
         Forall (fun q => exists n, q = page_request API_TOKEN params n) qs)).
  - clear. intros params page all_projects w page' all' w' Hstep (qs & Hqs & Hall) _.
    destruct (pagination_step_effect _ _ _ _ _ _ Hstep) as (Hreq & _).
    exists (page_request API_TOKEN params page :: qs). split.
    + rewrite Hqs, Hreq, <- app_assoc. reflexivity.
    + constructor; [eauto | exact Hall].
  - clear. intros params page all_projects w all' w' Hstep _.
    destruct (pagination_step_effect _ _ _ _ _ _ Hstep) as (Hreq & _).
    exists [page_request API_TOKEN params page]. split; [exact Hreq |].
    constructor; [eauto | constructor].
  - clear. intros params page all_projects w e w' Hstep _.
    destruct (pagination_step_effect _ _ _ _ _ _ Hstep) as (Hreq & _).
    exists [page_request API_TOKEN params page]. split; [exact Hreq |].
    constructor; [eauto | constructor].
Qed.

(** The loop stops at a failed request and keeps what it has. *)
Lemma pagination_loop_failed params page all_projects (w : world S) :
  let q := page_request API_TOKEN params page in
  status_code (snd (handle (server w) q)) <> 200%Z ->
  pagination_loop handle API_TOKEN params page all_projects w =
  (Ret all_projects, answered handle w q).
Proof.
  intros q Hfail. rewrite pagination_loop_unroll, pagination_step_run. cbv zeta.
  fold q. destruct (Z.eqb_spec (status_code (snd (handle (server w) q))) 200);
    [contradiction | reflexivity].
Qed.

(** On a page of [items]: the loop stops when the page is short, stops with
    a warning when the next page number exceeds 1000, and goes on to the next
    page otherwise. *)
Lemma pagination_loop_page params page all_projects (w : world S) items :
  let q := page_request API_TOKEN params page in
  snd (handle (server w) q) = mk_response 200 (JArr items) ->
  items <> [] ->
  pagination_loop handle API_TOKEN params page all_projects w =
  if (Z.of_nat (length items) <? 100)%Z then
    (Ret (all_projects ++ items), answered handle w q)
  else if (page + 1 >? 1000)%Z then
    (Ret (all_projects ++ items),
     warned (answered handle w q)
       "⚠️ Reached pagination limit. Some projects might not be displayed.")
  else
    pagination_loop handle API_TOKEN params (page + 1) (all_projects ++ items)
      (answered handle w q).
Proof.
  intros q Hres Hne. rewrite pagination_loop_unroll, pagination_step_run.
  cbv zeta. fold q. rewrite Hres. cbn [status_code body Py.iter Py.len Py.truthy].
  change (negb (200 =? 200)%Z) with false. cbv iota.
  destruct items as [| item items]; [contradiction |]. cbv iota. cbn [negb].
  destruct (Z.of_nat (length (item :: items)) <? 100)%Z; [reflexivity |].
  destruct (page + 1 >? 1000)%Z; reflexivity.
Qed.

Lemma status_keys_NoDup : NoDup status_keys.
Proof. apply bool_decide_unpack with (dec := NoDup_dec _). vm_compute. exact I. Qed.

(** A status that comes out of the metadata phase is empty or holds the
    eight keys. *)
Lemma metadata_phase_keys project_id m0 (w : world S) m :
  dom m0 = list_to_set (REQUIRED_FILES ++
             [".gitlab/issue_templates"; ".gitlab/merge_request_templates"]) ->
  metadata_phase handle API_TOKEN project_id m0 w = Ret m ->
  m = ∅ \/ dom m = list_to_set status_keys.
Proof.
  intros Hdom. unfold metadata_phase.
  destruct (negb _); [intros [= <-]; left; reflexivity |].
  destruct (Py.get _ "description") as [description | e]; [| discriminate].
  destruct (Py.get _ "tag_list") as [tag_list | e]; [| discriminate].
  assert (Hkeys : forall a b,
    dom (<["tags_present" := a]> (<["description_present" := b]> m0))
    = list_to_set status_keys).
  { intros a b. rewrite !dom_insert_L, Hdom. unfold status_keys.
    rewrite !list_to_set_app_L. cbn [list_to_set]. set_solver. }
  destruct (Py.truthy tag_list).
  - destruct (Py.len tag_list) as [n | e]; [| discriminate].
    intros [= <-]. right. apply Hkeys.
  - intros [= <-]. right. apply Hkeys.
Qed.

End Properties.

(** Evaluates the closed page-size and page-number tests of the goal. *)
Ltac decide_tests :=
  repeat match goal with
    | |- context [(?a <? ?b)%Z] =>
        let v := eval vm_compute in (a <? b)%Z in change (a <? b)%Z with v
    | |- context [(?a >? ?b)%Z] =>
        let v := eval vm_compute in (a >? b)%Z in change (a >? b)%Z with v
    end;
  cbv iota.

(** ** The statements of the specification *)




(** C2 fails on the code: [get_contributed_projects] looks the user up
    by username and then lists the projects of the owner of the token, the
    user's id being left out of the listing requests: whatever the server
    and the username, every request after the user lookup is a page request
    with the two parameters [membership] and [order_by].  With bob's token,
    the input [alice] yields bob's project 20, while alice is a member of
    project 10 only. *)
Theorem username_lookup_lists_token_owner_projects :
  (forall (S : Type) (handle : S -> request -> S * response) (API_TOKEN : string)
          (username : string) (w : world S),
     exists qs,
       requests (snd (get_contributed_projects handle API_TOKEN username w)) =
         requests w ++
         mk_request (API_URL +:+ "/users?username=" +:+ username)
           (get_headers API_TOKEN) ∅ :: qs /\
       Forall (fun q => exists n,
                 q = page_request API_TOKEN
                       (<[ "membership" := JBool true ]>
                          (<[ "order_by" := JStr "last_activity_at" ]> ∅)) n) qs) /\
  (let r := determine_input_type_and_process (Static.handle membership_site)
              "token-of-bob" "alice" Static.start in
   body (Static.serve membership_site
           (mk_request (API_URL +:+ "/users/1/projects")
              (get_headers "token-of-bob") ∅)) =
     JArr [Static.project 10 "alice / site"] /\
   fst r = Ret (Projects [Static.project 20 "bob / notes"]) /\
   requests (snd r) =
     [ mk_request (API_URL +:+ "/users?username=alice")
         (get_headers "token-of-bob") ∅;
       page_request "token-of-bob" membership_params 1 ]).
Proof.
  split.
  - intros S handle API_TOKEN username w.
    unfold get_contributed_projects, bind, requests_get, lift.
    destruct (handle (server w) _) as [s' res].
    set (w1 := mk_world s' _ _).
    destruct (negb (status_code res =? 200)%Z || negb (Py.truthy (body res))).
    { exists []. split; [reflexivity | constructor]. }
    destruct (Py.first (body res)) as [user | e];
      [| exists []; split; [reflexivity | constructor]].
    destruct (Py.item user "id") as [user_id | e];
      [| exists []; split; [reflexivity | constructor]].
    unfold get_all_projects_with_pagination.
    destruct (pagination_loop_requests handle API_TOKEN membership_params 1 [] w1)
      as (qs & Hqs & Hall).
    exists qs. split; [| exact Hall].
    rewrite Hqs. subst w1. cbn [requests]. rewrite <- app_assoc. reflexivity.
  - cbv zeta. split; [| split]; vm_compute; reflexivity.
Qed.

(** C3: when the fetch of the project's own record is not a 200,
    [get_compliance_status] returns the empty status, whatever the file and
    template checks found: its outcome is the empty status or an exception
    of a template scan, never a partial status, and it is the empty status
    whenever the tree listings are well formed. *)
Theorem get_compliance_status_all_or_nothing :
  forall (S : Type) (handle : S -> request -> S * response) (API_TOKEN : string)
         (project_id : Z),
    (forall s, status_code (snd (handle s (metadata_request API_TOKEN project_id)))
               <> 200%Z) ->
    forall w : world S,
      let r := fst (get_compliance_status handle API_TOKEN project_id w) in
      (r = Ret ∅ \/ exists e, r = Raise e) /\
      (tree_listing_ok handle API_TOKEN project_id -> r = Ret ∅).
Proof.
  intros S handle API_TOKEN project_id Hfail w r. subst r.
  assert (Hphase : forall m w',
            metadata_phase handle API_TOKEN project_id m w' = Ret ∅).
  { intros m w'. unfold metadata_phase.
    destruct (Z.eqb_spec (status_code
      (snd (handle (server w') (metadata_request API_TOKEN project_id)))) 200)
      as [Heq | _]; [destruct (Hfail _ Heq) | reflexivity]. }
  split.
  - destruct (get_compliance_status_run handle API_TOKEN project_id w)
      as [He | (m & w' & _ & ->)]; [right; exact He | left; apply Hphase].
  - intros Hok.
    destruct (get_compliance_status_run_ok handle API_TOKEN project_id w Hok)
      as (m & w' & _ & ->).
    apply Hphase.
Qed.

Lemma get_compliance_status_all_or_nothing_witness :
  fst (directory_contains_templates (Static.handle no_metadata_site) "token" 9
         ISSUE_TEMPLATE_PATTERNS Static.start) = Ret true /\
  fst (directory_contains_templates (Static.handle no_metadata_site) "token" 9
         MR_TEMPLATE_PATTERNS Static.start) = Ret true /\
  fst (get_compliance_status (Static.handle no_metadata_site) "token" 9
         Static.start) = Ret ∅.
Proof.
  split; [vm_compute; reflexivity |]. split; [vm_compute; reflexivity |].
  apply (get_compliance_status_all_or_nothing unit
           (Static.handle no_metadata_site) "token" 9).
  - intros s H. vm_compute in H. discriminate H.
  - intros s. cbv zeta. intros _.
    exists (Static.blob <$> ["issue_template.md"; "merge_request_template.md"]),
           ["issue_template.md"; "merge_request_template.md"].
    split; vm_compute; reflexivity.
Defined.

(** C4: a non-empty status returned by [get_compliance_status] has exactly
    the eight keys of the checklist: the four required files, the two
    template keys and the two metadata flags. *)
Theorem compliance_status_keys :
  forall (S : Type) (handle : S -> request -> S * response) (API_TOKEN : string)
         (project_id : Z) (w : world S) (m : gmap string bool),
    fst (get_compliance_status handle API_TOKEN project_id w) = Ret m ->
    m <> ∅ ->
    dom m = list_to_set
              ["README.md"; "CONTRIBUTING.md"; "CHANGELOG.md"; "LICENSE";
               ".gitlab/issue_templates"; ".gitlab/merge_request_templates";
               "description_present"; "tags_present"] /\
    size m = 8.
Proof.
  intros S handle API_TOKEN project_id w m Hret Hne.
  assert (Hdom : dom m = list_to_set status_keys).
  { destruct (get_compliance_status_run handle API_TOKEN project_id w)
      as [[e He] | (m0 & w' & Hdom0 & Hphase)]; [congruence |].
    rewrite Hphase in Hret.
    destruct (metadata_phase_keys _ _ _ _ _ _ Hdom0 Hret) as [-> | H];
      [destruct Hne; reflexivity | exact H]. }
  split; [exact Hdom |].
  rewrite <- size_dom, Hdom, size_list_to_set by apply status_keys_NoDup.
  reflexivity.
Qed.

Lemma compliance_status_keys_witness :
  exists m : gmap string bool,
    fst (get_compliance_status (Static.handle main_only_site) "token" 7
           Static.start) = Ret m /\
    m <> ∅ /\
    dom m = list_to_set
              ["README.md"; "CONTRIBUTING.md"; "CHANGELOG.md"; "LICENSE";
               ".gitlab/issue_templates"; ".gitlab/merge_request_templates";
               "description_present"; "tags_present"] /\
    size m = 8.
Proof.
  destruct (get_compliance_status_run_ok (Static.handle main_only_site) "token" 7
              Static.start) as (m0 & w' & _ & Hrun).
  { intros s. cbv zeta. intros _.
    exists (Static.blob <$> template_listing), template_listing.
    split; vm_compute; reflexivity. }
  assert (Hrecord : forall s,
            snd (Static.handle main_only_site s (metadata_request "token" 7)) =
            mk_response 200 (JObj [("id", JNum 7); ("description", JStr "A demo")]))
    by (intros s; vm_compute; reflexivity).
  unfold metadata_phase in Hrun. rewrite Hrecord in Hrun.
  cbn [status_code body Py.get Py.assoc Py.truthy default] in Hrun.
  change (negb (200 =? 200)%Z) with false in Hrun. cbn in Hrun.
  assert (Hne : <["tags_present" := false]>
                  (<["description_present" := true]> m0) <> ∅).
  { intros Hm. apply (f_equal (lookup "tags_present")) in Hm.
    rewrite lookup_insert_eq, lookup_empty in Hm. discriminate Hm. }
  eexists. split; [exact Hrun |]. split; [exact Hne |].
  exact (compliance_status_keys unit (Static.handle main_only_site) "token" 7
           Static.start _ Hrun Hne).
Defined.

(** C5, as stated: with [README.md] on [main] only, [file_exists] answers
    true, yet its first lookup is a probe of [master]; the statement that no
    probe of [master] is issued fails. *)
Lemma file_exists_main_only_probes_master :
  let r := file_exists (Static.handle main_only_site) "token" 7 "README.md"
             Static.start in
  ~ (fst r = Ret true /\
     existsb (probes_branch "master") (requests (snd r)) = false).
Proof.
  intros r [_ H]. vm_compute in H. discriminate H.
Qed.

(** C5, amended: [file_exists] probes [master] first and [main] only after a
    [master] probe that was not a 200; it answers true on the first 200 and
    false when both probes fail.  So for a project whose four required files
    are on [main], it answers true for each of them, and the first request
    it issues is the probe of [master]. *)
Theorem file_exists_master_then_main :
  forall (S : Type) (handle : S -> request -> S * response) (API_TOKEN : string)
         (project_id : Z),
    (forall file_path (w : world S),
       let r1 := handle (server w) (branch_probe API_TOKEN project_id file_path "master") in
       let r2 := handle (fst r1) (branch_probe API_TOKEN project_id file_path "main") in
       file_exists handle API_TOKEN project_id file_path w =
       if (status_code (snd r1) =? 200)%Z
       then (Ret true,
             mk_world (fst r1)
               (requests w ++ [branch_probe API_TOKEN project_id file_path "master"])
               (warnings w))
       else (Ret (status_code (snd r2) =? 200)%Z,
             mk_world (fst r2)
               (requests w ++ [branch_probe API_TOKEN project_id file_path "master";
                               branch_probe API_TOKEN project_id file_path "main"])
               (warnings w))) /\
    ((forall file s, file ∈ REQUIRED_FILES ->
        status_code (snd (handle s (branch_probe API_TOKEN project_id file "main")))
        = 200%Z) ->
     forall file (w : world S), file ∈ REQUIRED_FILES ->
       let r := file_exists handle API_TOKEN project_id file w in
       fst r = Ret true /\
       requests (snd r) !! length (requests w) =
         Some (branch_probe API_TOKEN project_id file "master")).
Proof.
  intros S handle API_TOKEN project_id. split.
  - intros file_path w. apply file_exists_run.
  - intros Hmain file w Hfile r. subst r.
    rewrite file_exists_run.
    destruct (status_code (snd (handle (server w) _)) =? 200)%Z.
    + cbn [fst snd requests]. split; [reflexivity |].
      rewrite lookup_app_r by lia. rewrite Nat.sub_diag. reflexivity.
    + cbn [fst snd requests]. rewrite (Hmain file _ Hfile). split; [reflexivity |].
      rewrite lookup_app_r by lia. rewrite Nat.sub_diag. reflexivity.
Qed.

Lemma file_exists_master_then_main_witness :
  let r := file_exists (Static.handle main_only_site) "token" 7 "LICENSE"
             Static.start in
  fst r = Ret true /\
  requests (snd r) !! 0 = Some (branch_probe "token" 7 "LICENSE" "master").
Proof.
  apply (proj2 (file_exists_master_then_main unit (Static.handle main_only_site)
                  "token" 7)).
  - intros f s Hf. unfold REQUIRED_FILES in Hf.
    repeat (apply elem_of_cons in Hf as [-> | Hf]); try (vm_compute; reflexivity).
    apply elem_of_nil in Hf. destruct Hf.
  - unfold REQUIRED_FILES. repeat constructor.
Defined.

(** C6: when the listing holds 250 items in pages of 100, the aggregator
    returns the 250 items, without duplicates, after exactly the three
    requests for the pages 1, 2 and 3.  In general the loop stops at a page
    of fewer than 100 items, stops at a failed request and keeps what it has
    collected, and stops with a warning when the next page number would
    exceed 1000. *)
Theorem pagination_collects_pages :
  forall (S : Type) (handle : S -> request -> S * response) (API_TOKEN : string)
         (params : gmap string json),
    (forall items,
       length items = 250 -> NoDup items ->
       (forall s n, (1 <= n <= 3)%Z ->
          snd (handle s (page_request API_TOKEN params n)) =
          mk_response 200
            (JArr (take 100 (drop (Z.to_nat (100 * (n - 1))) items)))) ->
       forall w : world S,
         let r := get_all_projects_with_pagination handle API_TOKEN params w in
         (exists l, fst r = Ret l /\ l = items /\ length l = 250 /\ NoDup l) /\
         requests (snd r) =
           requests w ++ [page_request API_TOKEN params 1;
                          page_request API_TOKEN params 2;
                          page_request API_TOKEN params 3] /\
         warnings (snd r) = warnings w) /\
    (forall page all_projects (w : world S) items,
       let q := page_request API_TOKEN params page in
       snd (handle (server w) q) = mk_response 200 (JArr items) ->
       (Z.of_nat (length items) < 100)%Z ->
       pagination_loop handle API_TOKEN params page all_projects w =
       (Ret (all_projects ++ items), answered handle w q)) /\
    (forall page all_projects (w : world S),
       let q := page_request API_TOKEN params page in
       status_code (snd (handle (server w) q)) <> 200%Z ->
       pagination_loop handle API_TOKEN params page all_projects w =
       (Ret all_projects, answered handle w q)) /\
    (forall page all_projects (w : world S) items,
       let q := page_request API_TOKEN params page in
       snd (handle (server w) q) = mk_response 200 (JArr items) ->
       (100 <= Z.of_nat (length items))%Z ->
       (page + 1 > 1000)%Z ->
       pagination_loop handle API_TOKEN params page all_projects w =
       (Ret (all_projects ++ items),
        warned (answered handle w q)
          "⚠️ Reached pagination limit. Some projects might not be displayed.")).
Proof.
  intros S handle API_TOKEN params. split; [| split; [| split]].
  - intros items Hlen Hnodup Hpages w r. subst r.
    unfold get_all_projects_with_pagination.
    pose proof (Hpages (server w) 1%Z ltac:(lia)) as H1.
    change (Z.to_nat (100 * (1 - 1))) with 0 in H1. rewrite drop_0 in H1.
    rewrite (pagination_loop_page _ _ _ _ _ _ _ H1)
      by (intros Hnil; apply (f_equal length) in Hnil;
          rewrite length_take, Hlen in Hnil; cbn in Hnil; lia).
    rewrite length_take, Hlen.
    decide_tests.
    set (w1 := answered handle w (page_request API_TOKEN params 1)).
    pose proof (Hpages (server w1) 2%Z ltac:(lia)) as H2.
    change (Z.to_nat (100 * (2 - 1))) with 100 in H2.
    rewrite (pagination_loop_page _ _ _ _ _ _ _ H2)
      by (intros Hnil; apply (f_equal length) in Hnil;
          rewrite length_take, length_drop, Hlen in Hnil; cbn in Hnil; lia).
    rewrite length_take, length_drop, Hlen.
    decide_tests.
    set (w2 := answered handle w1 (page_request API_TOKEN params (1 + 1))).
    pose proof (Hpages (server w2) 3%Z ltac:(lia)) as H3.
    change (Z.to_nat (100 * (3 - 1))) with 200 in H3.
    rewrite (pagination_loop_page _ _ _ _ _ _ _ H3)
      by (intros Hnil; apply (f_equal length) in Hnil;
          rewrite length_take, length_drop, Hlen in Hnil; cbn in Hnil; lia).
    rewrite length_take, length_drop, Hlen.
    decide_tests.
    cbn [fst snd]. split; [| split].
    + exists items. split; [| auto]. f_equal. cbn [app].
      rewrite (take_ge (drop 200 items)) by (rewrite length_drop; lia).
      replace (drop 200 items) with (drop 100 (drop 100 items))
        by (rewrite drop_drop; reflexivity).
      rewrite <- app_assoc, take_drop, take_drop. reflexivity.
    + subst w2 w1. cbn [answered requests]. rewrite <- !app_assoc. reflexivity.
    + reflexivity.
  - intros page all_projects w items q Hres Hshort.
    destruct items as [| item items].
    + rewrite pagination_loop_unroll, pagination_step_run. cbv zeta. fold q.
      rewrite Hres. cbn. rewrite app_nil_r. reflexivity.
    + rewrite (pagination_loop_page _ _ _ _ _ _ _ Hres) by discriminate.
      fold q. apply Z.ltb_lt in Hshort. rewrite Hshort. reflexivity.
  - intros page all_projects w q Hfail. apply pagination_loop_failed, Hfail.
  - intros page all_projects w items q Hres Hfull Hcap.
    rewrite (pagination_loop_page _ _ _ _ _ _ _ Hres)
      by (intros ->; cbn in Hfull; lia).
    fold q. apply Z.ltb_ge in Hfull. rewrite Hfull.
    apply Z.gtb_gt in Hcap. rewrite Hcap. reflexivity.
Qed.

Lemma pagination_collects_pages_witness :
  let r := get_all_projects_with_pagination (Static.handle listing_site)
             "token" ∅ Static.start in
  ((exists l, fst r = Ret l /\ l = listed_projects /\ length l = 250 /\ NoDup l) /\
   requests (snd r) = [page_request "token" ∅ 1; page_request "token" ∅ 2;
                       page_request "token" ∅ 3] /\
   warnings (snd r) = []) /\
  pagination_loop (Static.handle listing_site) "token" ∅ 3
    [JNum 0] Static.start =
    (Ret ([JNum 0] ++ take 100 (drop 200 listed_projects)),
     answered (Static.handle listing_site) Static.start
       (page_request "token" ∅ 3)) /\
  pagination_loop (Static.handle listing_site) "token" ∅ 4
    [JNum 0] Static.start =
    (Ret [JNum 0],
     answered (Static.handle listing_site) Static.start
       (page_request "token" ∅ 4)) /\
  pagination_loop full_pages "token" ∅ 1000 [JNum 1] Static.start =
    (Ret ([JNum 1] ++ replicate 100 (JNum 0)),
     warned (answered full_pages Static.start (page_request "token" ∅ 1000))
       "⚠️ Reached pagination limit. Some projects might not be displayed.").
Proof.
  destruct (pagination_collects_pages unit (Static.handle listing_site) "token" ∅)
    as (Hall & Hshort & Hfail & _).
  destruct (pagination_collects_pages unit full_pages "token" ∅)
    as (_ & _ & _ & Hcap).
  split; [| split; [| split]].
  - apply (Hall listed_projects).
    + vm_compute. reflexivity.
    + apply NoDup_fmap_2; [intros x y [= ->]; reflexivity | apply NoDup_seqZ].
    + intros s n Hn.
      assert (Hcases : n = 1%Z \/ n = 2%Z \/ n = 3%Z) by lia.
      destruct Hcases as [-> | [-> | ->]]; vm_compute; reflexivity.
  - apply Hshort.
    + vm_compute. reflexivity.
    + vm_compute. reflexivity.
  - apply Hfail. vm_compute. discriminate.
  - apply Hcap.
    + reflexivity.
    + vm_compute. discriminate.
    + reflexivity.
Defined.



(** C8: for a project path [p], the URL of [p] followed by the marker and
    any suffix is classified as the URL of [p] alone is: by one lookup of
    the URL-encoded segment of [p] before its first marker, which is [p]
    itself when [p] holds no marker. *)
Theorem classify_ignores_suffix :
  forall (S : Type) (handle : S -> request -> S * response) (API_TOKEN : string)
         (p suffix : string) (w : world S),
    project_path p ->
    let marked :=
      determine_input_type_and_process handle API_TOKEN
        (GITLAB_URL +:+ "/" +:+ p +:+ "/-/" +:+ suffix) w in
    let plain :=
      determine_input_type_and_process handle API_TOKEN
        (GITLAB_URL +:+ "/" +:+ p) w in
    let q := path_lookup API_TOKEN (PyStr.first_segment "/-/" p) in
    let res := snd (handle (server w) q) in
    marked = plain /\
    marked =
      (Ret (if (status_code res =? 200)%Z && Py.truthy (body res)
            then Project (body res)
            else Error "Could not fetch project from the provided URL"),
       answered handle w q) /\
    (PyStr.contains "/-/" p = false -> PyStr.first_segment "/-/" p = p).
Proof.
  intros S handle API_TOKEN p suffix w Hp marked plain q res.
  assert (Hmarked : marked =
    (Ret (if (status_code res =? 200)%Z && Py.truthy (body res)
          then Project (body res)
          else Error "Could not fetch project from the provided URL"),
     answered handle w q)).
  { subst marked q res.
    rewrite (determine_url_run _ _ _ ("/" +:+ p +:+ "/-/" +:+ PyStr.rstrip suffix))
      by apply strip_marked_url.
    rewrite url_path_marked by exact Hp. reflexivity. }
  split; [| split; [exact Hmarked |]].
  - rewrite Hmarked. subst plain q res.
    rewrite (determine_url_run _ _ _ ("/" +:+ p))
      by (apply strip_url, Hp).
    rewrite url_path_plain by exact Hp. reflexivity.
  - clear. induction p as [| c p IH]; [reflexivity |].
    cbn [PyStr.contains]. intros Hno.
    apply orb_false_iff in Hno as [Hhere Hno].
    rewrite first_segment_cons, Hhere, (IH Hno). reflexivity.
Qed.

Lemma classify_ignores_suffix_witness :
  determine_input_type_and_process (Static.handle namespaced_site) "token"
    "https://code.swecha.org/group/proj/-/tree/main" Static.start =
  determine_input_type_and_process (Static.handle namespaced_site) "token"
    "https://code.swecha.org/group/proj" Static.start.
Proof.
  apply (classify_ignores_suffix unit (Static.handle namespaced_site) "token"
           "group/proj" "tree/main" Static.start).
  repeat split; vm_compute; reflexivity.
Defined.

(** C9, as stated: a first page of 100001 items is kept whole, so the
    result exceeds 100000 items. *)
Lemma oversized_page_exceeds_bound :
  let r := get_all_projects_with_pagination (Static.handle oversized_page)
             "token" ∅ Static.start in
  ~ (forall l, fst r = Ret l -> (Z.of_nat (length l) <= 100000)%Z).
Proof.
  intros r Hbound.
  assert (Hlen : length many_items = Z.to_nat 100001)
    by apply length_replicate.
  assert (Hroute : Static.route_matches (page_request "token" ∅ 1)
                      (Static.mk_route projects_url [("page", JNum 1)]
                         (mk_response 200 (JArr many_items))) = true)
    by (vm_compute; reflexivity).
  assert (Hres : snd (Static.handle oversized_page (server Static.start)
                        (page_request "token" ∅ 1)) =
                 mk_response 200 (JArr many_items)).
  { unfold Static.handle, Static.serve, oversized_page. cbn [snd find].
    rewrite Hroute. reflexivity. }
  assert (Hne : many_items <> []).
  { intros Hnil. apply (f_equal length) in Hnil. rewrite Hlen in Hnil.
    cbn [length] in Hnil. lia. }
  pose proof (pagination_loop_page (Static.handle oversized_page) "token" ∅ 1 []
                Static.start many_items Hres Hne) as Hpage.
  rewrite Hlen, Z2Nat.id in Hpage by lia. 
  change (100001 <? 100)%Z with false in Hpage.
  change (1 + 1 >? 1000)%Z with false in Hpage. cbv iota in Hpage.
  assert (Hrun : fst r = Ret ([] ++ many_items)).
  { subst r. unfold get_all_projects_with_pagination. rewrite Hpage.
    rewrite pagination_loop_failed; [reflexivity |].
    vm_compute. discriminate. }
  specialize (Hbound _ Hrun). cbn [app] in Hbound.
  rewrite Hlen, Z2Nat.id in Hbound by lia. lia.
Qed.

(** C9, amended: every run of the aggregator ends (the loop is defined by
    recursion on the distance of the page number to the cap), after at most
    1000 page requests; it returns at most 100000 items when no page holds
    more than 100 items, the page size asked for. *)
Theorem pagination_bounded :
  forall (S : Type) (handle : S -> request -> S * response) (API_TOKEN : string)
         (params : gmap string json) (w : world S),
    let r := get_all_projects_with_pagination handle API_TOKEN params w in
    (Z.of_nat (length (requests (snd r))) <=
     Z.of_nat (length (requests w)) + 1000)%Z /\
    (pages_bounded handle ->
     forall l, fst r = Ret l -> (Z.of_nat (length l) <= 100000)%Z).
Proof.
  intros S handle API_TOKEN params w r. subst r.
  unfold get_all_projects_with_pagination.
  destruct (pagination_loop_bounds handle API_TOKEN params 1 [] w ltac:(lia))
    as [Hreq Hitems].
  split; [lia |].
  intros Hb l Hl. specialize (Hitems Hb l Hl). cbn [length] in Hitems. lia.
Qed.

Lemma pagination_bounded_witness :
  let r := get_all_projects_with_pagination full_pages "token" ∅ Static.start in
  (Z.of_nat (length (requests (snd r))) <= 0 + 1000)%Z /\
  match fst r with
  | Ret l => (Z.of_nat (length l) <= 100000)%Z
  | Raise _ => True
  end.
Proof.
  intros r.
  destruct (pagination_bounded unit full_pages "token" ∅ Static.start)
    as [Hrequests Hitems].
  split; [exact Hrequests |].
  assert (Hbounded : pages_bounded full_pages).
  { intros s q items [= <-]. vm_compute. discriminate. }
  specialize (Hitems Hbounded). fold r in Hitems. revert Hitems.
  generalize (fst r). intros [l | e] Hitems; [apply Hitems; reflexivity | exact I].
Defined.

(** C10, as stated: the record of project 17 has no description, which is
    the condition of the claim, and the number 5 for a tag list:
    [get_compliance_status] raises the [TypeError] of [len(5)]. *)
Lemma absent_description_numeric_tags_raise :
  absent_or_null "description" [("id", JNum 17); ("tag_list", JNum 5)] = true /\
  Static.serve untyped_tags_site (metadata_request "token" 17) =
    mk_response 200 (JObj [("id", JNum 17); ("tag_list", JNum 5)]) /\
  fst (get_compliance_status (Static.handle untyped_tags_site) "token" 17
         Static.start) = Raise TypeError.
Proof.
  split; [reflexivity |].
  assert (Hserve : Static.serve untyped_tags_site (metadata_request "token" 17) =
                   mk_response 200 (JObj [("id", JNum 17); ("tag_list", JNum 5)]))
    by (vm_compute; reflexivity).
  split; [exact Hserve |].
  destruct (get_compliance_status_run_ok (Static.handle untyped_tags_site)
              "token" 17 Static.start) as (m0 & w' & _ & ->).
  - intros s. cbv zeta. intros _.
    exists (Static.blob <$> template_listing), template_listing.
    split; vm_compute; reflexivity.
  - unfold metadata_phase.
    change (snd (Static.handle untyped_tags_site (server w')
                   (metadata_request "token" 17)))
      with (Static.serve untyped_tags_site (metadata_request "token" 17)).
    rewrite Hserve. reflexivity.
Qed.

(** C10, amended: on a project record, [get_compliance_status] does not
    raise provided [len] can be taken of the tag list whenever it is called
    (the tag list is not a number other than zero, nor [true]): the status
    then has its eight keys, and the flag of a description or of a tag list
    that is missing or [null] is false.  On any other tag list it raises
    [TypeError], also when the description is missing or [null].  The tree
    listings are assumed well formed: the template scans run before the
    record is read. *)
Theorem metadata_flags_absent_or_null :
  forall (S : Type) (handle : S -> request -> S * response) (API_TOKEN : string)
         (project_id : Z) (fields : list (string * json)),
    tree_listing_ok handle API_TOKEN project_id ->
    (forall s, snd (handle s (metadata_request API_TOKEN project_id)) =
               mk_response 200 (JObj fields)) ->
    forall w : world S,
      let r := fst (get_compliance_status handle API_TOKEN project_id w) in
      (tag_list_sized fields = true ->
       exists m : gmap string bool,
         r = Ret m /\
         dom m = list_to_set
                   ["README.md"; "CONTRIBUTING.md"; "CHANGELOG.md"; "LICENSE";
                    ".gitlab/issue_templates"; ".gitlab/merge_request_templates";
                    "description_present"; "tags_present"] /\
         (absent_or_null "description" fields = true ->
          m !! "description_present" = Some false) /\
         (absent_or_null "tag_list" fields = true ->
          m !! "tags_present" = Some false)) /\
      (tag_list_sized fields = false -> r = Raise TypeError).
Proof.
  intros S handle API_TOKEN project_id fields Hok Hrecord w r. subst r.
  destruct (get_compliance_status_run_ok handle API_TOKEN project_id w Hok)
    as (m0 & w' & Hdom0 & Hrun).
  rewrite Hrun. split.
  - intros Hsized.
    assert (Hphase : exists tags,
      metadata_phase handle API_TOKEN project_id m0 w' =
        Ret (<["tags_present" := tags]>
               (<["description_present" :=
                    Py.truthy (default JNull (Py.assoc "description" fields))]> m0)) /\
      (absent_or_null "tag_list" fields = true -> tags = false)).
    { unfold metadata_phase. rewrite Hrecord. cbn [status_code body Py.get].
      change (negb (200 =? 200)%Z) with false. cbv iota.
      unfold tag_list_sized in Hsized. unfold absent_or_null.
      destruct (Py.assoc "tag_list" fields)
        as [[| b | n | text | items | entries] |];
        cbn [from_option id Py.truthy Py.len].
      - eexists. split; reflexivity.
      - apply negb_true_iff in Hsized. subst b.
        eexists. split; [reflexivity | discriminate].
      - rewrite Hsized. eexists. split; [reflexivity | discriminate].
      - destruct (negb (String.eqb text ""));
          eexists; (split; [reflexivity | discriminate]).
      - destruct items as [| item items];
          eexists; (split; [reflexivity | discriminate]).
      - destruct entries as [| entry entries];
          eexists; (split; [reflexivity | discriminate]).
      - eexists. split; reflexivity. }
    destruct Hphase as (tags & Hphase & Htags).
    eexists. split; [exact Hphase |]. split; [| split].
    + destruct (metadata_phase_keys _ _ _ _ _ _ Hdom0 Hphase) as [Hempty | Hkeys];
        [| exact Hkeys].
      apply (f_equal (lookup "tags_present")) in Hempty.
      rewrite lookup_insert_eq, lookup_empty in Hempty. discriminate Hempty.
    + intros Habs. rewrite lookup_insert_ne by discriminate.
      rewrite lookup_insert_eq. f_equal.
      unfold absent_or_null in Habs.
      destruct (Py.assoc "description" fields) as [[] |];
        try discriminate Habs; reflexivity.
    + intros Habs. rewrite lookup_insert_eq, (Htags Habs). reflexivity.
  - intros Hsized.
    unfold metadata_phase. rewrite Hrecord. cbn [status_code body Py.get].
    change (negb (200 =? 200)%Z) with false. cbv iota.
    unfold tag_list_sized in Hsized.
    destruct (Py.assoc "tag_list" fields) as [[| b | n | | |] |];
      try discriminate Hsized; cbn [from_option id Py.truthy Py.len].
    + apply negb_false_iff in Hsized. subst b. reflexivity.
    + rewrite Hsized. reflexivity.
Qed.

Lemma metadata_flags_absent_or_null_witness :
  exists m : gmap string bool,
    fst (get_compliance_status
           (Static.handle
              [Static.tree_route 11 template_listing;
               Static.metadata_route 11 [("id", JNum 11); ("description", JNull)]])
           "token" 11 Static.start) = Ret m /\
    dom m = list_to_set
              ["README.md"; "CONTRIBUTING.md"; "CHANGELOG.md"; "LICENSE";
               ".gitlab/issue_templates"; ".gitlab/merge_request_templates";
               "description_present"; "tags_present"] /\
    m !! "description_present" = Some false /\
    m !! "tags_present" = Some false.
Proof.
  destruct (metadata_flags_absent_or_null unit
              (Static.handle
                 [Static.tree_route 11 template_listing;
                  Static.metadata_route 11 [("id", JNum 11); ("description", JNull)]])
              "token" 11 [("id", JNum 11); ("description", JNull)])
    with (w := Static.start) as [Hsized _].
  - intros s. cbv zeta. intros _.
    exists (Static.blob <$> template_listing), template_listing.
    split; vm_compute; reflexivity.
  - intros s. vm_compute. reflexivity.
  - destruct Hsized as (m & Hrun & Hdom & Hdesc & Htags); [reflexivity |].
    exists m. split; [exact Hrun |]. split; [exact Hdom |].
    split; [apply Hdesc | apply Htags]; vm_compute; reflexivity.
Defined.

(** ** Further properties of the script *)

Section Classifier.

Import PyStr.

Context {S : Type}.
Variable handle : S -> request -> S * response.
Variable API_TOKEN : string.

Lemma digits_without_base_url s :
  all_chars is_digit s = true -> contains GITLAB_URL s = false.
Proof.
  induction s as [| c s IH]; [reflexivity |].
  cbn [all_chars contains]. intros Hd. apply andb_true_iff in Hd as [Hc Hs].
  rewrite (IH Hs), orb_false_r. unfold GITLAB_URL. cbn [String.prefix].
  destruct (ascii_dec "h" c) as [<- |]; [discriminate Hc | reflexivity].
Qed.

Lemma isdigit_without_base_url s : isdigit s = true -> contains GITLAB_URL s = false.
Proof.
  destruct s as [| c s]; [discriminate |]. apply digits_without_base_url.
Qed.

Lemma lstrip_spaces l t : all_chars is_space l = true -> lstrip (l +:+ t) = lstrip t.
Proof.
  induction l as [| c l IH]; [reflexivity |].
  cbn [all_chars]. intros Hl. apply andb_true_iff in Hl as [Hc Hl].
  rewrite string_app_cons. cbn [lstrip]. rewrite Hc. apply IH, Hl.
Qed.

Lemma rstrip_spaces r : all_chars is_space r = true -> rstrip r = EmptyString.
Proof.
  induction r as [| c r IH]; [reflexivity |].
  cbn [all_chars]. intros Hr. apply andb_true_iff in Hr as [Hc Hr].
  rewrite rstrip_cons, (IH Hr), Hc. reflexivity.
Qed.

Lemma rstrip_app_spaces t r :
  all_chars is_space r = true -> rstrip (t +:+ r) = rstrip t.
Proof.
  intros Hr. induction t as [| c t IH]; [apply rstrip_spaces, Hr |].
  rewrite string_app_cons, !rstrip_cons, IH. reflexivity.
Qed.

Lemma strip_app_spaces t r :
  all_chars is_space r = true -> strip (t +:+ r) = strip t.
Proof.
  intros Hr. unfold strip. induction t as [| c t IH].
  - cbn [lstrip]. change ("" +:+ r) with r.
    rewrite (rstrip_spaces (lstrip r)); [reflexivity |].
    clear -Hr. induction r as [| c r IH]; [reflexivity |].
    cbn [all_chars] in Hr. apply andb_true_iff in Hr as [Hc Hr].
    cbn [lstrip]. rewrite Hc. apply IH, Hr.
  - rewrite string_app_cons. cbn [lstrip]. destruct (is_space c); [exact IH |].
    rewrite <- string_app_cons. apply rstrip_app_spaces, Hr.
Qed.

(** White space around a string does not change what [strip] returns. *)
Lemma strip_padding l t r :
  all_chars is_space l = true -> all_chars is_space r = true ->
  strip (l +:+ t +:+ r) = strip t.
Proof.
  intros Hl Hr. unfold strip. rewrite lstrip_spaces by exact Hl.
  apply (strip_app_spaces t r Hr).
Qed.

(** The classification of an input that is all digits once trimmed. *)
Lemma determine_digits_run input_value (w : world S) :
  isdigit (strip input_value) = true ->
  let q := id_lookup API_TOKEN (strip input_value) in
  let res := snd (handle (server w) q) in
  determine_input_type_and_process handle API_TOKEN input_value w =
  (Ret (if (status_code res =? 200)%Z && Py.truthy (body res)
        then Project (body res)
        else Error ("No project found with ID: " +:+ strip input_value)),
   answered handle w q).
Proof.
  intros Hd q res. subst q res.
  unfold determine_input_type_and_process, get_project_by_id_or_url.
  rewrite (isdigit_without_base_url _ Hd), Hd.
  unfold bind, requests_get, ret, id_lookup, answered.
  destruct (handle (server w) _) as [s' res]. cbn [fst snd].
  destruct (status_code res =? 200)%Z; [| reflexivity].
  cbn [andb]. destruct (Py.truthy (body res)); reflexivity.
Qed.

(** The classification of an input that holds the base URL anywhere. *)
Lemma determine_base_url_run input_value (w : world S) :
  contains GITLAB_URL (strip input_value) = true ->
  let q := path_lookup API_TOKEN
             (first_segment "/-/"
                (replace (GITLAB_URL +:+ "/") "" (strip input_value))) in
  let res := snd (handle (server w) q) in
  determine_input_type_and_process handle API_TOKEN input_value w =
  (Ret (if (status_code res =? 200)%Z && Py.truthy (body res)
        then Project (body res)
        else Error "Could not fetch project from the provided URL"),
   answered handle w q).
Proof.
  intros Hc q res. subst q res.
  assert (Hd : isdigit (strip input_value) = false).
  { destruct (isdigit (strip input_value)) eqn:Hd; [| reflexivity].
    rewrite (isdigit_without_base_url _ Hd) in Hc. discriminate Hc. }
  unfold determine_input_type_and_process, get_project_by_id_or_url.
  rewrite Hc, Hd.
  unfold bind, requests_get, ret, path_lookup, answered.
  destruct (handle (server w) _) as [s' res]. cbn [fst snd].
  destruct (status_code res =? 200)%Z; [| reflexivity].
  cbn [andb]. destruct (Py.truthy (body res)); reflexivity.
Qed.

End Classifier.

(** X1: an input that is all digits once trimmed is resolved by exactly one
    request, the lookup of the project with this id, and never by a user
    search; the outcome is the project when the answer is a 200 with a
    truthy body, and the error naming the id otherwise. *)
Theorem numeric_input_is_project_lookup :
  forall (S : Type) (handle : S -> request -> S * response) (API_TOKEN : string)
         (input_value : string) (w : world S),
    PyStr.isdigit (PyStr.strip input_value) = true ->
    let q := id_lookup API_TOKEN (PyStr.strip input_value) in
    let res := snd (handle (server w) q) in
    determine_input_type_and_process handle API_TOKEN input_value w =
    (Ret (if (status_code res =? 200)%Z && Py.truthy (body res)
          then Project (body res)
          else Error ("No project found with ID: " +:+ PyStr.strip input_value)),
     answered handle w q).
Proof.
  intros S handle API_TOKEN input_value w Hd. apply determine_digits_run, Hd.
Qed.

Lemma numeric_input_is_project_lookup_witness :
  let r := determine_input_type_and_process (Static.handle numeric_site) "token"
             " 12345 " Static.start in
  fst r = Ret (Project (Static.project 12345 "Group / Numbered")) /\
  requests (snd r) = [id_lookup "token" "12345"].
Proof.
  cbv zeta.
  rewrite (numeric_input_is_project_lookup unit (Static.handle numeric_site)
             "token" " 12345 " Static.start) by (vm_compute; reflexivity).
  split; vm_compute; reflexivity.
Defined.

(** X2: an input that holds the base URL anywhere is resolved by exactly one
    request: the lookup of the URL-encoded text that is left before the first
    marker once every occurrence of the base URL and a slash is removed.  The
    outcome is the project on a 200 with a truthy body and the URL error
    otherwise; nothing is raised.  So the base URL and a slash alone look up
    the empty path. *)
Theorem base_url_input_is_path_lookup :
  forall (S : Type) (handle : S -> request -> S * response) (API_TOKEN : string)
         (input_value : string) (w : world S),
    PyStr.contains GITLAB_URL (PyStr.strip input_value) = true ->
    let q := path_lookup API_TOKEN
               (PyStr.first_segment "/-/"
                  (PyStr.replace (GITLAB_URL +:+ "/") ""
                     (PyStr.strip input_value))) in
    let res := snd (handle (server w) q) in
    determine_input_type_and_process handle API_TOKEN input_value w =
    (Ret (if (status_code res =? 200)%Z && Py.truthy (body res)
          then Project (body res)
          else Error "Could not fetch project from the provided URL"),
     answered handle w q).
Proof.
  intros S handle API_TOKEN input_value w Hc. apply determine_base_url_run, Hc.
Qed.

Lemma base_url_input_is_path_lookup_witness :
  let r := determine_input_type_and_process (Static.handle bare_url_site) "token"
             "https://code.swecha.org/" Static.start in
  fst r = Ret (Project (JArr [Static.project 1 "a / b"; Static.project 2 "c / d"])) /\
  requests (snd r) = [path_lookup "token" ""].
Proof.
  cbv zeta.
  rewrite (base_url_input_is_path_lookup unit (Static.handle bare_url_site)
             "token" "https://code.swecha.org/" Static.start)
    by (vm_compute; reflexivity).
  split; vm_compute; reflexivity.
Defined.

(** X3: for an input that is neither a URL nor a number, a user search that
    fails or finds nobody ends the classification at once: the outcome is the
    error naming the trimmed input, and no project listing is requested. *)
Theorem unknown_user_is_error :
  forall (S : Type) (handle : S -> request -> S * response) (API_TOKEN : string)
         (input_value : string) (w : world S),
    let username := PyStr.strip input_value in
    let q := user_request API_TOKEN username in
    let res := snd (handle (server w) q) in
    PyStr.contains GITLAB_URL username = false ->
    PyStr.isdigit username = false ->
    status_code res <> 200%Z \/ Py.truthy (body res) = false ->
    determine_input_type_and_process handle API_TOKEN input_value w =
    (Ret (Error ("No projects found for username: " +:+ username)),
     answered handle w q).
Proof.
  intros S handle API_TOKEN input_value w username q res Hurl Hdigit Hfail.
  subst username q res.
  unfold determine_input_type_and_process. rewrite Hurl, Hdigit.
  unfold get_contributed_projects, bind, requests_get, ret, user_request, answered
    in *.
  destruct (handle (server w) _) as [s' res]. cbn [fst snd] in *.
  assert (Hbad : negb (status_code res =? 200)%Z || negb (Py.truthy (body res))
                 = true).
  { destruct Hfail as [Hst | Hbody].
    - destruct (Z.eqb_spec (status_code res) 200); [contradiction | reflexivity].
    - rewrite Hbody. apply orb_true_r. }
  rewrite Hbad. reflexivity.
Qed.

Lemma unknown_user_is_error_witness :
  let r := determine_input_type_and_process (Static.handle membership_site)
             "token" "carol" Static.start in
  fst r = Ret (Error "No projects found for username: carol") /\
  requests (snd r) = [user_request "token" "carol"].
Proof.
  cbv zeta.
  rewrite (unknown_user_is_error unit (Static.handle membership_site)
             "token" "carol" Static.start);
    [split; reflexivity | reflexivity | reflexivity |].
  left. vm_compute. discriminate.
Defined.

(** X4: what the classifier returns is well formed: a project is a truthy
    value and comes from a URL or a numeric input only, and a list of
    projects is never empty and comes from a username input only. *)
Theorem classified_well_formed :
  forall (S : Type) (handle : S -> request -> S * response) (API_TOKEN : string)
         (input_value : string) (w : world S) (c : classified),
    fst (determine_input_type_and_process handle API_TOKEN input_value w) = Ret c ->
    let trimmed := PyStr.strip input_value in
    match c with
    | Project project_data =>
        Py.truthy project_data = true /\
        PyStr.contains GITLAB_URL trimmed || PyStr.isdigit trimmed = true
    | Projects project_list =>
        project_list <> [] /\
        PyStr.contains GITLAB_URL trimmed || PyStr.isdigit trimmed = false
    | Error _ => True
    end.
Proof.
  intros S handle API_TOKEN input_value w c Hrun trimmed. subst trimmed.
  destruct (PyStr.contains GITLAB_URL (PyStr.strip input_value)) eqn:Hurl.
  - rewrite determine_base_url_run in Hrun by exact Hurl. cbn [fst] in Hrun.
    destruct (_ && _) eqn:Hok in Hrun; injection Hrun as <-; [| exact I].
    apply andb_true_iff in Hok as [_ Hok]. auto.
  - destruct (PyStr.isdigit (PyStr.strip input_value)) eqn:Hdigit.
    + rewrite determine_digits_run in Hrun by exact Hdigit. cbn [fst] in Hrun.
      destruct (_ && _) eqn:Hok in Hrun; injection Hrun as <-; [| exact I].
      apply andb_true_iff in Hok as [_ Hok]. auto.
    + unfold determine_input_type_and_process in Hrun.
      rewrite Hurl, Hdigit, bind_run in Hrun.
      destruct (get_contributed_projects _ _ _ w) as [[l | e] w'];
        [| discriminate Hrun].
      destruct l as [| p l]; cbn in Hrun; injection Hrun as <-; [exact I |].
      split; [discriminate | reflexivity].
Qed.

Lemma classified_well_formed_witness :
  Py.truthy (Static.project 42 "Group / Proj") = true /\
  PyStr.contains GITLAB_URL (PyStr.strip "https://code.swecha.org/group/proj")
  || PyStr.isdigit (PyStr.strip "https://code.swecha.org/group/proj") = true.
Proof.
  apply (classified_well_formed unit (Static.handle namespaced_site) "token"
           "https://code.swecha.org/group/proj" Static.start
           (Project (Static.project 42 "Group / Proj"))).
  vm_compute. reflexivity.
Defined.

(** X5: white space before and after the input never changes the
    classification. *)
Theorem classification_ignores_padding :
  forall (S : Type) (handle : S -> request -> S * response) (API_TOKEN : string)
         (left_pad input_value right_pad : string) (w : world S),
    PyStr.all_chars PyStr.is_space left_pad = true ->
    PyStr.all_chars PyStr.is_space right_pad = true ->
    determine_input_type_and_process handle API_TOKEN
      (left_pad +:+ input_value +:+ right_pad) w =
    determine_input_type_and_process handle API_TOKEN input_value w.
Proof.
  intros S handle API_TOKEN left_pad input_value right_pad w Hl Hr.
  unfold determine_input_type_and_process.
  rewrite (strip_padding _ _ _ Hl Hr). reflexivity.
Qed.

Lemma classification_ignores_padding_witness :
  determine_input_type_and_process (Static.handle numeric_site) "token"
    ("  " +:+ "12345" +:+ String "009" (String "010" "")) Static.start =
  determine_input_type_and_process (Static.handle numeric_site) "token"
    "12345" Static.start.
Proof.
  apply (classification_ignores_padding unit (Static.handle numeric_site) "token"
           "  " "12345" (String "009" (String "010" "")) Static.start);
    reflexivity.
Defined.

Section Aggregator.

Context {S : Type}.
Variable handle : S -> request -> S * response.
Variable API_TOKEN : string.

(** The pages are asked for one after the other from [page] on, and the
    warning is shown only by a run that reaches the cap. *)
Lemma pagination_loop_trace params page all_projects (w : world S) :
  (page <= 1000)%Z ->
  let r := pagination_loop handle API_TOKEN params page all_projects w in
  exists k : nat,
    (1 <= Z.of_nat k <= 1001 - page)%Z /\
    requests (snd r) =
      requests w ++ (page_request API_TOKEN params <$> seqZ page (Z.of_nat k)) /\
    (warnings (snd r) = warnings w \/
     (Z.of_nat k = 1001 - page)%Z /\
     warnings (snd r) = warnings w ++ [pagination_warning]).
Proof.
  apply (pagination_loop_elim handle API_TOKEN
    (fun params page all_projects w r =>
       (page <= 1000)%Z ->
       exists k : nat,
         (1 <= Z.of_nat k <= 1001 - page)%Z /\
         requests (snd r) =
           requests w ++ (page_request API_TOKEN params <$> seqZ page (Z.of_nat k)) /\
         (warnings (snd r) = warnings w \/
          (Z.of_nat k = 1001 - page)%Z /\
          warnings (snd r) = warnings w ++ [pagination_warning]))).
  - clear. intros params page all_projects w page' all' w' Hstep IH _ Hpage.
    assert (Hw : requests w' = requests w ++ [page_request API_TOKEN params page] /\
                 warnings w' = warnings w /\ (page' = page + 1 /\ page' <= 1000)%Z).
    { revert Hstep. rewrite pagination_step_run. cbv zeta.
      destruct (negb (status_code _ =? 200)%Z); [discriminate |].
      destruct (negb (Py.truthy _)); [discriminate |].
      destruct (Py.iter _) as [items | e]; [| discriminate].
      destruct (Py.len _) as [n | e]; [| discriminate].
      destruct (n <? 100)%Z; [discriminate |].
      destruct (page + 1 >? 1000)%Z eqn:Hcap; [discriminate |].
      intros [= <- _ <-]. cbn. repeat split; lia. }
    destruct Hw as (Hreq & Hwarn & -> & Hcap).
    destruct (IH Hcap) as (k & Hk & Hlog & Hwarned).
    exists (Datatypes.S k). split; [lia |]. split.
    + rewrite Hlog, Hreq, <- app_assoc. f_equal.
      replace (Z.of_nat (Datatypes.S k)) with (Z.succ (Z.of_nat k)) by lia.
      rewrite (seqZ_cons page (Z.succ (Z.of_nat k))) by lia.
      cbn [fmap list_fmap app]. f_equal.
      replace (Z.pred (Z.succ (Z.of_nat k))) with (Z.of_nat k) by lia.
      replace (Z.succ page) with (page + 1)%Z by lia. reflexivity.
    + rewrite Hwarn in Hwarned.
      destruct Hwarned as [Hsame | [Hk' Hwarned]]; [left; exact Hsame |].
      right. split; [lia | exact Hwarned].
  - clear. intros params page all_projects w all' w' Hstep _ Hpage.
    exists 1%nat. cbn [fst snd]. split; [lia |].
    revert Hstep. rewrite pagination_step_run. cbv zeta.
    change (page_request API_TOKEN params <$> seqZ page (Z.of_nat 1))
      with [page_request API_TOKEN params page].
    destruct (negb (status_code _ =? 200)%Z); [intros [= _ <-]; cbn; auto |].
    destruct (negb (Py.truthy _)); [intros [= _ <-]; cbn; auto |].
    destruct (Py.iter _) as [items | e]; [| discriminate].
    destruct (Py.len _) as [n | e]; [| discriminate].
    destruct (n <? 100)%Z; [intros [= _ <-]; cbn; auto |].
    destruct (page + 1 >? 1000)%Z eqn:Hcap; [| discriminate].
    intros [= _ <-]. cbn. split; [reflexivity |]. right. split; [lia | reflexivity].
  - clear. intros params page all_projects w e w' Hstep _ Hpage.
    exists 1%nat. cbn [fst snd]. split; [lia |].
    revert Hstep. rewrite pagination_step_run. cbv zeta.
    change (page_request API_TOKEN params <$> seqZ page (Z.of_nat 1))
      with [page_request API_TOKEN params page].
    destruct (negb (status_code _ =? 200)%Z); [discriminate |].
    destruct (negb (Py.truthy _)); [discriminate |].
    destruct (Py.iter _) as [items | e'].
    + destruct (Py.len _) as [n | e']; [| intros [= _ <-]; cbn; auto].
      destruct (n <? 100)%Z; [discriminate |].
      destruct (page + 1 >? 1000)%Z; discriminate.
    + intros [= _ <-]. cbn. auto.
Qed.

(** On a stable server whose 200 answers are arrays, the loop returns what
    it had followed by the pages from [page] to the first page that is short
    or missing, or to page 1000. *)
Lemma pagination_loop_stable respond params page all_projects (w : world S) :
  stable handle respond ->
  (forall q, status_code (respond q) = 200%Z -> exists l, body (respond q) = JArr l) ->
  (page <= 1000)%Z ->
  let items i := page_items (respond (page_request API_TOKEN params i)) in
  exists k : nat,
    (1 <= Z.of_nat k <= 1001 - page)%Z /\
    fst (pagination_loop handle API_TOKEN params page all_projects w) =
      Ret (all_projects ++ concat (items <$> seqZ page (Z.of_nat k))) /\
    (forall i, (page <= i < page + Z.of_nat k - 1)%Z ->
               (100 <= Z.of_nat (length (items i)))%Z) /\
    ((Z.of_nat k = 1001 - page)%Z \/
     (Z.of_nat (length (items (page + Z.of_nat k - 1))) < 100)%Z).
Proof.
  intros Hstable Harrays. cbv zeta.
  apply (pagination_loop_elim handle API_TOKEN
    (fun params page all_projects w r =>
       (page <= 1000)%Z ->
       exists k : nat,
         (1 <= Z.of_nat k <= 1001 - page)%Z /\
         fst r =
           Ret (all_projects ++
                concat ((fun i => page_items
                                    (respond (page_request API_TOKEN params i)))
                        <$> seqZ page (Z.of_nat k))) /\
         (forall i, (page <= i < page + Z.of_nat k - 1)%Z ->
            (100 <= Z.of_nat (length (page_items
               (respond (page_request API_TOKEN params i)))))%Z) /\
         ((Z.of_nat k = 1001 - page)%Z \/
          (Z.of_nat (length (page_items
             (respond (page_request API_TOKEN params
                         (page + Z.of_nat k - 1))))) < 100)%Z))).
  - clear params page all_projects w.
    intros params page all_projects w page' all' w' Hstep IH _ Hpage.
    revert Hstep. rewrite pagination_step_run. cbv zeta. rewrite !(Hstable (server w)).
    remember (respond (page_request API_TOKEN params page)) as res eqn:Hres.
    destruct (Z.eqb_spec (status_code res) 200) as [Hst |]; [| discriminate].
    rewrite Hres in Hst. destruct (Harrays _ Hst) as [l Hl].
    rewrite <- Hres in Hst, Hl. rewrite Hl.
    cbn [negb Py.truthy Py.iter Py.len].
    destruct l as [| x l]; [discriminate |]. cbn [negb].
    destruct (Z.of_nat (length (x :: l)) <? 100)%Z eqn:Hshort; [discriminate |].
    destruct (page + 1 >? 1000)%Z eqn:Hcap; [discriminate |].
    intros [= <- <- <-].
    destruct (IH ltac:(lia)) as (k & Hk & Hrun & Hfull & Hlast).
    assert (Hitems : page_items res = x :: l).
    { unfold page_items. rewrite Hl, Hst. reflexivity. }
    exists (Datatypes.S k). split; [lia |]. split; [| split].
    + rewrite Hrun. f_equal.
      replace (Z.of_nat (Datatypes.S k)) with (Z.succ (Z.of_nat k)) by lia.
      rewrite (seqZ_cons page (Z.succ (Z.of_nat k))) by lia.
      cbn [fmap list_fmap concat]. rewrite <- Hres, Hitems, <- app_assoc.
      replace (Z.pred (Z.succ (Z.of_nat k))) with (Z.of_nat k) by lia.
      replace (Z.succ page) with (page + 1)%Z by lia. reflexivity.
    + intros i Hi. destruct (Z.eq_dec i page) as [-> | Hne].
      * rewrite <- Hres, Hitems. lia.
      * apply Hfull. lia.
    + destruct Hlast as [Hlast | Hlast]; [left; lia |]. right.
      replace (page + Z.of_nat (Datatypes.S k) - 1)%Z
        with (page + 1 + Z.of_nat k - 1)%Z by lia.
      exact Hlast.
  - clear params page all_projects w.
    intros params page all_projects w all' w' Hstep _ Hpage.
    exists 1%nat. split; [lia |].
    change (seqZ page (Z.of_nat 1)) with [page].
    cbn [fmap list_fmap concat fst]. rewrite app_nil_r.
    replace (page + Z.of_nat 1 - 1)%Z with page by lia.
    revert Hstep. rewrite pagination_step_run. cbv zeta. rewrite !(Hstable (server w)).
    remember (respond (page_request API_TOKEN params page)) as res eqn:Hres.
    unfold page_items.
    destruct (Z.eqb_spec (status_code res) 200) as [Hst |].
    2: { cbn [negb]. intros [= <- _]. rewrite app_nil_r.
         split; [reflexivity |]. split; [intros i Hi; lia | right; cbn; lia]. }
    rewrite Hres in Hst. destruct (Harrays _ Hst) as [l Hl].
    rewrite <- Hres in Hst, Hl. rewrite Hl.
    cbn [negb Py.truthy Py.iter Py.len].
    destruct l as [| x l].
    { cbn [negb]. intros [= <- _]. rewrite app_nil_r.
      split; [reflexivity |]. split; [intros i Hi; lia | right; cbn; lia]. }
    cbn [negb].
    destruct (Z.of_nat (length (x :: l)) <? 100)%Z eqn:Hshort.
    { intros [= <- _]. split; [reflexivity |].
      split; [intros i Hi; lia | right; apply Z.ltb_lt, Hshort]. }
    destruct (page + 1 >? 1000)%Z eqn:Hcap; [| discriminate].
    intros [= <- _]. split; [reflexivity |].
    split; [intros i Hi; lia | left; lia].
  - clear params page all_projects w.
    intros params page all_projects w e w' Hstep _ Hpage. exfalso.
    revert Hstep. rewrite pagination_step_run. cbv zeta. rewrite !(Hstable (server w)).
    remember (respond (page_request API_TOKEN params page)) as res eqn:Hres.
    destruct (Z.eqb_spec (status_code res) 200) as [Hst |]; [| discriminate].
    rewrite Hres in Hst. destruct (Harrays _ Hst) as [l Hl].
    rewrite <- Hres in Hst, Hl. rewrite Hl.
    cbn [negb Py.truthy Py.iter Py.len].
    destruct l as [| x l]; [discriminate |]. cbn [negb].
    destruct (Z.of_nat (length (x :: l)) <? 100)%Z; [discriminate |].
    destruct (page + 1 >? 1000)%Z; discriminate.
Qed.

End Aggregator.

(** X6: the aggregator asks for the pages 1, 2, ..., k in this order, with
    no gap and no repeat, for some k from 1 to 1000, and issues no other
    request; it shows its warning at most once, and only in a run that asked
    for all 1000 pages. *)
Theorem pagination_requests_consecutive_pages :
  forall (S : Type) (handle : S -> request -> S * response) (API_TOKEN : string)
         (params : gmap string json) (w : world S),
    let r := get_all_projects_with_pagination handle API_TOKEN params w in
    exists k : nat,
      (1 <= Z.of_nat k <= 1000)%Z /\
      requests (snd r) =
        requests w ++ (page_request API_TOKEN params <$> seqZ 1 (Z.of_nat k)) /\
      (warnings (snd r) = warnings w \/
       k = 1000%nat /\
       warnings (snd r) =
         warnings w ++
         ["⚠️ Reached pagination limit. Some projects might not be displayed."]).
Proof.
  intros S handle API_TOKEN params w r. subst r.
  unfold get_all_projects_with_pagination.
  destruct (pagination_loop_trace handle API_TOKEN params 1 [] w ltac:(lia))
    as (k & Hk & Hlog & Hwarned).
  exists k. split; [lia |]. split; [exact Hlog |].
  destruct Hwarned as [Hsame | [Hcap Hwarned]]; [left; exact Hsame |].
  right. split; [lia | exact Hwarned].
Qed.

(** X7: on a server whose answers depend on the request only and whose 200
    answers are arrays, the aggregator raises nothing and returns the pages
    1 to k one after the other, unchanged (no item is dropped, reordered or
    deduplicated), where k is the first page with fewer than 100 items (a
    failed request counts as an empty page), or 1000 when there is no such
    page before. *)
Theorem pagination_returns_pages_in_order :
  forall (S : Type) (handle : S -> request -> S * response) (API_TOKEN : string)
         (params : gmap string json) (respond : request -> response) (w : world S),
    stable handle respond ->
    (forall q, status_code (respond q) = 200%Z ->
               exists l, body (respond q) = JArr l) ->
    let items i := page_items (respond (page_request API_TOKEN params i)) in
    exists k : nat,
      (1 <= Z.of_nat k <= 1000)%Z /\
      fst (get_all_projects_with_pagination handle API_TOKEN params w) =
        Ret (concat (items <$> seqZ 1 (Z.of_nat k))) /\
      (forall i, (1 <= i < Z.of_nat k)%Z ->
                 (100 <= Z.of_nat (length (items i)))%Z) /\
      (k = 1000%nat \/ (Z.of_nat (length (items (Z.of_nat k))) < 100)%Z).
Proof.
  intros S handle API_TOKEN params respond w Hstable Harrays items.
  destruct (pagination_loop_stable handle API_TOKEN respond params 1 [] w
              Hstable Harrays ltac:(lia)) as (k & Hk & Hrun & Hfull & Hlast).
  exists k. split; [lia |]. split; [exact Hrun |]. split.
  - intros i Hi. apply Hfull. lia.
  - destruct Hlast as [Hlast | Hlast]; [left; lia |]. right.
    replace (Z.of_nat k) with (1 + Z.of_nat k - 1)%Z at 1 by lia. exact Hlast.
Qed.

Lemma pagination_returns_pages_in_order_witness :
  let items i := page_items (Static.serve listing_site (page_request "token" ∅ i)) in
  exists k : nat,
    (1 <= Z.of_nat k <= 1000)%Z /\
    fst (get_all_projects_with_pagination (Static.handle listing_site) "token" ∅
           Static.start) =
      Ret (concat (items <$> seqZ 1 (Z.of_nat k))) /\
    (forall i, (1 <= i < Z.of_nat k)%Z ->
               (100 <= Z.of_nat (length (items i)))%Z) /\
    (k = 1000%nat \/ (Z.of_nat (length (items (Z.of_nat k))) < 100)%Z).
Proof.
  apply (pagination_returns_pages_in_order unit (Static.handle listing_site)
           "token" ∅ (Static.serve listing_site) Static.start).
  - intros s q. reflexivity.
  - intros q. unfold Static.serve, listing_site. cbn [find].
    repeat (destruct (Static.route_matches q _);
            [intros _; eexists; reflexivity |]).
    intros H. vm_compute in H. discriminate H.
Defined.

Section Scanner.

Context {S : Type}.
Variable handle : S -> request -> S * response.
Variable API_TOKEN : string.

Lemma scan_entries patterns (entries : list (string * string)) (w : world S) :
  exists names,
    blob_names ((fun e => tree_entry e.1 e.2) <$> entries) = Ret (JStr <$> names) /\
    existsb (fun n => match_template_patterns n patterns) names =
    existsb (fun e => String.eqb e.2 "blob" && match_template_patterns e.1 patterns)
      entries.
Proof.
  induction entries as [| [name type] entries (names & Hnames & Hscan)].
  - exists []. split; reflexivity.
  - cbn [fmap list_fmap blob_names fst snd].
    change (Py.item (tree_entry name type) "type") with (Ret (JStr type)).
    change (Py.item (tree_entry name type) "name") with (Ret (JStr name)).
    cbn [Py.eq_str existsb]. cbn [fst snd]. cbn [fmap list_fmap] in Hnames.
    destruct (String.eqb type "blob").
    + exists (name :: names). rewrite Hnames. split; [reflexivity |].
      cbn [existsb andb]. rewrite Hscan. reflexivity.
    + exists names. split; [exact Hnames | exact Hscan].
Qed.

End Scanner.

(** X8: the scanner issues one request and reads the names of the files of
    the listing only: on a listing of files and directories it answers
    whether the name of some file matches a pattern, so a directory named
    like a template does not count; and when the listing request is not a
    200 it answers false, whatever the body. *)
Theorem scanner_reads_file_names_only :
  forall (S : Type) (handle : S -> request -> S * response) (API_TOKEN : string)
         (project_id : Z) (patterns : list string) (w : world S),
    let q := tree_request API_TOKEN project_id in
    (forall entries : list (string * string),
       snd (handle (server w) q) =
         mk_response 200 (JArr ((fun e => tree_entry e.1 e.2) <$> entries)) ->
       directory_contains_templates handle API_TOKEN project_id patterns w =
       (Ret (existsb (fun e => String.eqb e.2 "blob" &&
                               match_template_patterns e.1 patterns) entries),
        answered handle w q)) /\
    (status_code (snd (handle (server w) q)) <> 200%Z ->
     directory_contains_templates handle API_TOKEN project_id patterns w =
     (Ret false, answered handle w q)).
Proof.
  intros S handle API_TOKEN project_id patterns w q. subst q. split.
  - intros entries Hres.
    unfold directory_contains_templates, bind, requests_get, lift, tree_request,
      answered in *.
    destruct (handle (server w) _) as [s' res]. cbn [fst snd] in *. subst res.
    cbn [status_code body Py.iter]. change (negb (200 =? 200)%Z) with false.
    cbv iota.
    destruct (scan_entries patterns entries w) as (names & -> & <-).
    rewrite first_hit_names. reflexivity.
  - intros Hfail.
    unfold directory_contains_templates, bind, requests_get, ret, tree_request,
      answered in *.
    destruct (handle (server w) _) as [s' res]. cbn [fst snd] in *.
    destruct (Z.eqb_spec (status_code res) 200); [contradiction | reflexivity].
Qed.

Lemma scanner_reads_file_names_only_witness :
  fst (directory_contains_templates (Static.handle usual_layout_site) "token" 5
         ISSUE_TEMPLATE_PATTERNS Static.start) = Ret false /\
  fst (directory_contains_templates (Static.handle usual_layout_site) "token" 6
         ISSUE_TEMPLATE_PATTERNS Static.start) = Ret false.
Proof.
  split.
  - rewrite (proj1 (scanner_reads_file_names_only unit
                      (Static.handle usual_layout_site) "token" 5
                      ISSUE_TEMPLATE_PATTERNS Static.start)
               [("issue_templates", "tree"); ("bug.md", "blob")])
      by (vm_compute; reflexivity).
    vm_compute. reflexivity.
  - rewrite (proj2 (scanner_reads_file_names_only unit
                      (Static.handle usual_layout_site) "token" 6
                      ISSUE_TEMPLATE_PATTERNS Static.start))
      by (vm_compute; discriminate).
    reflexivity.
Defined.

Section Files.

Context {S : Type}.
Variable handle : S -> request -> S * response.
Variable API_TOKEN : string.

Lemma file_exists_count project_id file_path (w : world S) :
  exists b w',
    file_exists handle API_TOKEN project_id file_path w = (Ret b, w') /\
    length (requests w) + 1 <= length (requests w') <= length (requests w) + 2 /\
    (b = false -> length (requests w') = length (requests w) + 2).
Proof.
  rewrite file_exists_run. cbv zeta.
  destruct (status_code _ =? 200)%Z.
  - eexists _, _. split; [reflexivity |]. cbn [requests].
    rewrite length_app. cbn [length]. split; [lia | discriminate].
  - eexists _, _. split; [reflexivity |]. cbn [requests].
    rewrite length_app. cbn [length]. split; lia.
Qed.

Lemma first_hit_file_exists_count project_id paths (w : world S) :
  exists b w',
    first_hit (file_exists handle API_TOKEN project_id) paths w = (Ret b, w') /\
    length (requests w) <= length (requests w') <=
      length (requests w) + 2 * length paths /\
    (b = false -> length (requests w') = length (requests w) + 2 * length paths).
Proof.
  revert w. induction paths as [| p paths IH]; intros w.
  - exists false, w. split; [reflexivity |]. cbn [length]. split; lia.
  - cbn [first_hit]. rewrite bind_run.
    destruct (file_exists_count project_id p w) as (b & w1 & -> & Hlen & Hfalse).
    destruct b.
    + exists true, w1. split; [reflexivity |]. cbn [length].
      split; [lia | discriminate].
    + destruct (IH w1) as (b & w2 & -> & Hlen2 & Hfalse2).
      exists b, w2. split; [reflexivity |]. cbn [length].
      specialize (Hfalse eq_refl). split; [lia |].
      intros Hb. specialize (Hfalse2 Hb). lia.
Qed.

Lemma file_exists_flexible_count project_id file_path (w : world S) :
  let r := file_exists_flexible handle API_TOKEN project_id file_path w in
  let issued := length (requests (snd r)) - length (requests w) in
  exists b,
    fst r = Ret b /\
    length (requests w) <= length (requests (snd r)) /\
    1 <= issued <= 20 /\
    (b = false ->
     issued =
       if existsb (String.eqb (PyStr.replace ".md" "" file_path))
            FLEXIBLE_EXTENSION_FILES
       then 20 else 2).
Proof.
  intros r issued. subst issued r.
  unfold file_exists_flexible. rewrite bind_run.
  destruct (file_exists_count project_id file_path w)
    as (b1 & w1 & -> & Hlen1 & Hfalse1).
  destruct b1.
  { exists true. unfold ret. cbn [fst snd]. split; [reflexivity |]. split; [lia |].
    split; [lia | intros Hb; discriminate Hb]. }
  specialize (Hfalse1 eq_refl).
  destruct (existsb _ FLEXIBLE_EXTENSION_FILES).
  2: { exists false. unfold ret. cbn [fst snd]. split; [reflexivity |]. split; [lia |].
       split; [lia | intros _; lia]. }
  rewrite bind_run.
  destruct (file_exists_count project_id
              (PyStr.replace ".md" "" file_path) w1)
    as (b2 & w2 & -> & Hlen2 & Hfalse2).
  destruct b2.
  { exists true. unfold ret. cbn [fst snd]. split; [reflexivity |]. split; [lia |].
    split; [lia | intros Hb; discriminate Hb]. }
  specialize (Hfalse2 eq_refl).
  match goal with
  | |- context [first_hit ?check ?paths w2] =>
      destruct (first_hit_file_exists_count project_id paths w2)
        as (b3 & w3 & -> & Hlen3 & Hfalse3)
  end.
  cbn [length] in Hlen3, Hfalse3.
  exists b3. cbn [fst snd]. split; [reflexivity |]. split; [lia |].
  split; [lia |]. intros Hb. specialize (Hfalse3 Hb). lia.
Qed.

End Files.

(** X9: [file_exists_flexible] is [file_exists], requests included, whenever
    the file is found at the path it is called with, and whenever the path
    without its [.md] is not one of the flexible names: for such a path no
    variant is ever probed. *)
Theorem flexible_check_agrees_with_plain_check :
  forall (S : Type) (handle : S -> request -> S * response) (API_TOKEN : string)
         (project_id : Z) (file_path : string) (w : world S),
    existsb (String.eqb (PyStr.replace ".md" "" file_path))
      FLEXIBLE_EXTENSION_FILES = false \/
    fst (file_exists handle API_TOKEN project_id file_path w) = Ret true ->
    file_exists_flexible handle API_TOKEN project_id file_path w =
    file_exists handle API_TOKEN project_id file_path w.
Proof.
  intros S handle API_TOKEN project_id file_path w Hcase.
  unfold file_exists_flexible. rewrite bind_run.
  destruct (file_exists_ret handle API_TOKEN project_id file_path w)
    as (b & w' & Hrun).
  rewrite Hrun in *. destruct b; [reflexivity |].
  destruct Hcase as [-> | Hfound]; [reflexivity | discriminate Hfound].
Qed.

Lemma flexible_check_agrees_with_plain_check_witness :
  file_exists_flexible (Static.handle main_only_site) "token" 7 "README.md"
    Static.start =
  file_exists (Static.handle main_only_site) "token" 7 "README.md" Static.start.
Proof.
  apply (flexible_check_agrees_with_plain_check unit
           (Static.handle main_only_site) "token" 7 "README.md" Static.start).
  left. reflexivity.
Defined.

(** X10: [file_exists_flexible] never raises and issues between 1 and 20
    file lookups; when it answers false it has issued all of them: 20 for a
    path whose name without [.md] is flexible (the path, the bare name and
    the eight variants, on two branches each), and 2 otherwise. *)
Theorem flexible_check_lookup_count :
  forall (S : Type) (handle : S -> request -> S * response) (API_TOKEN : string)
         (project_id : Z) (file_path : string) (w : world S),
    let r := file_exists_flexible handle API_TOKEN project_id file_path w in
    let issued := length (requests (snd r)) - length (requests w) in
    exists b,
      fst r = Ret b /\
      length (requests w) <= length (requests (snd r)) /\
      1 <= issued <= 20 /\
      (b = false ->
       issued =
         if existsb (String.eqb (PyStr.replace ".md" "" file_path))
              FLEXIBLE_EXTENSION_FILES
         then 20 else 2).
Proof.
  intros S handle API_TOKEN project_id file_path w.
  apply file_exists_flexible_count.
Qed.

Lemma flexible_check_lookup_count_witness :
  let r := file_exists_flexible (Static.handle []) "token" 3 "CHANGELOG.md"
             Static.start in
  fst r = Ret false /\ length (requests (snd r)) - 0 = 20.
Proof.
  cbv zeta.
  destruct (flexible_check_lookup_count unit (Static.handle []) "token" 3
              "CHANGELOG.md" Static.start) as (b & Hret & _ & _ & Hfalse).
  assert (Hb : b = false).
  { assert (Hrun : fst (file_exists_flexible (Static.handle []) "token" 3
                          "CHANGELOG.md" Static.start) = Ret false)
      by (vm_compute; reflexivity).
    rewrite Hrun in Hret. injection Hret as <-. reflexivity. }
  subst b. split; [exact Hret | exact (Hfalse eq_refl)].
Defined.

Section Evaluator.

Context {S : Type}.
Variable handle : S -> request -> S * response.
Variable API_TOKEN : string.

Lemma check_files_count project_id files status (w : world S) :
  exists m w',
    check_files handle API_TOKEN project_id files status w = (Ret m, w') /\
    length (requests w) + length files <= length (requests w') <=
      length (requests w) + lookup_budget files.
Proof.
  revert status w. induction files as [| file files IH]; intros status w.
  - exists status, w. split; [reflexivity |]. cbn. lia.
  - cbn [check_files]. rewrite bind_run. unfold lookup_budget.
    cbn [fmap list_fmap sum_list length]. fold (lookup_budget files).
    destruct (existsb _ FLEXIBLE_EXTENSION_FILES).
    + destruct (file_exists_flexible_count handle API_TOKEN project_id file w)
        as (b & Hret & Hmono & Hrange & _).
      destruct (file_exists_flexible _ _ _ file w) as [o w1].
      cbn [fst snd] in *. subst o.
      destruct (IH (<[file:=b]> status) w1) as (m & w2 & -> & Hlen).
      exists m, w2. split; [reflexivity | unfold id; lia].
    + destruct (file_exists_count handle API_TOKEN project_id file w)
        as (b & w1 & -> & Hlen1 & _).
      destruct (IH (<[file:=b]> status) w1) as (m & w2 & -> & Hlen).
      exists m, w2. split; [reflexivity | unfold id; lia].
Qed.

Lemma directory_contains_templates_count project_id patterns (w : world S) :
  length (requests
            (snd (directory_contains_templates handle API_TOKEN project_id
                    patterns w))) =
  length (requests w) + 1.
Proof.
  unfold directory_contains_templates, bind, requests_get, lift, ret.
  destruct (handle (server w) _) as [s' res].
  assert (Hone : length (requests w ++
                   [mk_request (tree_url project_id) (get_headers API_TOKEN)
                      tree_params]) = length (requests w) + 1)
    by (rewrite length_app; reflexivity).
  destruct (negb _); [exact Hone |].
  destruct (Py.iter (body res)); [| exact Hone].
  destruct (blob_names _) as [names | e]; [| exact Hone].
  cbn [snd requests].
  set (w1 := mk_world s' _ _) in *.
  assert (Hhit : forall l (w0 : world S),
            requests (snd (first_hit (match_template_name patterns) l w0)) =
            requests w0).
  { clear. induction l as [| x l IH]; intros w0; [reflexivity |].
    cbn [first_hit]. rewrite bind_run.
    destruct x; try reflexivity. cbn [match_template_name]. unfold ret.
    destruct (match_template_patterns _ _); [reflexivity | apply IH]. }
  rewrite Hhit. exact Hone.
Qed.

Lemma metadata_phase_count (project_id : Z) (m : gmap string bool)
    (w : world S) :
  length (requests (snd
    (((let* res := requests_get handle
                    (API_URL +:+ "/projects/" +:+ pretty project_id)
                    (get_headers API_TOKEN) ∅ in
      if negb (status_code res =? 200)%Z then ret ∅
      else
        let project := body res in
        let* description := lift (Py.get project "description") in
        let status := <[ "description_present" := Py.truthy description ]> m in
        let* tag_list := lift (Py.get project "tag_list") in
        let* tags_present :=
          if Py.truthy tag_list then
            let* n := lift (Py.len tag_list) in ret (0 <? n)%Z
          else ret false in
        let status := <[ "tags_present" := tags_present ]> status in
        ret status) : M S (gmap string bool)) w))) =
  length (requests w) + 1.
Proof.
  unfold bind, requests_get, lift, ret.
  destruct (handle (server w) _) as [s' res].
  assert (Hone : forall q, length (requests w ++ [q]) = length (requests w) + 1)
    by (intros q; rewrite length_app; reflexivity).
  destruct (negb _); [apply Hone |].
  destruct (Py.get (body res) "description"); [| apply Hone].
  destruct (Py.get (body res) "tag_list") as [tag_list |]; [| apply Hone].
  destruct (Py.truthy tag_list); [| apply Hone].
  destruct (Py.len tag_list); apply Hone.
Qed.

(** The requests of one evaluation. *)
Lemma get_compliance_status_count project_id (w : world S) :
  let r := get_compliance_status handle API_TOKEN project_id w in
  length (requests w) + 5 <= length (requests (snd r)) <=
    length (requests w) + 29 /\
  (forall m, fst r = Ret m ->
             length (requests w) + 7 <= length (requests (snd r))).
Proof.
  cbv zeta. unfold get_compliance_status. rewrite bind_run.
  destruct (check_files_count project_id REQUIRED_FILES ∅ w)
    as (m0 & w1 & -> & Hfiles).
  change (lookup_budget REQUIRED_FILES) with 26 in Hfiles.
  change (length REQUIRED_FILES) with 4 in Hfiles.
  rewrite bind_run.
  pose proof (directory_contains_templates_count project_id
                ISSUE_TEMPLATE_PATTERNS w1) as Hissue.
  destruct (directory_contains_templates _ _ _ ISSUE_TEMPLATE_PATTERNS w1)
    as [[issue | e] w2]; cbn [snd] in Hissue.
  2: { cbn [fst snd]. split; [lia | discriminate]. }
  rewrite bind_run.
  pose proof (directory_contains_templates_count project_id
                MR_TEMPLATE_PATTERNS w2) as Hmr.
  destruct (directory_contains_templates _ _ _ MR_TEMPLATE_PATTERNS w2)
    as [[mr | e] w3]; cbn [snd] in Hmr.
  2: { cbn [fst snd]. split; [lia | discriminate]. }
  rewrite metadata_phase_count. split; [lia | intros _ _; lia].
Qed.

Lemma metadata_phase_ok project_id m0 (w : world S) :
  status_code (snd (handle (server w) (metadata_request API_TOKEN project_id)))
    = 200%Z ->
  metadata_phase handle API_TOKEN project_id m0 w <> Ret ∅.
Proof.
  intros Hok. unfold metadata_phase. rewrite Hok.
  change (negb (200 =? 200)%Z) with false. cbv iota.
  assert (Hne : forall a b,
            Ret (<["tags_present" := a]> (<["description_present" := b]> m0))
            <> Ret (∅ : gmap string bool)).
  { intros a b [= Hempty]. apply (f_equal (lookup "tags_present")) in Hempty.
    rewrite lookup_insert_eq, lookup_empty in Hempty. discriminate Hempty. }
  destruct (Py.get _ "description") as [description | e]; [| discriminate].
  destruct (Py.get _ "tag_list") as [tag_list | e]; [| discriminate].
  destruct (Py.truthy tag_list); [| apply Hne].
  destruct (Py.len tag_list) as [n | e]; [apply Hne | discriminate].
Qed.

End Evaluator.

Lemma blank_description_site_runs :
  exists m : gmap string bool,
    fst (get_compliance_status (Static.handle blank_description_site)
           "token" 14 Static.start) = Ret m /\
    m !! "tags_present" = Some true.
Proof.
  destruct (get_compliance_status_run_ok (Static.handle blank_description_site)
              "token" 14 Static.start) as (m0 & w' & _ & ->).
  - intros s. cbv zeta. intros _.
    exists (Static.blob <$> template_listing), template_listing.
    split; vm_compute; reflexivity.
  - unfold metadata_phase.
    change (snd (Static.handle blank_description_site (server w')
                   (metadata_request "token" 14)))
      with (Static.serve blank_description_site (metadata_request "token" 14)).
    assert (Hserve : Static.serve blank_description_site
                       (metadata_request "token" 14) =
                     mk_response 200
                       (JObj [("description", JStr " ");
                              ("tag_list", JArr [JStr "docs"])]))
      by (vm_compute; reflexivity).
    rewrite Hserve. eexists. split; [reflexivity |].
    apply lookup_insert_eq.
Defined.

(** X11: on a project record that is an object whose tag list, when there
    is one, is a list, [get_compliance_status] returns a status whose
    description flag is the truth value of the description (so a blank
    description counts as one) and whose tag flag says that the list has an
    item: the length test never changes the flag.  The tree listings are
    assumed well formed. *)
Theorem metadata_flags_follow_record :
  forall (S : Type) (handle : S -> request -> S * response) (API_TOKEN : string)
         (project_id : Z) (fields : list (string * json)),
    tree_listing_ok handle API_TOKEN project_id ->
    (forall s, snd (handle s (metadata_request API_TOKEN project_id)) =
               mk_response 200 (JObj fields)) ->
    tag_list_typed fields = true ->
    forall w : world S,
    exists m : gmap string bool,
      fst (get_compliance_status handle API_TOKEN project_id w) = Ret m /\
      m !! "description_present" =
        Some (Py.truthy (default JNull (Py.assoc "description" fields))) /\
      m !! "tags_present" = Some (nonempty_array (Py.assoc "tag_list" fields)) /\
      m !! "tags_present" =
        Some (Py.truthy (default JNull (Py.assoc "tag_list" fields))).
Proof.
  intros S handle API_TOKEN project_id fields Hok Hrecord Htyped w.
  destruct (get_compliance_status_run_ok handle API_TOKEN project_id w Hok)
    as (m0 & w' & _ & ->).
  unfold metadata_phase. rewrite Hrecord. cbn [status_code body Py.get].
  change (negb (200 =? 200)%Z) with false. cbv iota.
  unfold tag_list_typed in Htyped.
  destruct (Py.assoc "tag_list" fields) as [[| | | | [| item items] |] |];
    try discriminate Htyped; cbn [default Py.truthy Py.len nonempty_array];
    (eexists; split; [reflexivity |];
     rewrite lookup_insert_ne by discriminate;
     rewrite !lookup_insert_eq; repeat split; reflexivity).
Qed.

Lemma metadata_flags_follow_record_witness :
  exists m : gmap string bool,
    fst (get_compliance_status (Static.handle blank_description_site)
           "token" 14 Static.start) = Ret m /\
    m !! "description_present" = Some true /\
    m !! "tags_present" = Some true.
Proof.
  destruct (metadata_flags_follow_record unit
              (Static.handle blank_description_site) "token" 14
              [("description", JStr " "); ("tag_list", JArr [JStr "docs"])])
    with (w := Static.start) as (m & Hrun & Hdesc & Htags & _).
  - intros s. cbv zeta. intros _.
    exists (Static.blob <$> template_listing), template_listing.
    split; vm_compute; reflexivity.
  - intros s. vm_compute. reflexivity.
  - vm_compute. reflexivity.
  - exists m. split; [exact Hrun |]. split; [exact Hdesc | exact Htags].
Defined.

(** X12: a project record of another shape makes [get_compliance_status]
    raise after all the checks have run: [AttributeError] when the body of
    the 200 answer is not an object, [TypeError] when it is an object whose
    tag list is a number other than zero.  The tree listings are assumed
    well formed. *)
Theorem ill_shaped_record_raises :
  forall (S : Type) (handle : S -> request -> S * response) (API_TOKEN : string)
         (project_id : Z) (record : json),
    tree_listing_ok handle API_TOKEN project_id ->
    (forall s, snd (handle s (metadata_request API_TOKEN project_id)) =
               mk_response 200 record) ->
    forall w : world S,
      let r := fst (get_compliance_status handle API_TOKEN project_id w) in
      (is_object record = false -> r = Raise AttributeError) /\
      (forall fields n,
         record = JObj fields ->
         Py.assoc "tag_list" fields = Some (JNum n) -> n <> 0%Z ->
         r = Raise TypeError).
Proof.
  intros S handle API_TOKEN project_id record Hok Hrecord w r. subst r.
  destruct (get_compliance_status_run_ok handle API_TOKEN project_id w Hok)
    as (m0 & w' & _ & ->).
  unfold metadata_phase. rewrite Hrecord. cbn [status_code body].
  change (negb (200 =? 200)%Z) with false. cbv iota. split.
  - destruct record; try discriminate; reflexivity.
  - intros fields n -> Htags Hn. cbn [Py.get]. rewrite Htags.
    cbn [from_option id Py.truthy Py.len].
    destruct (Z.eqb_spec n 0) as [Heq | _]; [destruct (Hn Heq) | reflexivity].
Qed.

Lemma ill_shaped_record_raises_witness :
  fst (get_compliance_status (Static.handle list_record_site) "token" 13
         Static.start) = Raise AttributeError /\
  fst (get_compliance_status (Static.handle numeric_tags_site) "token" 12
         Static.start) = Raise TypeError.
Proof.
  split.
  - destruct (ill_shaped_record_raises unit (Static.handle list_record_site)
                "token" 13 (JArr [Static.project 13 "a / b"]))
      with (w := Static.start) as [Hshape _].
    + intros s. cbv zeta. intros _.
      exists (Static.blob <$> template_listing), template_listing.
      split; vm_compute; reflexivity.
    + intros s. vm_compute. reflexivity.
    + apply Hshape. reflexivity.
  - destruct (ill_shaped_record_raises unit (Static.handle numeric_tags_site)
                "token" 12
                (JObj [("description", JStr " "); ("tag_list", JNum 5)]))
      with (w := Static.start) as [_ Htags].
    + intros s. cbv zeta. intros _.
      exists (Static.blob <$> template_listing), template_listing.
      split; vm_compute; reflexivity.
    + intros s. vm_compute. reflexivity.
    + apply (Htags [("description", JStr " "); ("tag_list", JNum 5)] 5%Z);
        [reflexivity | reflexivity | discriminate].
Defined.

(** X13: one run of [get_compliance_status] sends between 5 and 29
    requests, and at least 7 when it returns a status: every required file
    costs a lookup, the change log up to twenty, each template scan one and
    the project record one; an exception of a template scan ends the run
    before the later requests. *)
Theorem evaluation_request_budget :
  forall (S : Type) (handle : S -> request -> S * response) (API_TOKEN : string)
         (project_id : Z) (w : world S),
    let r := get_compliance_status handle API_TOKEN project_id w in
    let issued := length (requests (snd r)) - length (requests w) in
    5 <= issued <= 29 /\
    (is_Some (match fst r with Ret m => Some m | Raise _ => None end) ->
     7 <= issued).
Proof.
  intros S handle API_TOKEN project_id w r issued. subst issued r.
  destruct (get_compliance_status_count handle API_TOKEN project_id w)
    as [Hrange Hret].
  split; [lia |].
  destruct (fst (get_compliance_status handle API_TOKEN project_id w))
    as [m | e] eqn:Hr.
  - intros _. specialize (Hret m eq_refl). lia.
  - intros [m Hm]. discriminate Hm.
Qed.

Lemma evaluation_request_budget_witness :
  let r := get_compliance_status (Static.handle blank_description_site)
             "token" 14 Static.start in
  5 <= length (requests (snd r)) - 0 <= 29 /\ 7 <= length (requests (snd r)) - 0.
Proof.
  destruct (evaluation_request_budget unit
              (Static.handle blank_description_site) "token" 14 Static.start)
    as [Hrange Hret].
  split; [exact Hrange |]. apply Hret.
  destruct (blank_description_site_runs) as (m & Hm & _).
  rewrite Hm. exists m. reflexivity.
Defined.

(** X14: when the fetch of the project's own record is a 200,
    [get_compliance_status] never returns the empty status: it raises or
    returns a status with the eight keys, so that the display has a total of
    8 to divide the score by; the empty status tells exactly that the record
    could not be fetched. *)
Theorem fetched_record_gives_status :
  forall (S : Type) (handle : S -> request -> S * response) (API_TOKEN : string)
         (project_id : Z),
    (forall s, status_code (snd (handle s (metadata_request API_TOKEN project_id)))
               = 200%Z) ->
    forall w : world S,
      let r := fst (get_compliance_status handle API_TOKEN project_id w) in
      (exists e, r = Raise e) \/
      (exists m, r = Ret m /\ dom m = list_to_set status_keys /\ total m = 8%Z).
Proof.
  intros S handle API_TOKEN project_id Hfetched w r. subst r.
  destruct (get_compliance_status_run handle API_TOKEN project_id w)
    as [[e ->] | (m0 & w' & Hdom0 & ->)]; [left; eauto |].
  pose proof (metadata_phase_ok handle API_TOKEN project_id m0 w'
                (Hfetched (server w'))) as Hne.
  destruct (metadata_phase handle API_TOKEN project_id m0 w') as [m | e] eqn:Hphase;
    [right | left; eauto].
  destruct (metadata_phase_keys _ _ _ _ _ _ Hdom0 Hphase) as [-> | Hdom];
    [destruct Hne; reflexivity |].
  exists m. split; [reflexivity |]. split; [exact Hdom |].
  unfold total.
  rewrite <- size_dom, Hdom, size_list_to_set by apply status_keys_NoDup.
  reflexivity.
Qed.

Lemma fetched_record_gives_status_witness :
  let r := fst (get_compliance_status (Static.handle numeric_tags_site) "token" 12
                  Static.start) in
  (exists e, r = Raise e) \/
  (exists m, r = Ret m /\ dom m = list_to_set status_keys /\ total m = 8%Z).
Proof.
  apply (fetched_record_gives_status unit (Static.handle numeric_tags_site)
           "token" 12).
  intros s. vm_compute. reflexivity.
Defined.

Section Summary.

Lemma length_filter_all {A : Type} (P : A -> Prop) `{!forall x, Decision (P x)}
    (l : list A) :
  length (filter P l) = length l <-> Forall P l.
Proof.
  split.
  - intros Hlen. apply Forall_forall. intros x Hx.
    destruct (decide (P x)) as [Hp | Hn]; [exact Hp |].
    pose proof (length_filter_lt P l x Hx Hn). lia.
  - induction 1 as [| x l Hx _ IH]; [reflexivity |].
    rewrite filter_cons, decide_True by exact Hx.
    cbn [length]. f_equal. exact IH.
Qed.

Lemma length_filter_none {A : Type} (P : A -> Prop) `{!forall x, Decision (P x)}
    (l : list A) :
  length (filter P l) = 0 <-> Forall (fun x => ~ P x) l.
Proof.
  split.
  - intros Hlen. apply Forall_forall. intros x Hx Hp.
    assert (Hin : x ∈ filter P l) by (apply list_elem_of_filter; split; assumption).
    destruct (filter P l); [inversion Hin | discriminate Hlen].
  - induction 1 as [| x l Hx _ IH]; [reflexivity |].
    rewrite filter_cons, decide_False by exact Hx. exact IH.
Qed.

(** Each key of a status belongs to one group of the display. *)
Lemma status_key_group (k : string) :
  k ∈ status_keys ->
  (is_file_item k = true /\ PyStr.contains ".gitlab/" k = false /\
   PyStr.contains "present" k = false) \/
  (is_file_item k = false /\ PyStr.contains ".gitlab/" k = true /\
   PyStr.contains "present" k = false) \/
  (is_file_item k = false /\ PyStr.contains ".gitlab/" k = false /\
   PyStr.contains "present" k = true).
Proof.
  unfold status_keys, REQUIRED_FILES. cbn [app]. rewrite !elem_of_cons.
  intros [-> | [-> | [-> | [-> | [-> | [-> | [-> | [-> | H]]]]]]]];
    [left | left | left | left | right; left | right; left
     | right; right | right; right | inversion H];
    vm_compute; repeat split; reflexivity.
Qed.

Lemma groups_partition (status : gmap string bool) :
  (forall k, is_Some (status !! k) -> k ∈ status_keys) ->
  file_items status ##ₘ template_items status /\
  file_items status ##ₘ metadata_items status /\
  template_items status ##ₘ metadata_items status /\
  file_items status ∪ template_items status ∪ metadata_items status = status.
Proof.
  intros Hkeys.
  assert (Hgroup : forall k b, status !! k = Some b ->
            (is_file_item k = true /\ PyStr.contains ".gitlab/" k = false /\
             PyStr.contains "present" k = false) \/
            (is_file_item k = false /\ PyStr.contains ".gitlab/" k = true /\
             PyStr.contains "present" k = false) \/
            (is_file_item k = false /\ PyStr.contains ".gitlab/" k = false /\
             PyStr.contains "present" k = true)).
  { intros k b Hk. apply status_key_group, Hkeys. exists b. exact Hk. }
  assert (Hft : file_items status ##ₘ template_items status).
  { apply map_disjoint_spec. intros k x y.
    unfold file_items, template_items. rewrite !map_lookup_filter_Some.
    cbn [fst]. intros [Hk Hf] [_ Ht].
    destruct (Hgroup k x Hk) as [(? & ? & ?) | [(? & ? & ?) | (? & ? & ?)]];
      congruence. }
  assert (Hfm : file_items status ##ₘ metadata_items status).
  { apply map_disjoint_spec. intros k x y.
    unfold file_items, metadata_items. rewrite !map_lookup_filter_Some.
    cbn [fst]. intros [Hk Hf] [_ Hm].
    destruct (Hgroup k x Hk) as [(? & ? & ?) | [(? & ? & ?) | (? & ? & ?)]];
      congruence. }
  assert (Htm : template_items status ##ₘ metadata_items status).
  { apply map_disjoint_spec. intros k x y.
    unfold template_items, metadata_items. rewrite !map_lookup_filter_Some.
    cbn [fst]. intros [Hk Ht] [_ Hm].
    destruct (Hgroup k x Hk) as [(? & ? & ?) | [(? & ? & ?) | (? & ? & ?)]];
      congruence. }
  split; [exact Hft |]. split; [exact Hfm |]. split; [exact Htm |].
  apply map_eq. intros k. apply option_eq. intros b.
  rewrite lookup_union_Some by (apply map_disjoint_union_l; split; assumption).
  rewrite lookup_union_Some by exact Hft.
  unfold file_items, template_items, metadata_items.
  rewrite !map_lookup_filter_Some. cbn [fst]. split.
  - intros [[[Hk _] | [Hk _]] | [Hk _]]; exact Hk.
  - intros Hk.
    destruct (Hgroup k b Hk) as [(? & ? & ?) | [(? & ? & ?) | (? & ? & ?)]];
      [left; left | left; right | right]; split; assumption.
Qed.

Context {S : Type}.
Variable handle : S -> request -> S * response.
Variable API_TOKEN : string.

Lemma returned_status_keys project_id (w : world S) status :
  fst (get_compliance_status handle API_TOKEN project_id w) = Ret status ->
  forall k, is_Some (status !! k) -> k ∈ status_keys.
Proof.
  intros Hret k Hk.
  destruct (get_compliance_status_run handle API_TOKEN project_id w)
    as [[e He] | (m0 & w' & Hdom0 & Hphase)]; [congruence |].
  rewrite Hphase in Hret.
  destruct (metadata_phase_keys _ _ _ _ _ _ Hdom0 Hret) as [-> | Hdom].
  - rewrite lookup_empty in Hk. destruct Hk as [b Hb]. discriminate Hb.
  - apply elem_of_dom in Hk. rewrite Hdom in Hk.
    apply elem_of_list_to_set in Hk. exact Hk.
Qed.

End Summary.

(** X15: the score of a status is the number of its checks that passed: it
    lies between 0 and the total, it is the total exactly when every check
    passed and 0 exactly when none did. *)
Theorem score_counts_passed_checks :
  forall status : gmap string bool,
    (0 <= score status <= total status)%Z /\
    (score status = total status <->
     forall k present, status !! k = Some present -> present = true) /\
    (score status = 0%Z <->
     forall k present, status !! k = Some present -> present = false).
Proof.
  intros status. unfold score, total. rewrite <- length_map_to_list.
  split; [| split].
  - pose proof (length_filter (fun kv : string * bool => kv.2 = true)
                  (map_to_list status)). lia.
  - rewrite Nat2Z.inj_iff, length_filter_all, Forall_forall. split.
    + intros Hall k present Hk.
      apply (Hall (k, present)), elem_of_map_to_list, Hk.
    + intros Hall [k present] Hk. apply (Hall k), elem_of_map_to_list, Hk.
  - change 0%Z with (Z.of_nat 0).
    rewrite Nat2Z.inj_iff, length_filter_none, Forall_forall. split.
    + intros Hall k present Hk.
      apply elem_of_map_to_list in Hk. apply Hall in Hk. cbn [snd] in Hk.
      destruct present; [destruct Hk; reflexivity | reflexivity].
    + intros Hall [k present] Hk. cbn [snd].
      apply elem_of_map_to_list in Hk. rewrite (Hall k present Hk). discriminate.
Qed.

(** X16: the detailed display shows every check of a status that
    [get_compliance_status] returned in exactly one of its three groups:
    the groups are pairwise disjoint, together they are the status, and
    their sizes add up to the total. *)
Theorem every_check_in_one_group :
  forall (S : Type) (handle : S -> request -> S * response) (API_TOKEN : string)
         (project_id : Z) (w : world S) (status : gmap string bool),
    fst (get_compliance_status handle API_TOKEN project_id w) = Ret status ->
    file_items status ##ₘ template_items status /\
    file_items status ##ₘ metadata_items status /\
    template_items status ##ₘ metadata_items status /\
    file_items status ∪ template_items status ∪ metadata_items status = status /\
    (total (file_items status) + total (template_items status)
     + total (metadata_items status) = total status)%Z.
Proof.
  intros S handle API_TOKEN project_id w status Hret.
  destruct (groups_partition status
              (returned_status_keys handle API_TOKEN project_id w status Hret))
    as (Hft & Hfm & Htm & Hall).
  repeat (split; [assumption |]).
  unfold total. rewrite <- Hall at 4.
  rewrite !map_size_disj_union;
    [lia | exact Hft | apply map_disjoint_union_l; split; assumption].
Qed.

Lemma every_check_in_one_group_witness :
  exists status : gmap string bool,
    fst (get_compliance_status (Static.handle blank_description_site) "token" 14
           Static.start) = Ret status /\
    file_items status ∪ template_items status ∪ metadata_items status = status /\
    (total (file_items status) + total (template_items status)
     + total (metadata_items status) = total status)%Z.
Proof.
  destruct blank_description_site_runs as (status & Hrun & _).
  exists status. split; [exact Hrun |].
  destruct (every_check_in_one_group unit (Static.handle blank_description_site)
              "token" 14 Static.start status Hrun) as (_ & _ & _ & Hall & Htotal).
  split; [exact Hall | exact Htotal].
Defined.

Section Profile.

Context {S : Type}.
Variable handle : S -> request -> S * response.
Variable API_TOKEN : string.
Variable repr_container : json -> string.

Lemma requests_get_run u h p (w : world S) :
  requests_get handle u h p w =
  (Ret (snd (handle (server w) (mk_request u h p))),
   answered handle w (mk_request u h p)).
Proof.
  unfold requests_get, answered. destruct (handle _ _) as [s' res]. reflexivity.
Qed.

Lemma readme_probe_run project branch (w : world S) :
  file_exists_with_branch_of handle API_TOKEN project "README.md" branch w =
  (Ret (status_code (snd (handle (server w) (readme_probe API_TOKEN project branch)))
        =? 200)%Z,
   answered handle w (readme_probe API_TOKEN project branch)).
Proof.
  unfold file_exists_with_branch_of. rewrite bind_run, requests_get_run.
  reflexivity.
Qed.

Lemma length_answered (w : world S) q :
  length (requests (answered handle w q)) = length (requests w) + 1.
Proof. unfold answered. cbn [requests]. rewrite length_app. reflexivity. Qed.

(** The README check of the profile: [master], then [main]. *)
Lemma readme_exists_run project (w : world S) :
  exists b w',
    file_exists_of handle API_TOKEN project "README.md" w = (Ret b, w') /\
    length (requests w) + 1 <= length (requests w') <= length (requests w) + 2.
Proof.
  unfold file_exists_of. cbn [first_hit].
  rewrite bind_run, readme_probe_run.
  destruct (status_code _ =? 200)%Z.
  - eexists _, _. split; [reflexivity |]. rewrite length_answered. lia.
  - rewrite bind_run, readme_probe_run.
    destruct (status_code _ =? 200)%Z;
      (eexists _, _; split; [reflexivity |]; rewrite !length_answered; lia).
Qed.

Lemma has_profile_readme_shape username (w : world S) :
  let r := has_profile_readme handle API_TOKEN repr_container username w in
  length (requests w) + 1 <= length (requests (snd r)) <= length (requests w) + 5 /\
  (forall b link, fst r = Ret (b, Some link) ->
     b = true /\
     (link = readme_link username "main" \/ link = readme_link username "master")) /\
  (forall e, fst r = Raise e ->
     e = AttributeError /\ length (requests (snd r)) = length (requests w) + 1).
Proof.
  cbv zeta. unfold has_profile_readme.
  rewrite bind_run, requests_get_run.
  pose proof (length_answered w (mk_request (profile_url username)
                                   (get_headers API_TOKEN) ∅)) as Hfirst.
  set (w1 := answered handle w _) in *.
  destruct (negb _).
  { unfold ret. cbn [fst snd]. split; [lia |]. split; [| discriminate].
    intros b link [= _ Hlink]. }
  rewrite bind_run. unfold lift.
  destruct (Py.get _ "id") as [project_id | e] eqn:Hid; cbv beta iota.
  2: { cbn [fst snd]. split; [lia |]. split; [discriminate |].
       intros e' [= <-]. split; [| exact Hfirst].
       unfold Py.get in Hid. destruct (body _); congruence. }
  rewrite bind_run.
  destruct (readme_exists_run (format_value repr_container project_id) w1)
    as (b & w2 & -> & Hlen2).
  destruct b.
  2: { unfold ret. cbn [fst snd]. split; [lia |]. split; discriminate. }
  rewrite bind_run, readme_probe_run.
  pose proof (length_answered w2 (readme_probe API_TOKEN
                (format_value repr_container project_id) "main")) as Hlen3.
  set (w3 := answered handle w2 _) in *.
  destruct (status_code _ =? 200)%Z.
  { unfold ret. cbn [fst snd]. split; [lia |]. split; [| discriminate].
    intros b link [= <- <-]. split; [reflexivity | left; reflexivity]. }
  rewrite bind_run, readme_probe_run.
  pose proof (length_answered w3 (readme_probe API_TOKEN
                (format_value repr_container project_id) "master")) as Hlen4.
  set (w4 := answered handle w3 _) in *.
  destruct (status_code _ =? 200)%Z; unfold ret; cbn [fst snd];
    (split; [lia |]; split; [| discriminate]).
  - intros b link [= <- <-]. split; [reflexivity | right; reflexivity].
  - intros b link [= _ Hlink].
Qed.

End Profile.

(** X17: [has_profile_readme] sends between 1 and 5 requests.  When the
    lookup of the profile project is not a 200 it answers that there is no
    README, with no link, after this one request.  A link is only ever
    returned together with a positive answer, and it is the link of the
    README on [main] or on [master].  The only exception it can raise is the
    [AttributeError] of a 200 answer that is not an object, after one
    request. *)
Theorem profile_readme_outcomes :
  forall (S : Type) (handle : S -> request -> S * response) (API_TOKEN : string)
         (repr_container : json -> string) (username : string) (w : world S),
    let r := has_profile_readme handle API_TOKEN repr_container username w in
    let q := profile_request API_TOKEN username in
    let issued := length (requests (snd r)) - length (requests w) in
    1 <= issued <= 5 /\
    ((status_code (snd (handle (server w) q)) =? 200)%Z = false ->
     r = (Ret (false, None), answered handle w q)) /\
    (forall b link, fst r = Ret (b, Some link) ->
       b = true /\
       (link = readme_link username "main" \/
        link = readme_link username "master")) /\
    (forall e, fst r = Raise e -> e = AttributeError /\ issued = 1).
Proof.
  intros S handle API_TOKEN repr_container username w r q issued.
  destruct (has_profile_readme_shape handle API_TOKEN repr_container username w)
    as (Hlen & Hlink & Hraise).
  fold r in Hlen, Hlink, Hraise.
  split; [subst issued; lia |]. split; [| split; [exact Hlink |]].
  - intros Hfail. subst r q. unfold profile_request in *.
    unfold has_profile_readme.
    rewrite bind_run, requests_get_run, Hfail. reflexivity.
  - intros e He. destruct (Hraise e He) as [-> Hone].
    split; [reflexivity | subst issued; lia].
Qed.

Lemma profile_readme_outcomes_witness :
  has_profile_readme (Static.handle profile_site) "token" repr_brackets "bob"
    Static.start =
  (Ret (false, None), answered (Static.handle profile_site) Static.start
                        (profile_request "token" "bob")).
Proof.
  destruct (profile_readme_outcomes unit (Static.handle profile_site) "token"
              repr_brackets "bob" Static.start) as (_ & Hfail & _).
  apply Hfail. vm_compute. reflexivity.
Defined.

(** X18: on a server whose answers depend on the request only and whose
    profile lookup is a 200 with an object, [has_profile_readme] answers
    that the README exists exactly when it is on [master] or on [main], and
    then always gives a link: the one on [main] when the file is there, also
    when it is on [master] too, and the one on [master] otherwise.  The
    lookups use the text of the record's [id]. *)
Theorem profile_readme_link_prefers_main :
  forall (S : Type) (handle : S -> request -> S * response) (API_TOKEN : string)
         (repr_container : json -> string) (respond : request -> response)
         (username : string) (fields : list (string * json)) (w : world S),
    stable handle respond ->
    respond (profile_request API_TOKEN username) = mk_response 200 (JObj fields) ->
    let project :=
      format_value repr_container (default JNull (Py.assoc "id" fields)) in
    let found branch :=
      (status_code (respond (readme_probe API_TOKEN project branch)) =? 200)%Z in
    fst (has_profile_readme handle API_TOKEN repr_container username w) =
    Ret (found "master" || found "main",
         if found "main" then Some (readme_link username "main")
         else if found "master" then Some (readme_link username "master")
         else None).
Proof.
  intros S handle API_TOKEN repr_container respond username fields w
    Hstable Hprofile project found.
  unfold has_profile_readme.
  rewrite bind_run, requests_get_run.
  fold (profile_request API_TOKEN username).
  rewrite !(Hstable (server w)), Hprofile. cbn [status_code body Py.get].
  change (negb (200 =? 200)%Z) with false. cbv iota.
  rewrite bind_run. unfold lift at 1. rewrite bind_run. fold project.
  unfold file_exists_of. cbn [first_hit].
  set (w1 := answered handle w _).
  rewrite bind_run, readme_probe_run, (Hstable (server w1)).
  fold (found "master").
  set (w2 := answered handle w1 _).
  assert (Hlink : forall w0 : world S,
            fst ((let* on_main := file_exists_with_branch_of handle API_TOKEN
                                    project "README.md" "main" in
                  if on_main then ret (true, Some (readme_link username "main"))
                  else
                    let* on_master := file_exists_with_branch_of handle API_TOKEN
                                        project "README.md" "master" in
                    if on_master
                    then ret (true, Some (readme_link username "master"))
                    else ret (true, None)) w0) =
            Ret (true,
                 if found "main" then Some (readme_link username "main")
                 else if found "master" then Some (readme_link username "master")
                 else None)).
  { intros w0. rewrite bind_run, readme_probe_run, (Hstable (server w0)).
    fold (found "main"). destruct (found "main"); [reflexivity |].
    set (w0' := answered handle w0 _).
    rewrite bind_run, readme_probe_run, (Hstable (server w0')).
    fold (found "master"). destruct (found "master"); reflexivity. }
  destruct (found "master") eqn:Hmaster.
  - unfold ret at 1. cbv iota. rewrite Hlink. reflexivity.
  - rewrite bind_run, readme_probe_run, (Hstable (server w2)).
    fold (found "main").
    destruct (found "main") eqn:Hmain; unfold ret at 1; cbv iota.
    + rewrite Hlink. rewrite ?Hmain. reflexivity.
    + reflexivity.
Qed.

Lemma profile_readme_link_prefers_main_witness :
  fst (has_profile_readme (Static.handle profile_site) "token" repr_brackets
         "alice" Static.start) =
  Ret (true, Some "https://code.swecha.org/alice/alice/-/blob/main/README.md").
Proof.
  apply (profile_readme_link_prefers_main unit (Static.handle profile_site)
           "token" repr_brackets (Static.serve profile_site) "alice"
           [("id", JNum 77); ("path", JStr "alice")] Static.start).
  - intros s q. reflexivity.
  - vm_compute. reflexivity.
Defined.

Section Links.

Import PyStr.

Lemma first_segment_unmarked p :
  contains "/-/" p = false -> first_segment "/-/" p = p.
Proof.
  induction p as [| c p IH]; [reflexivity |].
  cbn [contains]. intros Hno. apply orb_false_iff in Hno as [Hhere Hno].
  rewrite first_segment_cons, Hhere, (IH Hno). reflexivity.
Qed.

(** The two hexadecimal digits of an escape tell the character. *)
Lemma hex_digits_inj c d :
  hex_digit (code c / 16) = hex_digit (code d / 16) ->
  hex_digit (code c mod 16) = hex_digit (code d mod 16) ->
  c = d.
Proof.
  pose (value := fun a : ascii =>
                   if (code a <? 58)%N then (code a - 48)%N else (code a - 55)%N).
  pose (decode := fun hi lo : ascii => ascii_of_N (value hi * 16 + value lo)).
  assert (Hdecode : forall a,
            decode (hex_digit (code a / 16)) (hex_digit (code a mod 16)) = a).
  { intros a. destruct a as [[] [] [] [] [] [] [] []]; vm_compute; reflexivity. }
  intros Hhi Hlo. rewrite <- (Hdecode c), <- (Hdecode d), Hhi, Hlo. reflexivity.
Qed.

Lemma hex_digits_unreserved c :
  unreserved (hex_digit (code c / 16)) = true /\
  unreserved (hex_digit (code c mod 16)) = true.
Proof. destruct c as [[] [] [] [] [] [] [] []]; vm_compute; split; reflexivity. Qed.

Lemma quote_inj s t : quote s = quote t -> s = t.
Proof.
  revert t. induction s as [| c s IH]; intros [| d t]; cbn [quote].
  - reflexivity.
  - destruct (unreserved d); discriminate.
  - destruct (unreserved c); discriminate.
  - destruct (unreserved c) eqn:Hc, (unreserved d) eqn:Hd.
    + intros [= -> Hrest]. f_equal. apply IH, Hrest.
    + intros [= -> _]. discriminate Hc.
    + intros [= <- _]. discriminate Hd.
    + intros [= Hhi Hlo Hrest].
      rewrite (hex_digits_inj c d Hhi Hlo). f_equal. apply IH, Hrest.
Qed.

Lemma quote_alphabet s :
  all_chars (fun c => unreserved c || Ascii.eqb c "%") (quote s) = true.
Proof.
  induction s as [| c s IH]; [reflexivity |]. cbn [quote].
  destruct (unreserved c) eqn:Hc; cbn [all_chars].
  - rewrite Hc, IH. reflexivity.
  - destruct (hex_digits_unreserved c) as [-> ->]. rewrite IH. reflexivity.
Qed.

Lemma no_slash s :
  all_chars (fun c => unreserved c || Ascii.eqb c "%") s = true ->
  contains "/" s = false.
Proof.
  induction s as [| c s IH]; [reflexivity |]. cbn [all_chars contains].
  intros Hall. apply andb_true_iff in Hall as [Hc Hs].
  rewrite (IH Hs), orb_false_r. cbn [String.prefix].
  destruct (ascii_dec "/" c) as [<- |]; [discriminate Hc | reflexivity].
Qed.

Lemma quote_unreserved s : all_chars unreserved s = true -> quote s = s.
Proof.
  induction s as [| c s IH]; [reflexivity |]. cbn [all_chars quote].
  intros Hall. apply andb_true_iff in Hall as [-> Hs]. rewrite (IH Hs).
  reflexivity.
Qed.

Lemma quote_length s : String.length s <= String.length (quote s).
Proof.
  induction s as [| c s IH]; [reflexivity |]. cbn [quote].
  destruct (unreserved c); cbn [String.length]; lia.
Qed.

End Links.

(** X19: [get_project_url] returns what the record stores as [web_url]
    whenever it has this key, also when the value is null, and raises on a
    record that is not an object.  When the record has no [web_url], the
    URL it builds from the project path [p] leads back to the project: the
    classifier resolves it by the lookup of [p].  With neither key the URL
    is the base URL and a slash. *)
Theorem project_url_leads_back :
  forall (S : Type) (handle : S -> request -> S * response) (API_TOKEN : string)
         (repr_container : json -> string) (project_data : json) (w : world S),
    let r := get_project_url repr_container project_data in
    (is_object project_data = false -> r = Raise AttributeError) /\
    (forall fields v,
       project_data = JObj fields -> Py.assoc "web_url" fields = Some v ->
       r = Ret v) /\
    (forall fields,
       project_data = JObj fields -> Py.assoc "web_url" fields = None ->
       Py.assoc "path_with_namespace" fields = None ->
       r = Ret (JStr (GITLAB_URL +:+ "/"))) /\
    (forall fields p,
       project_data = JObj fields -> Py.assoc "web_url" fields = None ->
       Py.assoc "path_with_namespace" fields = Some (JStr p) ->
       project_path p -> PyStr.contains "/-/" p = false ->
       let q := path_lookup API_TOKEN p in
       let res := snd (handle (server w) q) in
       exists url,
         r = Ret (JStr url) /\
         determine_input_type_and_process handle API_TOKEN url w =
         (Ret (if (status_code res =? 200)%Z && Py.truthy (body res)
               then Project (body res)
               else Error "Could not fetch project from the provided URL"),
          answered handle w q)).
Proof.
  intros S handle API_TOKEN repr_container project_data w r. subst r.
  split; [| split; [| split]].
  - destruct project_data; try discriminate; reflexivity.
  - intros fields v -> Hweb. cbn [get_project_url]. rewrite Hweb. reflexivity.
  - intros fields -> Hweb Hpath. cbn [get_project_url].
    rewrite Hweb, Hpath. reflexivity.
  - intros fields p -> Hweb Hpath Hp Hplain q res.
    exists (GITLAB_URL +:+ "/" +:+ p). split.
    + cbn [get_project_url]. rewrite Hweb, Hpath. reflexivity.
    + subst q res.
      rewrite (determine_url_run _ _ _ ("/" +:+ p)) by (apply strip_url, Hp).
      rewrite url_path_plain by exact Hp.
      rewrite first_segment_unmarked by exact Hplain. reflexivity.
Qed.

Lemma project_url_leads_back_witness :
  exists url,
    get_project_url repr_brackets
      (JObj [("id", JNum 42); ("path_with_namespace", JStr "group/proj")]) =
      Ret (JStr url) /\
    fst (determine_input_type_and_process (Static.handle namespaced_site) "token"
           url Static.start) =
      Ret (Project (Static.project 42 "Group / Proj")).
Proof.
  destruct (project_url_leads_back unit (Static.handle namespaced_site) "token"
              repr_brackets
              (JObj [("id", JNum 42); ("path_with_namespace", JStr "group/proj")])
              Static.start) as (_ & _ & _ & Hback).
  destruct (Hback [("id", JNum 42); ("path_with_namespace", JStr "group/proj")]
              "group/proj") as (url & Hurl & Hrun).
  - reflexivity.
  - reflexivity.
  - reflexivity.
  - repeat split; vm_compute; reflexivity.
  - vm_compute. reflexivity.
  - exists url. split; [exact Hurl |]. rewrite Hrun. vm_compute. reflexivity.
Defined.

(** X20: the URL encoding of the lookups loses nothing and stays inside one
    URL segment: two paths have the same encoding only when they are the
    same path, so that two files of a project are never looked up at the
    same URL; an encoding holds only letters, digits, [_], [.], [-], [~]
    and the escapes' percent sign, hence no slash; and a path of unreserved
    characters is its own encoding. *)
Theorem quote_keeps_paths_apart :
  forall (project_id : Z) (s t : string),
    (PyStr.quote s = PyStr.quote t <-> s = t) /\
    (file_url project_id s = file_url project_id t <-> s = t) /\
    PyStr.all_chars (fun c => PyStr.unreserved c || Ascii.eqb c "%")
      (PyStr.quote s) = true /\
    PyStr.contains "/" (PyStr.quote s) = false /\
    (PyStr.all_chars PyStr.unreserved s = true <-> PyStr.quote s = s).
Proof.
  intros project_id s t.
  assert (Hquote : PyStr.quote s = PyStr.quote t <-> s = t)
    by (split; [apply quote_inj | intros ->; reflexivity]).
  split; [exact Hquote |]. split; [| split; [| split]].
  - split; [| intros ->; reflexivity].
    unfold file_url. intros Hurl. apply quote_inj.
    repeat apply (inj (String.app _)) in Hurl. exact Hurl.
  - apply quote_alphabet.
  - apply no_slash, quote_alphabet.
  - split; [apply quote_unreserved |]. intros Hfix.
    induction s as [| c s IH]; [reflexivity |].
    cbn [PyStr.quote PyStr.all_chars] in *.
    destruct (PyStr.unreserved c) eqn:Hc.
    + injection Hfix as Hfix. cbn [andb]. apply IH; [| exact Hfix].
      split; [apply quote_inj | intros ->; reflexivity].
    + injection Hfix as _ Hrest.
      apply (f_equal String.length) in Hrest. cbn [String.length] in Hrest.
      pose proof (quote_length s). lia.
Qed.

Section Patterns.

Import PyStr.

Lemma star_zero a k s : k s = true -> Re.star a k s = true.
Proof. destruct s; cbn [Re.star]; intros ->; reflexivity. Qed.

Lemma star_more a k c s :
  Re.accepts a c = true -> Re.star a k s = true -> Re.star a k (String c s) = true.
Proof. intros Ha Hs. cbn [Re.star]. rewrite Ha, Hs. apply orb_true_r. Qed.

Lemma star_mono a (k k' : string -> bool) s :
  (forall t, k t = true -> k' t = true) ->
  Re.star a k s = true -> Re.star a k' s = true.
Proof.
  intros Hk. induction s as [| c s IH]; cbn [Re.star]; intros H;
    apply orb_true_iff in H as [H | H].
  - rewrite (Hk _ H). reflexivity.
  - discriminate H.
  - rewrite (Hk _ H). reflexivity.
  - apply andb_true_iff in H as [-> H]. rewrite (IH H). apply orb_true_r.
Qed.

Lemma sub_refl re : subsumed re re.
Proof. intros s H. exact H. Qed.

Lemma sub_one a re re' :
  subsumed re re' -> subsumed (Re.One a :: re) (Re.One a :: re').
Proof.
  intros Hsub [| c s]; cbn [Re.match_here]; [discriminate |].
  intros H. apply andb_true_iff in H as [-> H]. apply Hsub, H.
Qed.

Lemma sub_star a re re' :
  subsumed re re' -> subsumed (Re.Star a :: re) (Re.Star a :: re').
Proof. intros Hsub s. cbn [Re.match_here]. apply star_mono, Hsub. Qed.

(** A star may match nothing. *)
Lemma sub_zero a re re' : subsumed re re' -> subsumed re (Re.Star a :: re').
Proof. intros Hsub s H. cbn [Re.match_here]. apply star_zero, Hsub, H. Qed.

(** A star takes in a character put in front of it. *)
Lemma sub_absorb p a re :
  (forall c, Re.accepts (Re.Lit p) c = true -> Re.accepts a c = true) ->
  subsumed (Re.One (Re.Lit p) :: Re.Star a :: re) (Re.Star a :: re).
Proof.
  intros Hacc [| c s]; cbn [Re.match_here]; [discriminate |].
  intros H. apply andb_true_iff in H as [Hc H]. apply star_more; auto.
Qed.

Lemma letter_is_no_newline p :
  Ascii.eqb (lower_char p) "010" = false ->
  forall c, Re.accepts (Re.Lit p) c = true -> Re.accepts Re.AnyChar c = true.
Proof.
  cbn [Re.accepts]. intros Hp c Hc.
  destruct (Ascii.eqb_spec c "010") as [-> | _]; [| reflexivity].
  apply Ascii.eqb_eq in Hc. rewrite <- Hc in Hp. discriminate Hp.
Qed.

Lemma star_any_spec k s :
  Re.star Re.AnyChar k s = true <->
  exists x rest, s = x +:+ rest /\ no_newline x = true /\ k rest = true.
Proof.
  split.
  - induction s as [| c s IH]; cbn [Re.star].
    + rewrite orb_false_r. intros Hk. exists "", "". auto.
    + intros H. apply orb_true_iff in H as [Hk | H].
      * exists "", (String c s). auto.
      * apply andb_true_iff in H as [Hc Hs].
        destruct (IH Hs) as (x & rest & -> & Hx & Hk).
        exists (String c x), rest. split; [reflexivity |].
        split; [| exact Hk]. unfold no_newline in *. cbn [all_chars].
        cbn [Re.accepts] in Hc. rewrite Hc. exact Hx.
  - intros (x & rest & -> & Hx & Hk).
    induction x as [| c x IH]; [apply star_zero, Hk |].
    unfold no_newline in Hx. cbn [all_chars] in Hx.
    apply andb_true_iff in Hx as [Hc Hx].
    rewrite string_app_cons. apply star_more; [exact Hc | apply IH, Hx].
Qed.

Lemma lowered_app a b : lowered (a +:+ b) = lowered a && lowered b.
Proof.
  unfold lowered. induction a as [| c a IH]; [reflexivity |].
  rewrite string_app_cons. cbn [all_chars]. rewrite IH. apply andb_assoc.
Qed.

Lemma lowered_lower s : lowered (lower s) = true.
Proof.
  unfold lowered. induction s as [| c s IH]; [reflexivity |].
  cbn [lower map_chars all_chars]. rewrite lower_char_idem, Ascii.eqb_refl.
  exact IH.
Qed.

(** A literal word matches itself only, on a lowered string. *)
Lemma match_word w re s :
  lowered w = true -> lowered s = true ->
  Re.match_here (word w ++ re) s = true <->
  exists rest, s = w +:+ rest /\ Re.match_here re rest = true.
Proof.
  revert s. induction w as [| c w IH]; intros s Hw Hs.
  - cbn [word app]. split; [intros H; exists s; auto |].
    intros (rest & -> & H). exact H.
  - unfold lowered in Hw. cbn [all_chars] in Hw.
    apply andb_true_iff in Hw as [Hc Hw]. apply Ascii.eqb_eq in Hc.
    cbn [word app Re.match_here]. split.
    + destruct s as [| d s]; [discriminate |]. intros H.
      apply andb_true_iff in H as [Hd H].
      unfold lowered in Hs. cbn [all_chars] in Hs.
      apply andb_true_iff in Hs as [Hd' Hs]. apply Ascii.eqb_eq in Hd'.
      cbn [Re.accepts] in Hd. apply Ascii.eqb_eq in Hd.
      rewrite Hd', Hc in Hd. subst d.
      apply (IH s Hw Hs) in H as (rest & -> & H).
      exists rest. split; [reflexivity | exact H].
    + intros (rest & -> & H). rewrite string_app_cons in Hs |- *.
      unfold lowered in Hs. cbn [all_chars] in Hs.
      apply andb_true_iff in Hs as [_ Hs].
      cbn [Re.accepts]. rewrite Ascii.eqb_refl. cbn [andb].
      apply (IH _ Hw Hs). exists rest. auto.
Qed.

Lemma at_end_cases s : Re.at_end s = true -> s = "" \/ s = String "010" "".
Proof.
  destruct s as [| c [| d s]]; cbn [Re.at_end]; intros H;
    [left; reflexivity | right | discriminate H].
  apply Ascii.eqb_eq in H. subst c. reflexivity.
Qed.

Lemma eqb_length a b : String.eqb a b = true -> String.length a = String.length b.
Proof. intros H. apply String.eqb_eq in H. subst b. reflexivity. Qed.

Lemma string_length_app a b :
  String.length (a +:+ b) = String.length a + String.length b.
Proof.
  induction a as [| c a IH]; [reflexivity |].
  rewrite string_app_cons. cbn [String.length]. rewrite IH. reflexivity.
Qed.

(** A suffix is looked for in the last characters only. *)
Lemma endswith_app a b suffix :
  String.length suffix <= String.length b ->
  endswith (a +:+ b) suffix = endswith b suffix.
Proof.
  intros Hlen. induction a as [| c a IH]; [reflexivity |].
  rewrite string_app_cons. cbn [endswith]. rewrite IH.
  destruct (String.eqb (String c (a +:+ b)) suffix) eqn:Heq; [| reflexivity].
  apply eqb_length in Heq. cbn [String.length] in Heq.
  rewrite string_length_app in Heq. lia.
Qed.

Lemma issue_pattern_compiled :
  Re.compile "issue.*template.*\.md$" =
  Some (word "issue" ++ Re.Star Re.AnyChar :: word "template"
        ++ Re.Star Re.AnyChar :: word ".md" ++ [Re.Eos]).
Proof. reflexivity. Qed.

Lemma mr_patterns_compiled :
  Re.compile "merge.*request.*template.*\.md$" =
    Some (word "merge" ++ Re.Star Re.AnyChar :: word "request"
          ++ Re.Star Re.AnyChar :: word "template"
          ++ Re.Star Re.AnyChar :: word ".md" ++ [Re.Eos]) /\
  Re.compile "mr.*template.*\.md$" =
    Some (word "mr" ++ Re.Star Re.AnyChar :: word "template"
          ++ Re.Star Re.AnyChar :: word ".md" ++ [Re.Eos]).
Proof. split; reflexivity. Qed.

(** The end of every pattern of the script, on a name that ends in [.md]. *)
Lemma match_extension s :
  lowered s = true ->
  Re.match_here (word ".md" ++ [Re.Eos]) s = true ->
  s = ".md" \/ s = ".md" +:+ String "010" "".
Proof.
  intros Hs H. apply (match_word ".md" [Re.Eos] s eq_refl Hs) in H
    as (rest & -> & H).
  cbn [Re.match_here] in H. rewrite andb_true_r in H.
  destruct (at_end_cases _ H) as [-> | ->]; [left | right]; reflexivity.
Qed.

End Patterns.

(** Reads the compiled form of the patterns of the goal, and settles a
    goal that one of them matches no more than another. *)
Ltac compile_patterns :=
  unfold Re.match_ignorecase;
  repeat match goal with
    | |- context [Re.compile ?p] =>
        let re := eval vm_compute in (Re.compile p) in
        change (Re.compile p) with re
    end;
  cbv beta iota.

Ltac settle_subsumed :=
  match goal with
  | |- Re.match_here ?re ?s = true -> Re.match_here ?re' ?s = true =>
      refine ((_ : subsumed re re') s)
  end;
  repeat first
    [ apply sub_refl
    | apply sub_one
    | apply sub_star
    | apply sub_absorb; apply letter_is_no_newline; reflexivity
    | apply sub_zero ].

(** On every string, the patterns after the first, and after the first and
    the third, match nothing more. *)
Lemma template_patterns_reduced (s : string) :
  existsb (fun pattern => Re.match_ignorecase pattern s) ISSUE_TEMPLATE_PATTERNS =
    Re.match_ignorecase "issue.*template.*\.md$" s /\
  existsb (fun pattern => Re.match_ignorecase pattern s) MR_TEMPLATE_PATTERNS =
    Re.match_ignorecase "merge.*request.*template.*\.md$" s
    || Re.match_ignorecase "mr.*template.*\.md$" s.
Proof.
  unfold ISSUE_TEMPLATE_PATTERNS, MR_TEMPLATE_PATTERNS. cbn [existsb].
  compile_patterns.
  split.
  - rewrite !orb_false_r.
    match goal with
    | |- ?m1 || (?m2 || (?m3 || ?m4)) = _ =>
        assert (H2 : m2 = true -> m1 = true) by settle_subsumed;
        assert (H3 : m3 = true -> m1 = true) by settle_subsumed;
        assert (H4 : m4 = true -> m1 = true) by settle_subsumed;
        destruct m1, m2, m3, m4; cbn [orb]; try reflexivity;
        first [ discriminate (H2 eq_refl) | discriminate (H3 eq_refl)
              | discriminate (H4 eq_refl) ]
    end.
  - rewrite !orb_false_r.
    match goal with
    | |- ?m1 || (?m2 || (?m3 || (?m4 || (?m5 || ?m6)))) = _ =>
        assert (H2 : m2 = true -> m1 = true) by settle_subsumed;
        assert (H4 : m4 = true -> m3 = true) by settle_subsumed;
        assert (H5 : m5 = true -> m1 = true) by settle_subsumed;
        assert (H6 : m6 = true -> m1 = true) by settle_subsumed;
        destruct m1, m2, m3, m4, m5, m6; cbn [orb]; try reflexivity;
        first [ discriminate (H2 eq_refl) | discriminate (H4 eq_refl)
              | discriminate (H5 eq_refl) | discriminate (H6 eq_refl) ]
    end.
Qed.

Section Names.

Import PyStr.

Lemma match_star a re s :
  Re.match_here (Re.Star a :: re) s = Re.star a (Re.match_here re) s.
Proof. reflexivity. Qed.

Lemma match_word_intro w re rest :
  Re.match_here re rest = true -> Re.match_here (word w ++ re) (w +:+ rest) = true.
Proof.
  intros H. induction w as [| c w IH]; [exact H |].
  rewrite string_app_cons. cbn [word app Re.match_here Re.accepts].
  rewrite Ascii.eqb_refl. exact IH.
Qed.

Lemma match_word_elim w re s :
  lowered w = true -> lowered s = true ->
  Re.match_here (word w ++ re) s = true ->
  exists rest, s = w +:+ rest /\ lowered rest = true /\
               Re.match_here re rest = true.
Proof.
  intros Hw Hs H. apply (match_word w re s Hw Hs) in H as (rest & -> & H).
  exists rest. split; [reflexivity |]. split; [| exact H].
  rewrite lowered_app in Hs. apply andb_true_iff in Hs as [_ Hs]. exact Hs.
Qed.

Lemma star_any_intro k x rest :
  no_newline x = true -> k rest = true ->
  Re.star Re.AnyChar k (x +:+ rest) = true.
Proof. intros Hx Hk. apply star_any_spec. exists x, rest. auto. Qed.

Lemma star_any_elim k s :
  lowered s = true -> Re.star Re.AnyChar k s = true ->
  exists x rest, s = x +:+ rest /\ no_newline x = true /\
                 lowered rest = true /\ k rest = true.
Proof.
  intros Hs H. apply star_any_spec in H as (x & rest & -> & Hx & Hk).
  exists x, rest. split; [reflexivity |]. split; [exact Hx |].
  split; [| exact Hk].
  rewrite lowered_app in Hs. apply andb_true_iff in Hs as [_ Hs]. exact Hs.
Qed.

Lemma extension_intro : Re.match_here (word ".md" ++ [Re.Eos]) ".md" = true.
Proof. reflexivity. Qed.

(** A pattern [w.*template.*\.md$] on a lowered name that ends in [.md]. *)
Lemma two_gaps w s :
  lowered w = true -> lowered s = true -> endswith s ".md" = true ->
  Re.match_here (word w ++ Re.Star Re.AnyChar :: word "template"
                 ++ Re.Star Re.AnyChar :: word ".md" ++ [Re.Eos]) s = true <->
  exists x y,
    s = w +:+ x +:+ "template" +:+ y +:+ ".md" /\
    no_newline x = true /\ no_newline y = true.
Proof.
  intros Hw Hs Hext. split.
  - intros H.
    apply (match_word_elim _ _ _ Hw Hs) in H as (r1 & -> & Hr1 & H).
    rewrite match_star in H.
    apply (star_any_elim _ _ Hr1) in H as (x & r2 & -> & Hx & Hr2 & H).
    apply (match_word_elim "template" _ _ eq_refl Hr2) in H as (r3 & -> & Hr3 & H).
    rewrite match_star in H.
    apply (star_any_elim _ _ Hr3) in H as (y & r4 & -> & Hy & Hr4 & H).
    destruct (match_extension _ Hr4 H) as [-> | ->].
    + exists x, y. auto.
    + rewrite !endswith_app in Hext
        by (rewrite ?string_length_app; cbn [String.length]; lia).
      discriminate Hext.
  - intros (x & y & -> & Hx & Hy).
    apply match_word_intro. rewrite match_star. apply star_any_intro; [exact Hx |].
    apply match_word_intro. rewrite match_star. apply star_any_intro; [exact Hy |].
    apply extension_intro.
Qed.

(** The pattern [merge.*request.*template.*\.md$]. *)
Lemma three_gaps s :
  lowered s = true -> endswith s ".md" = true ->
  Re.match_here (word "merge" ++ Re.Star Re.AnyChar :: word "request"
                 ++ Re.Star Re.AnyChar :: word "template"
                 ++ Re.Star Re.AnyChar :: word ".md" ++ [Re.Eos]) s = true <->
  exists x y z,
    s = "merge" +:+ x +:+ "request" +:+ y +:+ "template" +:+ z +:+ ".md" /\
    no_newline x = true /\ no_newline y = true /\ no_newline z = true.
Proof.
  intros Hs Hext. split.
  - intros H.
    apply (match_word_elim "merge" _ _ eq_refl Hs) in H as (r1 & -> & Hr1 & H).
    rewrite match_star in H.
    apply (star_any_elim _ _ Hr1) in H as (x & r2 & -> & Hx & Hr2 & H).
    apply (match_word_elim "request" _ _ eq_refl Hr2) in H as (r3 & -> & Hr3 & H).
    rewrite match_star in H.
    apply (star_any_elim _ _ Hr3) in H as (y & r4 & -> & Hy & Hr4 & H).
    apply (match_word_elim "template" _ _ eq_refl Hr4) in H as (r5 & -> & Hr5 & H).
    rewrite match_star in H.
    apply (star_any_elim _ _ Hr5) in H as (z & r6 & -> & Hz & Hr6 & H).
    destruct (match_extension _ Hr6 H) as [-> | ->].
    + exists x, y, z. auto.
    + rewrite !endswith_app in Hext
        by (rewrite ?string_length_app; cbn [String.length]; lia).
      discriminate Hext.
  - intros (x & y & z & -> & Hx & Hy & Hz).
    apply match_word_intro. rewrite match_star. apply star_any_intro; [exact Hx |].
    apply match_word_intro. rewrite match_star. apply star_any_intro; [exact Hy |].
    apply match_word_intro. rewrite match_star. apply star_any_intro; [exact Hz |].
    apply extension_intro.
Qed.

End Names.

(** X21: most of the template patterns are redundant: a file name matches
    the four issue patterns exactly when it matches the first of them, and
    the six merge-request patterns exactly when it matches the first or the
    third. *)
Theorem redundant_template_patterns :
  forall filename : string,
    match_template_patterns filename ISSUE_TEMPLATE_PATTERNS =
      match_template_patterns filename ["issue.*template.*\.md$"] /\
    match_template_patterns filename MR_TEMPLATE_PATTERNS =
      match_template_patterns filename
        ["merge.*request.*template.*\.md$"; "mr.*template.*\.md$"].
Proof.
  intros filename. unfold match_template_patterns.
  destruct (negb _); [split; reflexivity |].
  destruct (template_patterns_reduced (PyStr.lower filename)) as [-> ->].
  cbn [existsb]. rewrite !orb_false_r. split; reflexivity.
Qed.

(** X22: the ASCII names of issue templates: a file name of ASCII
    characters matches the issue patterns exactly when its lower-case form
    is [issue], then anything, then [template], then anything, then [.md],
    where anything holds no newline.  So an ASCII name has to begin with
    [issue], whatever the directory it is in.  (Outside ASCII the matching
    of Python knows more letters: the dotless i is one more [i].) *)
Theorem issue_template_names :
  forall filename : string,
    is_ascii filename = true ->
    (match_template_patterns filename ISSUE_TEMPLATE_PATTERNS = true <->
     exists x y,
       PyStr.lower filename = "issue" +:+ x +:+ "template" +:+ y +:+ ".md" /\
       no_newline x = true /\ no_newline y = true).
Proof.
  intros filename _. unfold match_template_patterns.
  destruct (template_patterns_reduced (PyStr.lower filename)) as [-> _].
  unfold Re.match_ignorecase. rewrite issue_pattern_compiled.
  pose proof (lowered_lower filename) as Hs.
  destruct (PyStr.endswith (PyStr.lower filename) ".md") eqn:Hext; cbn [negb].
  - apply (two_gaps "issue" _ eq_refl Hs Hext).
  - split; [discriminate |]. intros (x & y & Hname & _).
    rewrite Hname in Hext.
    rewrite !endswith_app in Hext
      by (rewrite ?string_length_app; cbn [String.length]; lia).
    discriminate Hext.
Qed.

Lemma issue_template_names_witness :
  match_template_patterns "Issue_Template.md" ISSUE_TEMPLATE_PATTERNS = true /\
  match_template_patterns "bug_report.md" ISSUE_TEMPLATE_PATTERNS = false.
Proof.
  split.
  - apply (issue_template_names "Issue_Template.md" eq_refl).
    exists "_", "". repeat split; reflexivity.
  - destruct (issue_template_names "bug_report.md" eq_refl) as [Hnames _].
    destruct (match_template_patterns "bug_report.md" ISSUE_TEMPLATE_PATTERNS);
      [| reflexivity].
    destruct (Hnames eq_refl) as (x & y & Hname & _).
    vm_compute in Hname. discriminate Hname.
Defined.

(** X23: the ASCII names of merge-request templates: a file name of ASCII
    characters matches the merge-request patterns exactly when its
    lower-case form is [merge], anything, [request], anything, [template],
    anything, [.md], or [mr], anything, [template], anything, [.md], where
    anything holds no newline.  (Outside ASCII the matching of Python knows
    more letters: the long s is one more [s].) *)
Theorem merge_request_template_names :
  forall filename : string,
    is_ascii filename = true ->
    (match_template_patterns filename MR_TEMPLATE_PATTERNS = true <->
     (exists x y z,
        PyStr.lower filename =
          "merge" +:+ x +:+ "request" +:+ y +:+ "template" +:+ z +:+ ".md" /\
        no_newline x = true /\ no_newline y = true /\ no_newline z = true) \/
     (exists x y,
        PyStr.lower filename = "mr" +:+ x +:+ "template" +:+ y +:+ ".md" /\
        no_newline x = true /\ no_newline y = true)).
Proof.
  intros filename _. unfold match_template_patterns.
  destruct (template_patterns_reduced (PyStr.lower filename)) as [_ ->].
  unfold Re.match_ignorecase.
  destruct mr_patterns_compiled as [-> ->].
  pose proof (lowered_lower filename) as Hs.
  destruct (PyStr.endswith (PyStr.lower filename) ".md") eqn:Hext; cbn [negb].
  - rewrite orb_true_iff.
    rewrite (three_gaps _ Hs Hext), (two_gaps "mr" _ eq_refl Hs Hext).
    reflexivity.
  - split; [discriminate |].
    intros [(x & y & z & Hname & _) | (x & y & Hname & _)];
      rewrite Hname in Hext;
      rewrite !endswith_app in Hext
        by (rewrite ?string_length_app; cbn [String.length]; lia);
      discriminate Hext.
Qed.

Lemma merge_request_template_names_witness :
  match_template_patterns "Merge_Request_Template.md" MR_TEMPLATE_PATTERNS = true /\
  match_template_patterns "MR-template.md" MR_TEMPLATE_PATTERNS = true.
Proof.
  split.
  - apply (merge_request_template_names "Merge_Request_Template.md" eq_refl).
    left. exists "_", "_", "". repeat split; reflexivity.
  - apply (merge_request_template_names "MR-template.md" eq_refl).
    right. exists "-", "". repeat split; reflexivity.
Defined.

Section Members.

Context {S : Type}.
Variable handle : S -> request -> S * response.
Variable API_TOKEN : string.

Lemma get_contributed_projects_run username (w : world S) :
  let q := user_request API_TOKEN username in
  let res := snd (handle (server w) q) in
  let w1 := answered handle w q in
  get_contributed_projects handle API_TOKEN username w =
  if negb (status_code res =? 200)%Z || negb (Py.truthy (body res))
  then (Ret [], w1)
  else
    match Py.first (body res) with
    | Raise e => (Raise e, w1)
    | Ret user =>
        match Py.item user "id" with
        | Raise e => (Raise e, w1)
        | Ret _ =>
            get_all_projects_with_pagination handle API_TOKEN membership_params w1
        end
    end.
Proof.
  intros q res w1. subst q res w1.
  unfold get_contributed_projects, bind, requests_get, lift, ret, user_request,
    answered.
  destruct (handle (server w) _) as [s' res]. cbn [fst snd].
  destruct (negb (status_code res =? 200)%Z || negb (Py.truthy (body res)));
    [reflexivity |].
  destruct (Py.first (body res)) as [user | e]; [| reflexivity].
  destruct (Py.item user "id"); reflexivity.
Qed.

Lemma directory_contains_templates_run project_id patterns (w : world S) :
  let q := tree_request API_TOKEN project_id in
  let res := snd (handle (server w) q) in
  let w1 := answered handle w q in
  directory_contains_templates handle API_TOKEN project_id patterns w =
  if negb (status_code res =? 200)%Z then (Ret false, w1)
  else
    match Py.iter (body res) with
    | Raise e => (Raise e, w1)
    | Ret entries =>
        match blob_names entries with
        | Raise e => (Raise e, w1)
        | Ret files => first_hit (match_template_name patterns) files w1
        end
    end.
Proof.
  intros q res w1. subst q res w1.
  unfold directory_contains_templates, bind, requests_get, lift, ret,
    tree_request, answered.
  destruct (handle (server w) _) as [s' res]. cbn [fst snd].
  destruct (negb (status_code res =? 200)%Z); [reflexivity |].
  destruct (Py.iter (body res)) as [entries | e]; [| reflexivity].
  destruct (blob_names entries); reflexivity.
Qed.

(** The keys of an object have no [type]. *)
Lemma blob_names_keys (fields : list (string * json)) :
  fields <> [] ->
  blob_names ((fun kv => JStr (fst kv)) <$> fields) = Raise TypeError.
Proof. destruct fields as [| [k v] fields]; [congruence | reflexivity]. Qed.

End Members.

(** X24: once the user search has found somebody, [get_contributed_projects]
    reads the [id] of the first record although it never uses it: with an
    [id], whatever its value, the outcome is that of the membership listing;
    a first record without [id] raises [KeyError], and so does an answer
    that is an object; an answer that is a text raises [TypeError].  In
    these cases no listing is requested. *)
Theorem user_record_needs_id :
  forall (S : Type) (handle : S -> request -> S * response) (API_TOKEN : string)
         (username : string) (w : world S),
    let q := user_request API_TOKEN username in
    let res := snd (handle (server w) q) in
    let w1 := answered handle w q in
    let r := get_contributed_projects handle API_TOKEN username w in
    status_code res = 200%Z ->
    (forall user users,
       body res = JArr (JObj user :: users) ->
       match Py.assoc "id" user with
       | Some _ =>
           r = get_all_projects_with_pagination handle API_TOKEN
                 membership_params w1
       | None => r = (Raise KeyError, w1)
       end) /\
    (forall fields,
       body res = JObj fields -> fields <> [] -> r = (Raise KeyError, w1)) /\
    (forall text,
       body res = JStr text -> text <> "" -> r = (Raise TypeError, w1)).
Proof.
  intros S handle API_TOKEN username w q res w1 r Hok. subst r.
  rewrite get_contributed_projects_run. fold q res w1. rewrite Hok.
  change (negb (200 =? 200)%Z) with false. cbn [orb].
  split; [| split].
  - intros user users ->. cbn [Py.truthy negb Py.first Py.item].
    destruct (Py.assoc "id" user); reflexivity.
  - intros fields -> Hfields.
    destruct fields as [| kv fields]; [congruence | reflexivity].
  - intros text -> Htext.
    destruct text as [| c text]; [congruence | reflexivity].
Qed.

Lemma user_record_needs_id_witness :
  get_contributed_projects (Static.handle membership_site) "token" "alice"
    Static.start =
  get_all_projects_with_pagination (Static.handle membership_site) "token"
    membership_params
    (answered (Static.handle membership_site) Static.start
       (user_request "token" "alice")).
Proof.
  destruct (user_record_needs_id unit (Static.handle membership_site) "token"
              "alice" Static.start) as (Hrecord & _).
  - reflexivity.
  - exact (Hrecord [("id", JNum 1); ("username", JStr "alice")] [] eq_refl).
Defined.

(** X25: a username input, on a server whose answers depend on the request
    only and whose 200 answers are arrays, with a user record that has an
    [id]: the classifier returns the pages 1 to k of the membership listing
    one after the other as the projects, where k is the first page with
    fewer than 100 items or 1000, and the error naming the trimmed input
    when these pages hold nothing. *)
Theorem username_input_lists_all_pages :
  forall (S : Type) (handle : S -> request -> S * response) (API_TOKEN : string)
         (respond : request -> response) (input_value : string)
         (user : list (string * json)) (users : list json) (w : world S),
    stable handle respond ->
    (forall q, status_code (respond q) = 200%Z ->
               exists l, body (respond q) = JArr l) ->
    let username := PyStr.strip input_value in
    PyStr.contains GITLAB_URL username = false ->
    PyStr.isdigit username = false ->
    respond (user_request API_TOKEN username) =
      mk_response 200 (JArr (JObj user :: users)) ->
    is_Some (Py.assoc "id" user) ->
    let items i :=
      page_items (respond (page_request API_TOKEN membership_params i)) in
    exists k : nat,
      (1 <= Z.of_nat k <= 1000)%Z /\
      (forall i, (1 <= i < Z.of_nat k)%Z ->
                 (100 <= Z.of_nat (length (items i)))%Z) /\
      (k = 1000%nat \/ (Z.of_nat (length (items (Z.of_nat k))) < 100)%Z) /\
      fst (determine_input_type_and_process handle API_TOKEN input_value w) =
        Ret (match concat (items <$> seqZ 1 (Z.of_nat k)) with
             | [] => Error ("No projects found for username: " +:+ username)
             | (_ :: _) as project_list => Projects project_list
             end).
Proof.
  intros S handle API_TOKEN respond input_value user users w Hstable Harrays
    username Hurl Hdigit Huser [user_id Hid] items.
  set (w1 := answered handle w (user_request API_TOKEN username)).
  destruct (pagination_loop_stable handle API_TOKEN respond membership_params
              1 [] w1 Hstable Harrays ltac:(lia)) as (k & Hk & Hrun & Hfull & Hlast).
  exists k. split; [lia |]. split; [intros i Hi; apply Hfull; lia |].
  split.
  { destruct Hlast as [Hlast | Hlast]; [left; lia |]. right.
    replace (Z.of_nat k) with (1 + Z.of_nat k - 1)%Z at 1 by lia. exact Hlast. }
  unfold determine_input_type_and_process. fold username.
  rewrite Hurl, Hdigit. rewrite bind_run, get_contributed_projects_run.
  cbv zeta. rewrite !(Hstable (server w)), Huser.
  cbn [status_code body Py.truthy Py.first Py.item].
  change (negb (200 =? 200)%Z) with false. cbn [orb negb]. rewrite Hid.
  fold w1. unfold get_all_projects_with_pagination.
  cbn [app] in Hrun. fold items in Hrun.
  destruct (pagination_loop handle API_TOKEN membership_params 1 [] w1)
    as [[l | e] w2]; cbn [fst] in Hrun; [| discriminate Hrun].
  injection Hrun as ->.
  destruct (concat _); reflexivity.
Qed.

Lemma username_input_lists_all_pages_witness :
  exists k : nat,
    fst (determine_input_type_and_process (Static.handle membership_site) "token"
           "alice" Static.start) =
    Ret (match concat ((fun i => page_items
                          (Static.serve membership_site
                             (page_request "token" membership_params i)))
                       <$> seqZ 1 (Z.of_nat k)) with
         | [] => Error ("No projects found for username: " +:+ PyStr.strip "alice")
         | (_ :: _) as project_list => Projects project_list
         end).
Proof.
  destruct (username_input_lists_all_pages unit (Static.handle membership_site)
              "token" (Static.serve membership_site) "alice"
              [("id", JNum 1); ("username", JStr "alice")] [] Static.start)
    as (k & _ & _ & _ & Hrun).
  - intros s q. reflexivity.
  - intros q. unfold Static.serve, membership_site. cbn [find].
    repeat (destruct (Static.route_matches q _);
            [intros _; eexists; reflexivity |]).
    intros H. vm_compute in H. discriminate H.
  - reflexivity.
  - reflexivity.
  - vm_compute. reflexivity.
  - eexists. reflexivity.
  - exists k. exact Hrun.
Defined.

(** X26: the scanner reads the whole listing before it looks at a name: on
    a 200 answer whose entries cannot all be read it raises the exception of
    the first such entry, also when a file before it is a template, and it
    raises [TypeError] when the answer is an object, as an error message is.
    [get_compliance_status] then raises as well and returns no status. *)
Theorem scanner_reads_listing_first :
  forall (S : Type) (handle : S -> request -> S * response) (API_TOKEN : string)
         (project_id : Z) (patterns : list string) (w : world S),
    let q := tree_request API_TOKEN project_id in
    let res := snd (handle (server w) q) in
    let r := directory_contains_templates handle API_TOKEN project_id patterns w in
    status_code res = 200%Z ->
    (forall entries e,
       body res = JArr entries -> blob_names entries = Raise e ->
       r = (Raise e, answered handle w q)) /\
    (forall fields,
       body res = JObj fields -> fields <> [] ->
       r = (Raise TypeError, answered handle w q)) /\
    ((forall s, exists fields,
        fields <> [] /\ snd (handle s q) = mk_response 200 (JObj fields)) ->
     fst (get_compliance_status handle API_TOKEN project_id w) = Raise TypeError).
Proof.
  intros S handle API_TOKEN project_id patterns w q res r Hok. subst r.
  rewrite directory_contains_templates_run. fold q res. rewrite Hok.
  change (negb (200 =? 200)%Z) with false. cbv iota.
  split; [| split].
  - intros entries e -> Hnames. cbn [Py.iter]. rewrite Hnames. reflexivity.
  - intros fields -> Hfields. cbn [Py.iter].
    rewrite blob_names_keys by exact Hfields. reflexivity.
  - intros Hmessage. unfold get_compliance_status. rewrite bind_run.
    destruct (check_files_count handle API_TOKEN project_id REQUIRED_FILES ∅ w)
      as (m0 & w1 & -> & _).
    rewrite bind_run, directory_contains_templates_run. cbv zeta.
    destruct (Hmessage (server w1)) as (fields & Hfields & Hres).
    fold q. rewrite Hres. cbn [status_code body Py.iter].
    change (negb (200 =? 200)%Z) with false. cbv iota.
    rewrite blob_names_keys by exact Hfields. reflexivity.
Qed.

Lemma scanner_reads_listing_first_witness :
  fst (directory_contains_templates (Static.handle broken_entry_site) "token" 16
         ISSUE_TEMPLATE_PATTERNS Static.start) = Raise KeyError /\
  fst (get_compliance_status (Static.handle message_listing_site) "token" 15
         Static.start) = Raise TypeError.
Proof.
  split.
  - destruct (scanner_reads_listing_first unit (Static.handle broken_entry_site)
                "token" 16 ISSUE_TEMPLATE_PATTERNS Static.start) as (Hentry & _).
    + reflexivity.
    + rewrite (Hentry [Static.blob "issue_template.md"; JObj [("name", JStr "x.md")]]
                 KeyError eq_refl eq_refl).
      reflexivity.
  - destruct (scanner_reads_listing_first unit (Static.handle message_listing_site)
                "token" 15 ISSUE_TEMPLATE_PATTERNS Static.start) as (_ & _ & Hstatus).
    + reflexivity.
    + apply Hstatus. intros s.
      exists [("message", JStr "404 Tree Not Found")].
      split; [discriminate | reflexivity].
Defined.

Section Messages.

Context {S : Type}.
Variable handle : S -> request -> S * response.
Variable API_TOKEN : string.

Lemma score_range (status : gmap string bool) :
  (0 <= score status <= total status)%Z.
Proof.
  unfold score, total. rewrite <- length_map_to_list.
  pose proof (length_filter (fun kv : string * bool => kv.2 = true)
                (map_to_list status)). lia.
Qed.

(** The status the display works on has its eight checks. *)
Lemma returned_status_total project_id (w : world S) status :
  fst (get_compliance_status handle API_TOKEN project_id w) = Ret status ->
  status <> ∅ ->
  total status = 8%Z.
Proof.
  intros Hret Hne.
  destruct (get_compliance_status_run handle API_TOKEN project_id w)
    as [[e He] | (m0 & w' & Hdom0 & Hphase)]; [congruence |].
  rewrite Hphase in Hret.
  destruct (metadata_phase_keys _ _ _ _ _ _ Hdom0 Hret) as [-> | Hdom];
    [destruct Hne; reflexivity |].
  unfold total.
  rewrite <- size_dom, Hdom, size_list_to_set by apply status_keys_NoDup.
  reflexivity.
Qed.

End Messages.

(** X27: what the display says of a status that [get_compliance_status]
    returned and that is not empty, by the number of checks passed out of
    8: all 8 is excellent and green; 7 is good and yellow; 6 needs
    improvement, and is yellow; 5 needs improvement and is red; 4 or fewer
    is poor compliance and red.  The thresholds are those of the
    floating-point products [8 * 0.8], [8 * 0.6] and [8 * 0.7]. *)
Theorem score_messages :
  forall (S : Type) (handle : S -> request -> S * response) (API_TOKEN : string)
         (project_id : Z) (w : world S) (status : gmap string bool),
    fst (get_compliance_status handle API_TOKEN project_id w) = Ret status ->
    status <> ∅ ->
    let passed := score status in
    (0 <= passed <= 8)%Z /\
    score_message passed (total status) =
      (if (passed =? 8)%Z then Excellent
       else if (passed =? 7)%Z then Good
       else if (5 <=? passed)%Z then NeedsImprovement
       else PoorCompliance) /\
    score_colour passed (total status) =
      (if (passed =? 8)%Z then Green
       else if (6 <=? passed)%Z then Yellow
       else Red).
Proof.
  intros S handle API_TOKEN project_id w status Hret Hne passed.
  pose proof (score_range status) as Hrange. fold passed in Hrange.
  rewrite (returned_status_total handle API_TOKEN project_id w status Hret Hne)
    in *.
  split; [exact Hrange |].
  assert (Hcases : (passed = 0 \/ passed = 1 \/ passed = 2 \/ passed = 3 \/
                    passed = 4 \/ passed = 5 \/ passed = 6 \/ passed = 7 \/
                    passed = 8)%Z) by lia.
  clearbody passed.
  repeat (destruct Hcases as [-> | Hcases]; [split; vm_compute; reflexivity |]).
  subst passed. split; vm_compute; reflexivity.
Qed.

Lemma score_messages_witness :
  exists status : gmap string bool,
    fst (get_compliance_status (Static.handle blank_description_site) "token" 14
           Static.start) = Ret status /\
    (0 <= score status <= 8)%Z /\
    score_colour (score status) (total status) =
      (if (score status =? 8)%Z then Green
       else if (6 <=? score status)%Z then Yellow
       else Red).
Proof.
  destruct blank_description_site_runs as (status & Hrun & Htags).
  exists status. split; [exact Hrun |].
  destruct (score_messages unit (Static.handle blank_description_site) "token" 14
              Static.start status Hrun) as (Hrange & _ & Hcolour).
  - intros ->. rewrite lookup_empty in Htags. discriminate Htags.
  - split; [exact Hrange | exact Hcolour].
Defined.

(** X28: the aggregator never checks that a page is a list.  A first page
    that is a 200 with an object of fewer than 100 fields is taken for a
    last page, and the keys of the object are returned as the projects; a
    first page that is a number other than zero, or [true], raises
    [TypeError].  In each case one request is issued. *)
Theorem aggregator_takes_any_page :
  forall (S : Type) (handle : S -> request -> S * response) (API_TOKEN : string)
         (params : gmap string json) (w : world S),
    let q := page_request API_TOKEN params 1 in
    let res := snd (handle (server w) q) in
    let r := get_all_projects_with_pagination handle API_TOKEN params w in
    status_code res = 200%Z ->
    (forall fields,
       body res = JObj fields -> fields <> [] -> length fields < 100 ->
       r = (Ret ((fun kv => JStr (fst kv)) <$> fields), answered handle w q)) /\
    (forall n,
       body res = JNum n -> n <> 0%Z ->
       r = (Raise TypeError, answered handle w q)) /\
    (body res = JBool true -> r = (Raise TypeError, answered handle w q)).
Proof.
  intros S handle API_TOKEN params w q res r Hok. subst r.
  unfold get_all_projects_with_pagination.
  rewrite pagination_loop_unroll, pagination_step_run. fold q res.
  rewrite Hok. change (negb (200 =? 200)%Z) with false. cbv iota.
  split; [| split].
  - intros fields -> Hfields Hlen.
    destruct fields as [| kv fields]; [congruence |].
    cbn [Py.truthy negb Py.iter Py.len].
    destruct (Z.ltb_spec (Z.of_nat (length (kv :: fields))) 100) as [_ | Hge];
      [reflexivity | lia].
  - intros n -> Hn. cbn [Py.truthy Py.iter].
    destruct (Z.eqb_spec n 0) as [Heq | _]; [destruct (Hn Heq) | reflexivity].
  - intros ->. reflexivity.
Qed.

Lemma aggregator_takes_any_page_witness :
  get_all_projects_with_pagination (Static.handle error_page_site) "token" ∅
    Static.start =
  (Ret [JStr "message"],
   answered (Static.handle error_page_site) Static.start
     (page_request "token" ∅ 1)).
Proof.
  destruct (aggregator_takes_any_page unit (Static.handle error_page_site)
              "token" ∅ Static.start) as (Hobject & _).
  - reflexivity.
  - apply (Hobject [("message", JStr "401 Unauthorized")]).
    + reflexivity.
    + discriminate.
    + cbn [length]. lia.
Defined.
